(** * Betfair file parser: the decode-and-normalize pipeline

    A shallow embedding of [main.py] (classes [BetfairDataParser] and
    [DataExporter], endpoint [export_file]).

    Python objects coming out of [json.loads] are values of [pyval];
    exceptions are values of [exn] carried by the [result] monad; the
    libraries the program calls ([bz2], [json], pydantic's field
    validators, [str.lower], number formatting) are parameters of the
    sections that use them. *)

From Stdlib Require Import String Ascii ZArith NArith List Bool Lia.
From Stdlib Require Import Floats.PrimFloat Floats.SpecFloat Floats.FloatOps.
Import ListNotations.

Local Open Scope Z_scope.
Set Warnings "-register-all".

(* ------------------------------------------------------------------ *)
(** ** Python strings *)

(** A Python [str] is a sequence of Unicode code points. *)
Definition pystr := list N.

(** String literals of the source, written as Rocq strings. *)
Definition pys (s : string) : pystr :=
  map N_of_ascii (list_ascii_of_string s).

Fixpoint pystr_eqb (s t : pystr) : bool :=
  match s, t with
  | [], [] => true
  | c :: s', d :: t' => N.eqb c d && pystr_eqb s' t'
  | _, _ => false
  end.

(** [str.isspace] on one code point (the Unicode White_Space set plus the
    four ASCII separators U+001C..U+001F, as CPython has it). *)
Definition isspace (c : N) : bool :=
  ((9 <=? c) && (c <=? 13) || (28 <=? c) && (c <=? 32)
   || (c =? 133) || (c =? 160) || (c =? 5760)
   || (8192 <=? c) && (c <=? 8202)
   || (c =? 8232) || (c =? 8233) || (c =? 8239) || (c =? 8287)
   || (c =? 12288))%N.

Fixpoint lstrip (s : pystr) : pystr :=
  match s with
  | c :: s' => if isspace c then lstrip s' else s
  | [] => []
  end.

Definition rstrip (s : pystr) : pystr := rev (lstrip (rev s)).

(** [s.strip()] *)
Definition strip (s : pystr) : pystr := rstrip (lstrip s).

(** [s.split('\n')]: never the empty list, [''.split('\n') == ['']]. *)
Fixpoint split_nl (s : pystr) : list pystr :=
  match s with
  | [] => [[]]
  | c :: s' =>
      if (c =? 10)%N then [] :: split_nl s'
      else match split_nl s' with
           | l :: ls => (c :: l) :: ls
           | [] => [[c]]
           end
  end.

(** ASCII lower-casing, the part of [str.lower] that computes here. *)
Definition ascii_lower (s : pystr) : pystr :=
  map (fun c => if ((65 <=? c) && (c <=? 90))%N then (c + 32)%N else c) s.

(* ------------------------------------------------------------------ *)
(** ** Python values *)

(** What [json.loads] can return: [None], [bool], [int], [float], [str],
    [list] and [dict] with string keys.  A dict is an association list
    in insertion order; [json.loads] produces distinct keys. *)
Inductive pyval : Type :=
| PNone
| PBool (b : bool)
| PInt (z : Z)
| PFloat (f : float)
| PStr (s : pystr)
| PList (l : list pyval)
| PDict (kvs : list (pystr * pyval)).

Fixpoint dict_lookup {A : Type} (k : pystr) (kvs : list (pystr * A)) : option A :=
  match kvs with
  | [] => None
  | (k', v) :: rest => if pystr_eqb k k' then Some v else dict_lookup k rest
  end.

(** ** Exceptions *)

Inductive exn_kind : Type :=
| IndexError | KeyError | AttributeError | TypeError | ValueError
| OverflowError | ValidationError | OSError | UnicodeDecodeError
| JSONDecodeError | RecursionError
| HTTPException (status_code : Z).

(** An exception: its class and [str(e)] (for [HTTPException], [detail]). *)
Inductive exn : Type := Exn (kind : exn_kind) (msg : pystr).

Definition exn_str (e : exn) : pystr := let 'Exn _ m := e in m.
Definition exn_kind_of (e : exn) : exn_kind := let 'Exn k _ := e in k.

Inductive result (A : Type) : Type :=
| Ok (a : A)
| Raise (e : exn).
Arguments Ok {A} a.
Arguments Raise {A} e.

Definition bind {A B : Type} (c : result A) (f : A -> result B) : result B :=
  match c with
  | Ok a => f a
  | Raise e => Raise e
  end.

Declare Scope py_scope.
Delimit Scope py_scope with py.
Notation "x <- c ;; k" := (bind c (fun x => k))
  (at level 61, c at next level, right associativity) : py_scope.
Local Open Scope py_scope.

(** [try: c  except Exception as e: h e] *)
Definition try_except {A : Type} (c : result A) (h : exn -> result A) : result A :=
  match c with
  | Ok a => Ok a
  | Raise e => h e
  end.

(** [isinstance(e, ValueError)]: [UnicodeDecodeError], [json.JSONDecodeError]
    and pydantic's [ValidationError] derive from [ValueError]. *)
Definition is_ValueError (e : exn) : bool :=
  match exn_kind_of e with
  | ValueError | UnicodeDecodeError | ValidationError | JSONDecodeError => true
  | _ => false
  end.

(** [isinstance(e, json.JSONDecodeError)] *)
Definition is_JSONDecodeError (e : exn) : bool :=
  match exn_kind_of e with
  | JSONDecodeError => true
  | _ => false
  end.

Definition is_HTTPException (e : exn) : bool :=
  match exn_kind_of e with
  | HTTPException _ => true
  | _ => false
  end.

Fixpoint mapM {A B : Type} (f : A -> result B) (l : list A) : result (list B) :=
  match l with
  | [] => Ok []
  | x :: l' => y <- f x ;; ys <- mapM f l' ;; Ok (y :: ys)
  end.

(* ------------------------------------------------------------------ *)
(** ** Python floats are IEEE binary64 *)

(** [float(z)] for an [int]: correctly rounded, [OverflowError] when the
    result is not finite. *)
Definition float_of_Z (z : Z) : result float :=
  match binary_normalize prec emax z 0 false with
  | S754_infinity _ | S754_nan =>
      Raise (Exn OverflowError (pys "int too large to convert to float"))
  | sf => Ok (SF2Prim sf)
  end.

(** [z == f] for an [int] and a [float]: exact, no rounding of [z]. *)
Definition Z_float_eqb (z : Z) (f : float) : bool :=
  match Prim2SF f with
  | S754_zero _ => z =? 0
  | S754_finite s m e =>
      let sm := if s then Z.neg m else Z.pos m in
      if 0 <=? e then z =? sm * 2 ^ e else z * 2 ^ (- e) =? sm
  | _ => false
  end.

Inductive pynum : Type :=
| NumInt (z : Z)
| NumFloat (f : float).

(** [bool] is a subclass of [int]. *)
Definition as_num (v : pyval) : option pynum :=
  match v with
  | PBool b => Some (NumInt (Z.b2z b))
  | PInt z => Some (NumInt z)
  | PFloat f => Some (NumFloat f)
  | _ => None
  end.

Definition num_eqb (a b : pynum) : bool :=
  match a, b with
  | NumInt x, NumInt y => x =? y
  | NumFloat f, NumFloat g => PrimFloat.eqb f g
  | NumInt z, NumFloat f => Z_float_eqb z f
  | NumFloat f, NumInt z => Z_float_eqb z f
  end.

(** [a == b].  Object identity is not modelled, so the identity shortcut
    of container comparison (a list holding the very same NaN object) is
    out of reach. *)
Fixpoint py_eq (a b : pyval) {struct a} : bool :=
  match as_num a, as_num b with
  | Some x, Some y => num_eqb x y
  | None, None =>
      match a, b with
      | PNone, PNone => true
      | PStr s, PStr t => pystr_eqb s t
      | PList l, PList m =>
          (fix go (l m : list pyval) {struct l} : bool :=
             match l, m with
             | [], [] => true
             | x :: l', y :: m' => py_eq x y && go l' m'
             | _, _ => false
             end) l m
      | PDict kvs, PDict kvs' =>
          Nat.eqb (length kvs) (length kvs')
          && (fix go (kvs : list (pystr * pyval)) : bool :=
                match kvs with
                | [] => true
                | (k, v) :: rest =>
                    match dict_lookup k kvs' with
                    | Some v' => py_eq v v'
                    | None => false
                    end && go rest
                end) kvs
      | _, _ => false
      end
  | _, _ => false
  end.

(** [bool(v)] *)
Definition py_truthy (v : pyval) : bool :=
  match v with
  | PNone => false
  | PBool b => b
  | PInt z => negb (z =? 0)
  | PFloat f => negb (PrimFloat.eqb f 0%float)
  | PStr s => match s with [] => false | _ => true end
  | PList l => match l with [] => false | _ => true end
  | PDict kvs => match kvs with [] => false | _ => true end
  end.

(** [obj.get(key, default)]: only a dict has the method. *)
Definition py_get (obj : pyval) (key : pystr) (default : pyval) : result pyval :=
  match obj with
  | PDict kvs =>
      Ok (match dict_lookup key kvs with Some v => v | None => default end)
  | _ => Raise (Exn AttributeError (pys "object has no attribute 'get'"))
  end.

(** [obj[0]] *)
Definition py_getitem0 (obj : pyval) : result pyval :=
  match obj with
  | PList (x :: _) => Ok x
  | PList [] => Raise (Exn IndexError (pys "list index out of range"))
  | PStr (c :: _) => Ok (PStr [c])
  | PStr [] => Raise (Exn IndexError (pys "string index out of range"))
  | PDict _ => Raise (Exn KeyError (pys "0"))
  | _ => Raise (Exn TypeError (pys "object is not subscriptable"))
  end.

(** The items a [for] loop or comprehension over [obj] visits. *)
Definition py_iter (obj : pyval) : result (list pyval) :=
  match obj with
  | PList l => Ok l
  | PDict kvs => Ok (map (fun kv => PStr (fst kv)) kvs)
  | PStr s => Ok (map (fun c => PStr [c]) s)
  | _ => Raise (Exn TypeError (pys "object is not iterable"))
  end.

(* ------------------------------------------------------------------ *)
(** ** Data models (the pydantic classes) *)

Record RunnerBSP : Type := {
  near_price : option float;
  far_price : option float;
  actual_sp : option float;
  back_stake_taken : list (list float);
  lay_liability_taken : list (list float)
}.

Record RunnerEX : Type := {
  available_to_back : list (list float);
  available_to_lay : list (list float);
  traded_volume : list (list float)
}.

Record Runner : Type := {
  selection_id : Z;
  runner_name : pystr;
  status : pystr;
  bsp : RunnerBSP;
  ex : RunnerEX;
  last_price_traded : option float;
  adjustment_factor : option float
}.

Record Market : Type := {
  market_id : pystr;
  market_name : pystr;
  market_type : pystr;
  event_id : option pystr;
  event_name : option pystr;
  event_date : option pystr;
  country_code : option pystr;
  market_status : pystr;
  inplay : bool;
  total_matched : float;
  total_available : float;
  number_of_runners : Z;
  number_of_winners : Z;
  publish_time : option pystr;
  version : option Z;
  runners : list Runner
}.

Record FileMetadata : Type := {
  file_id : pystr;
  file_name : pystr;
  size_bytes : Z;
  upload_time : pystr;
  processing_status : pystr;
  error_message : option pystr;
  processed_at : option pystr
}.

Record ProcessingStats : Type := {
  total_records : Z;
  total_runners : Z;
  processing_time_ms : Z;
  compressed_size_bytes : Z;
  decompressed_size_bytes : Z
}.

Record FileParseResponse : Type := {
  file_metadata : FileMetadata;
  markets : list Market;
  processing_stats : ProcessingStats
}.

Record ExportRequest : Type := {
  format : pystr;
  include_prices : bool;
  runner_filter : option (list Z)
}.

(** A field validator answers [None] where pydantic reports an error;
    the model constructor then raises [ValidationError]. *)
Definition validated {A : Type} (o : option A) : result A :=
  match o with
  | Some a => Ok a
  | None => Raise (Exn ValidationError (pys "validation error"))
  end.

(** [Optional[T]]: [None] is kept, anything else goes to [T]'s validator. *)
Definition v_optional {A : Type} (v : pyval -> option A) (x : pyval) : option (option A) :=
  match x with
  | PNone => Some None
  | _ => option_map Some (v x)
  end.

Fixpoint v_list {A B : Type} (v : A -> option B) (l : list A) : option (list B) :=
  match l with
  | [] => Some []
  | x :: l' =>
      match v x, v_list v l' with
      | Some y, Some ys => Some (y :: ys)
      | _, _ => None
      end
  end.

(* ------------------------------------------------------------------ *)
(** ** The normalizer: [BetfairDataParser.extract_market_data] *)

Section Normalizer.

(** pydantic's validators for [str], [int], [float] and [bool] fields. *)
Variable v_str : pyval -> option pystr.
Variable v_int : pyval -> option Z.
Variable v_float : pyval -> option float.
Variable v_bool : pyval -> option bool.

(** [float(s)] for a [str]; [None] is [ValueError]. *)
Variable float_of_str : pystr -> option float.

(** [List[List[float]]], given what [_format_price_stakes] returns. *)
Definition v_ladder (x : pyval) : option (list (list float)) :=
  match x with
  | PList rows =>
      v_list (fun row => match row with
                         | PList items => v_list v_float items
                         | _ => None
                         end) rows
  | _ => None
  end.

(** [float(item)] *)
Definition py_float (item : pyval) : result float :=
  match item with
  | PFloat f => Ok f
  | PInt z => float_of_Z z
  | PBool b => Ok (if b then 1%float else 0%float)
  | PStr s =>
      match float_of_str s with
      | Some f => Ok f
      | None => Raise (Exn ValueError (pys "could not convert string to float"))
      end
  | _ => Raise (Exn TypeError (pys "float() argument must be a string or a real number"))
  end.

(** One element of the comprehension in [_format_price_stakes]:
    [list(item) if isinstance(item, (list, tuple)) else [float(item), 0.0]] *)
Definition format_item (item : pyval) : result pyval :=
  match item with
  | PList l => Ok (PList l)
  | _ => f <- py_float item ;; Ok (PList [PFloat f; PFloat 0%float])
  end.

Definition _format_price_stakes (raw_data : pyval) : result pyval :=
  if negb (py_truthy raw_data) then Ok (PList [])
  else
    items <- py_iter raw_data ;;
    out <- mapM format_item items ;;
    Ok (PList out).

(** What a ladder field of the typed output holds for the raw value
    [raw_data]: [_format_price_stakes], then the [List[List[float]]]
    validation of the model constructor. *)
Definition ladder_of (raw_data : pyval) : result (list (list float)) :=
  formatted <- _format_price_stakes raw_data ;;
  validated (v_ladder formatted).

Definition new_RunnerBSP (n f l bst lst : pyval) : result RunnerBSP :=
  n' <- validated (v_optional v_float n) ;;
  f' <- validated (v_optional v_float f) ;;
  l' <- validated (v_optional v_float l) ;;
  bst' <- validated (v_ladder bst) ;;
  lst' <- validated (v_ladder lst) ;;
  Ok {| near_price := n'; far_price := f'; actual_sp := l';
        back_stake_taken := bst'; lay_liability_taken := lst' |}.

Definition new_RunnerEX (atb atl tv : pyval) : result RunnerEX :=
  atb' <- validated (v_ladder atb) ;;
  atl' <- validated (v_ladder atl) ;;
  tv' <- validated (v_ladder tv) ;;
  Ok {| available_to_back := atb'; available_to_lay := atl';
        traded_volume := tv' |}.

Definition new_Runner (sid name st : pyval) (b : RunnerBSP) (e : RunnerEX)
    (ltp adj : pyval) : result Runner :=
  sid' <- validated (v_int sid) ;;
  name' <- validated (v_str name) ;;
  st' <- validated (v_str st) ;;
  ltp' <- validated (v_optional v_float ltp) ;;
  adj' <- validated (v_optional v_float adj) ;;
  Ok {| selection_id := sid'; runner_name := name'; status := st';
        bsp := b; ex := e; last_price_traded := ltp';
        adjustment_factor := adj' |}.

(** The inner [for rc in runner_catalogue] loop with its [break];
    [runner_name] is the value held when the loop is entered. *)
Fixpoint scan_catalogue (runner_catalogue : list pyval)
    (selection_id runner_name : pyval) : result pyval :=
  match runner_catalogue with
  | [] => Ok runner_name
  | rc :: rest =>
      sid <- py_get rc (pys "selectionId") PNone ;;
      if py_eq sid selection_id
      then py_get rc (pys "runnerName") (PStr (pys "Unknown"))
      else scan_catalogue rest selection_id runner_name
  end.

(** The body of [for runner_book in runner_books]. *)
Definition extract_runner (market_catalogue runner_book : pyval) : result Runner :=
  selection_id <- py_get runner_book (pys "id") PNone ;;
  status <- py_get runner_book (pys "status") (PStr (pys "ACTIVE")) ;;
  runner_catalogue <- py_get market_catalogue (pys "runners") (PList []) ;;
  rcs <- py_iter runner_catalogue ;;
  runner_name <- scan_catalogue rcs selection_id (PStr (pys "Unknown")) ;;
  bsp_data <- py_get runner_book (pys "sp") (PDict []) ;;
  n <- py_get bsp_data (pys "n") PNone ;;
  f <- py_get bsp_data (pys "f") PNone ;;
  l <- py_get bsp_data (pys "l") PNone ;;
  bst_raw <- py_get bsp_data (pys "bst") (PList []) ;;
  bst <- _format_price_stakes bst_raw ;;
  lst_raw <- py_get bsp_data (pys "lst") (PList []) ;;
  lst <- _format_price_stakes lst_raw ;;
  bsp <- new_RunnerBSP n f l bst lst ;;
  ex_data <- py_get runner_book (pys "ex") (PDict []) ;;
  atb_raw <- py_get ex_data (pys "atb") (PList []) ;;
  atb <- _format_price_stakes atb_raw ;;
  atl_raw <- py_get ex_data (pys "atl") (PList []) ;;
  atl <- _format_price_stakes atl_raw ;;
  tv_raw <- py_get ex_data (pys "tv") (PList []) ;;
  tv <- _format_price_stakes tv_raw ;;
  ex <- new_RunnerEX atb atl tv ;;
  last_price_traded <- py_get runner_book (pys "ltp") PNone ;;
  adjustment_factor <- py_get runner_book (pys "adjustmentFactor") (PFloat 1%float) ;;
  new_Runner selection_id runner_name status bsp ex
             last_price_traded adjustment_factor.

(** The loop itself: [runners.append(runner)] on each round. *)
Fixpoint extract_runners (market_catalogue : pyval) (runner_books : list pyval)
    (runners : list Runner) : result (list Runner) :=
  match runner_books with
  | [] => Ok runners
  | runner_book :: rest =>
      runner <- extract_runner market_catalogue runner_book ;;
      extract_runners market_catalogue rest (runners ++ [runner])
  end.

Definition new_Market (mid name mtype eid ename edate ccode mstatus inpl
    tm ta nrunners nwinners ptime ver : pyval) (rs : list Runner) : result Market :=
  mid' <- validated (v_str mid) ;;
  name' <- validated (v_str name) ;;
  mtype' <- validated (v_str mtype) ;;
  eid' <- validated (v_optional v_str eid) ;;
  ename' <- validated (v_optional v_str ename) ;;
  edate' <- validated (v_optional v_str edate) ;;
  ccode' <- validated (v_optional v_str ccode) ;;
  mstatus' <- validated (v_str mstatus) ;;
  inpl' <- validated (v_bool inpl) ;;
  tm' <- validated (v_float tm) ;;
  ta' <- validated (v_float ta) ;;
  nrunners' <- validated (v_int nrunners) ;;
  nwinners' <- validated (v_int nwinners) ;;
  ptime' <- validated (v_optional v_str ptime) ;;
  ver' <- validated (v_optional v_int ver) ;;
  Ok {| market_id := mid'; market_name := name'; market_type := mtype';
        event_id := eid'; event_name := ename'; event_date := edate';
        country_code := ccode'; market_status := mstatus'; inplay := inpl';
        total_matched := tm'; total_available := ta';
        number_of_runners := nrunners'; number_of_winners := nwinners';
        publish_time := ptime'; version := ver'; runners := rs |}.

(** [if not market_name or market_name == 'Unknown Market': ...] *)
Definition fallback_market_name (market_catalogue market_name : pyval) : result pyval :=
  if negb (py_truthy market_name) || py_eq market_name (PStr (pys "Unknown Market"))
  then py_get market_catalogue (pys "marketName") market_name
  else Ok market_name.

Definition extract_market_data (stream_data : pyval) : result Market :=
  mc <- py_get stream_data (pys "mc") (PList [PDict []]) ;;
  mc0 <- py_getitem0 mc ;;
  market_id <- py_get mc0 (pys "id") (PStr (pys "UNKNOWN")) ;;
  market_definition <- py_get stream_data (pys "marketDefinition") (PDict []) ;;
  market_name <- py_get market_definition (pys "name") (PStr (pys "Unknown Market")) ;;
  market_type <- py_get market_definition (pys "marketType") (PStr (pys "UNKNOWN")) ;;
  event <- py_get market_definition (pys "event") (PDict []) ;;
  event_id <- py_get event (pys "id") (PStr []) ;;
  event_name <- py_get event (pys "name") (PStr []) ;;
  event_date <- py_get event (pys "openDate") (PStr []) ;;
  country_code <- py_get event (pys "countryCode") (PStr []) ;;
  market_catalogue <- py_get stream_data (pys "marketCatalogue") (PDict []) ;;
  market_name <- fallback_market_name market_catalogue market_name ;;
  mc' <- py_get stream_data (pys "mc") (PList [PDict []]) ;;
  market_book <- py_getitem0 mc' ;;
  market_status <- py_get market_definition (pys "status") (PStr (pys "UNKNOWN")) ;;
  inplay <- py_get market_definition (pys "inPlay") (PBool false) ;;
  total_matched <- py_get market_book (pys "tv") (PFloat 0%float) ;;
  total_available <- py_get market_book (pys "totalAvailable") (PFloat 0%float) ;;
  runner_books <- py_get market_book (pys "runners") (PList []) ;;
  books <- py_iter runner_books ;;
  runners <- extract_runners market_catalogue books [] ;;
  number_of_winners <- py_get market_definition (pys "numberOfWinners") (PInt 1) ;;
  publish_time <- py_get stream_data (pys "publishTime") PNone ;;
  version <- py_get stream_data (pys "version") PNone ;;
  new_Market market_id market_name market_type event_id event_name
             event_date country_code market_status inplay total_matched
             total_available (PInt (Z.of_nat (List.length runners)))
             number_of_winners publish_time version runners.

End Normalizer.

(* ------------------------------------------------------------------ *)
(** ** The decoder and the batch driver: [parse_json_stream], [parse_file] *)

(** What [parse_file] reads from its surroundings: [uuid.uuid4()], the two
    [datetime.utcnow()] stamps and the elapsed time in milliseconds. *)
Record run_env : Type := {
  env_uuid : pystr;
  env_upload_time : pystr;
  env_processed_at : pystr;
  env_elapsed_ms : Z
}.

Section Decoder.

Variable v_str : pyval -> option pystr.
Variable v_int : pyval -> option Z.
Variable v_float : pyval -> option float.
Variable v_bool : pyval -> option bool.
Variable float_of_str : pystr -> option float.

(** [json.loads]: the value it returns or the exception it raises.  A text
    that is not JSON raises [json.JSONDecodeError]; a text that is JSON can
    still raise another exception: [ValueError] for an integer literal over
    the interpreter's digit limit, [RecursionError] for nesting that is too
    deep. *)
Variable json_loads : pystr -> result pyval.

(** [bz2.decompress], [bytes.decode('utf-8')], [str.encode('utf-8')]. *)
Variable bz2_decompress : list Byte.byte -> result (list Byte.byte).
Variable utf8_decode : list Byte.byte -> result pystr.
Variable utf8_encode : pystr -> list Byte.byte.

Definition decompress_bz2 (file_content : list Byte.byte) : result pystr :=
  try_except
    (decompressed <- bz2_decompress file_content ;; utf8_decode decompressed)
    (fun e => Raise (Exn ValueError
                       (pys "Failed to decompress file: " ++ exn_str e))).

(** One round of [for line in content.strip().split('\n')]: the list of
    records after the round, or the exception that leaves the loop.  The
    [except] clause names [json.JSONDecodeError] only. *)
Definition parse_line (records : list pyval) (line : pystr)
    : result (list pyval) :=
  if py_truthy (PStr (strip line)) then
    try_except
      (record <- json_loads line ;; Ok (records ++ [record]))
      (fun e => if is_JSONDecodeError e then Ok records else Raise e)
  else Ok records.

Fixpoint parse_lines (lines : list pystr) (records : list pyval)
    : result (list pyval) :=
  match lines with
  | [] => Ok records
  | line :: rest =>
      records' <- parse_line records line ;; parse_lines rest records'
  end.

Definition parse_json_stream (content : pystr) : result (list pyval) :=
  parse_lines (split_nl (strip content)) [].

(** One round of [for record in records], with its [try]/[except]. *)
Definition parse_record (acc : list Market * Z) (record : pyval) : list Market * Z :=
  let '(markets, total_runners) := acc in
  match extract_market_data v_str v_int v_float v_bool float_of_str record with
  | Ok market =>
      (markets ++ [market],
       total_runners + Z.of_nat (List.length (runners market)))
  | Raise _ => (markets, total_runners)
  end.

Definition extract_markets (records : list pyval) : list Market * Z :=
  fold_left parse_record records ([], 0).

(** The snapshots of the records that normalize, in the records' order,
    and the runners they hold in total. *)
Definition normalized (records : list pyval) : list Market :=
  flat_map (fun record =>
              match extract_market_data v_str v_int v_float v_bool
                      float_of_str record with
              | Ok market => [market]
              | Raise _ => []
              end) records.

Definition count_runners (markets : list Market) : Z :=
  fold_right (fun market n => Z.of_nat (List.length (runners market)) + n)
             0 markets.

Definition new_FileMetadata (fid fname size utime pstatus pat : pyval)
    : result FileMetadata :=
  fid' <- validated (v_str fid) ;;
  fname' <- validated (v_str fname) ;;
  size' <- validated (v_int size) ;;
  utime' <- validated (v_str utime) ;;
  pstatus' <- validated (v_str pstatus) ;;
  pat' <- validated (v_optional v_str pat) ;;
  Ok {| file_id := fid'; file_name := fname'; size_bytes := size';
        upload_time := utime'; processing_status := pstatus';
        error_message := None; processed_at := pat' |}.

Definition new_ProcessingStats (nrec nrun ms csize dsize : pyval)
    : result ProcessingStats :=
  nrec' <- validated (v_int nrec) ;;
  nrun' <- validated (v_int nrun) ;;
  ms' <- validated (v_int ms) ;;
  csize' <- validated (v_int csize) ;;
  dsize' <- validated (v_int dsize) ;;
  Ok {| total_records := nrec'; total_runners := nrun';
        processing_time_ms := ms'; compressed_size_bytes := csize';
        decompressed_size_bytes := dsize' |}.

(** The loop over the records catches every exception of a round, and
    the rest of its body cannot raise, so the [try] block around that loop
    has nothing to catch. *)
Definition parse_file (env : run_env) (file_content : list Byte.byte)
    (file_name : pystr) : result FileParseResponse :=
  let compressed_size := Z.of_nat (List.length file_content) in
  decompressed_content <-
    try_except (decompress_bz2 file_content)
      (fun e => if is_ValueError e
                then Raise (Exn ValueError
                              (pys "Decompression failed: " ++ exn_str e))
                else Raise e) ;;
  let decompressed_size :=
    Z.of_nat (List.length (utf8_encode decompressed_content)) in
  records <-
    try_except (parse_json_stream decompressed_content)
      (fun e => Raise (Exn ValueError
                         (pys "JSON parsing failed: " ++ exn_str e))) ;;
  if negb (py_truthy (PList records))
  then Raise (Exn ValueError (pys "No valid records found in file"))
  else
    let '(markets, total_runners) := extract_markets records in
    match markets with
    | [] => Raise (Exn ValueError (pys "No valid markets found in file"))
    | _ :: _ =>
        file_metadata <-
          new_FileMetadata (PStr (env_uuid env)) (PStr file_name)
            (PInt compressed_size) (PStr (env_upload_time env))
            (PStr (pys "completed")) (PStr (env_processed_at env)) ;;
        processing_stats <-
          new_ProcessingStats (PInt (Z.of_nat (List.length records)))
            (PInt total_runners) (PInt (env_elapsed_ms env))
            (PInt compressed_size) (PInt decompressed_size) ;;
        Ok {| file_metadata := file_metadata; markets := markets;
              processing_stats := processing_stats |}
    end.

End Decoder.

(* ------------------------------------------------------------------ *)
(** ** The exporter: [DataExporter] and the [export_file] endpoint *)

Record StreamingResponse : Type := {
  content : pystr;
  media_type : pystr;
  content_disposition : pystr
}.

Section Exporter.

(** [str(z)] and [str(f)] as an f-string renders them. *)
Variable str_of_int : Z -> pystr.
Variable str_of_float : float -> pystr.

(** [data.dict()] and [json.dumps(d, indent=...)]. *)
Variable model_dict : FileParseResponse -> pyval.
Variable json_dumps : pyval -> option Z -> result pystr.

(** The model constructor [FileParseResponse] applied to the stored
    dict, [file_store.get] and [str.lower]. *)
Variable parse_obj : pyval -> result FileParseResponse.
Variable file_store_get : pystr -> option pyval.
Variable str_lower : pystr -> pystr.

(** [_, stake = row] *)
Definition unpack_stake (row : list float) : result float :=
  match row with
  | [_; stake] => Ok stake
  | _ => Raise (Exn ValueError (pys "wrong number of values to unpack"))
  end.

(** [sum(l)]: the running total starts at the [int] 0. *)
Definition py_sum (l : list float) : pynum :=
  match l with
  | [] => NumInt 0
  | x :: l' => NumFloat (fold_left PrimFloat.add l' (PrimFloat.add 0%float x))
  end.

Definition str_of_num (n : pynum) : pystr :=
  match n with
  | NumInt z => str_of_int z
  | NumFloat f => str_of_float f
  end.

(** [f'{x or ""}'] for an [Optional[float]]. *)
Definition str_or_empty (x : option float) : pystr :=
  match x with
  | None => []
  | Some f => if PrimFloat.eqb f 0%float then [] else str_of_float f
  end.

Definition comma : pystr := pys ",".

Definition csv_row (include_prices : bool) (market : Market) (runner : Runner)
    : result pystr :=
  let base :=
    market_id market ++ comma ++ market_name market ++ comma
    ++ match event_name market with Some s => s | None => pys "None" end
    ++ comma ++ str_of_int (selection_id runner) ++ comma
    ++ runner_name runner ++ comma ++ status runner in
  if include_prices then
    backs <- mapM unpack_stake (available_to_back (ex runner)) ;;
    lays <- mapM unpack_stake (available_to_lay (ex runner)) ;;
    let back_vol := py_sum backs in
    let lay_vol := py_sum lays in
    Ok (base ++ comma ++ str_or_empty (last_price_traded runner) ++ comma
        ++ str_or_empty (near_price (bsp runner)) ++ comma
        ++ str_or_empty (far_price (bsp runner)) ++ comma
        ++ str_or_empty (actual_sp (bsp runner)) ++ comma
        ++ str_of_num back_vol ++ comma ++ str_of_num lay_vol)
  else Ok base.

Definition csv_header (include_prices : bool) : pystr :=
  if include_prices
  then pys "Market ID,Market Name,Event Name,Runner ID,Runner Name,Status,Last Traded,Near Price,Far Price,Actual SP,Back Vol,Lay Vol"
  else pys "Market ID,Market Name,Event Name,Runner ID,Runner Name,Status".

(** ['\n'.join(lines)] *)
Fixpoint join_nl (lines : list pystr) : pystr :=
  match lines with
  | [] => []
  | [l] => l
  | l :: ls => l ++ pys (String (ascii_of_nat 10) EmptyString) ++ join_nl ls
  end.

Definition to_csv (markets : list Market) (include_prices : bool) : result pystr :=
  rows <- mapM (fun market =>
                  mapM (csv_row include_prices market) (runners market))
               markets ;;
  Ok (join_nl (csv_header include_prices :: concat rows)).

Definition to_json (data : FileParseResponse) (pretty : bool) : result pystr :=
  let data_dict := model_dict data in
  if pretty then json_dumps data_dict (Some 2) else json_dumps data_dict None.

Definition export_file (file_id : pystr) (request : ExportRequest)
    : result StreamingResponse :=
  match file_store_get file_id with
  | None => Raise (Exn (HTTPException 404) (pys "File not found"))
  | Some file_data =>
      if negb (py_truthy file_data)
      then Raise (Exn (HTTPException 404) (pys "File not found"))
      else
        try_except
          (parse_result <- parse_obj file_data ;;
           if pystr_eqb (str_lower (format request)) (pys "csv") then
             content <- to_csv (markets parse_result) (include_prices request) ;;
             Ok {| content := content; media_type := pys "text/csv";
                   content_disposition :=
                     pys "attachment; filename=" ++ file_id ++ pys ".csv" |}
           else if pystr_eqb (str_lower (format request)) (pys "json") then
             content <- to_json parse_result true ;;
             Ok {| content := content; media_type := pys "application/json";
                   content_disposition :=
                     pys "attachment; filename=" ++ file_id ++ pys ".json" |}
           else Raise (Exn (HTTPException 400) (pys "Unsupported export format")))
          (fun e => Raise (Exn (HTTPException 500) (pys "Export failed")))
  end.

End Exporter.

(* ------------------------------------------------------------------ *)
(** ** Reading a record *)

(** [obj.get(key, default)] where [obj] is a dict, [default] otherwise. *)
Definition getd (obj : pyval) (key : pystr) (default : pyval) : pyval :=
  match py_get obj key default with
  | Ok v => v
  | Raise _ => default
  end.

Definition first_or (obj default : pyval) : pyval :=
  match py_getitem0 obj with
  | Ok v => v
  | Raise _ => default
  end.

Definition items_of (obj : pyval) : list pyval :=
  match py_iter obj with
  | Ok l => l
  | Raise _ => []
  end.

(** [mc[0]], the market-change record of a line. *)
Definition market_book_of (stream_data : pyval) : pyval :=
  first_or (getd stream_data (pys "mc") (PList [PDict []])) (PDict []).

(** The runner book entries, [mc[0].runners]. *)
Definition runner_books_of (stream_data : pyval) : list pyval :=
  items_of (getd (market_book_of stream_data) (pys "runners") (PList [])).

Definition market_catalogue_of (stream_data : pyval) : pyval :=
  getd stream_data (pys "marketCatalogue") (PDict []).

(** The entries of [marketCatalogue.runners]. *)
Definition catalogue_runners_of (stream_data : pyval) : list pyval :=
  items_of (getd (market_catalogue_of stream_data) (pys "runners") (PList [])).

(** [marketDefinition.name], with the default the code gives it. *)
Definition definition_name_of (stream_data : pyval) : pyval :=
  getd (getd stream_data (pys "marketDefinition") (PDict []))
       (pys "name") (PStr (pys "Unknown Market")).

(** The catalogue entry the scan stops at, if any. *)
Definition matching_entry (runner_catalogue : list pyval) (runner_book : pyval)
    : option pyval :=
  find (fun rc => py_eq (getd rc (pys "selectionId") PNone)
                        (getd runner_book (pys "id") PNone))
       runner_catalogue.

(** The value [extract_market_data] hands to [Market] as [market_name]. *)
Definition chosen_market_name (stream_data : pyval) : pyval :=
  let name := definition_name_of stream_data in
  if py_truthy name && negb (py_eq name (PStr (pys "Unknown Market")))
  then name
  else getd (market_catalogue_of stream_data) (pys "marketName") name.

(** The raw value of a ladder field: [runner_book.get(sub, {}).get(k, [])]. *)
Definition ladder_field (runner_book : pyval) (sub k : pystr) : pyval :=
  getd (getd runner_book sub (PDict [])) k (PList []).

(** The five ladder fields: where the raw value sits in a runner book entry
    and where the typed value sits in the runner. *)
Definition ladder_fields : list (pystr * pystr * (Runner -> list (list float))) :=
  [ (pys "sp", pys "bst", fun r => back_stake_taken (bsp r));
    (pys "sp", pys "lst", fun r => lay_liability_taken (bsp r));
    (pys "ex", pys "atb", fun r => available_to_back (ex r));
    (pys "ex", pys "atl", fun r => available_to_lay (ex r));
    (pys "ex", pys "tv", fun r => traded_volume (ex r)) ].

(** How [_format_price_stakes] treats one element. *)
Definition formatted_as (float_of_str : pystr -> option float)
    (item row : pyval) : Prop :=
  match item with
  | PList l => row = PList l
  | _ => exists f, py_float float_of_str item = Ok f
                   /\ row = PList [PFloat f; PFloat 0%float]
  end.

Definition formattable (float_of_str : pystr -> option float) (item : pyval) : Prop :=
  (exists l, item = PList l) \/ (exists f, py_float float_of_str item = Ok f).

(** A ladder element made of floats, and the typed row it becomes. *)
Definition float_row (item : pyval) : option (list float) :=
  match item with
  | PList [PFloat price; PFloat stake] => Some [price; stake]
  | PFloat value => Some [value; 0%float]
  | _ => None
  end.

(** The keys [extract_market_data] reads at the top level of a record, in
    its market definition, in its market-change record and in its market
    catalogue. *)
Definition top_level_keys : list pystr :=
  [pys "mc"; pys "marketDefinition"; pys "marketCatalogue";
   pys "publishTime"; pys "version"].

Definition definition_keys : list pystr :=
  [pys "name"; pys "marketType"; pys "event"; pys "status"; pys "inPlay";
   pys "numberOfWinners"].

Definition market_book_keys : list pystr :=
  [pys "id"; pys "tv"; pys "totalAvailable"; pys "runners"].

Definition catalogue_keys : list pystr := [pys "marketName"; pys "runners"].

Definition key_in (k : pystr) (keys : list pystr) : bool :=
  existsb (pystr_eqb k) keys.

(** What is left of a text line by line. *)
Definition is_nonblank (line : pystr) : bool := py_truthy (PStr (strip line)).

(** The lines [parse_json_stream] hands to [json.loads]. *)
Definition nonblank_lines (content : pystr) : list pystr :=
  filter is_nonblank (split_nl (strip content)).



(* ------------------------------------------------------------------ *)
(** ** Sample instances of the library parameters

    Validators that accept a value of the field's own type (and an [int]
    for a [float] field), and a [float(s)] that reads digit strings.  They
    serve to run the model on concrete records. *)

Definition strict_str (v : pyval) : option pystr :=
  match v with PStr s => Some s | _ => None end.

Definition strict_int (v : pyval) : option Z :=
  match v with PInt z => Some z | _ => None end.

Definition strict_float (v : pyval) : option float :=
  match v with
  | PFloat f => Some f
  | PInt z => match float_of_Z z with Ok f => Some f | Raise _ => None end
  | _ => None
  end.

Definition strict_bool (v : pyval) : option bool :=
  match v with PBool b => Some b | _ => None end.

Fixpoint digits_value (s : pystr) (acc : Z) : option Z :=
  match s with
  | [] => Some acc
  | c :: s' =>
      if ((48 <=? c) && (c <=? 57))%N
      then digits_value s' (10 * acc + (Z.of_N c - 48))
      else None
  end.

Definition digits_float (s : pystr) : option float :=
  match s with
  | [] => None
  | _ => match digits_value s 0 with
         | Some z => match float_of_Z z with Ok f => Some f | Raise _ => None end
         | None => None
         end
  end.

Definition sample_extract : pyval -> result Market :=
  extract_market_data strict_str strict_int strict_float strict_bool digits_float.

(** [{"mc":[{"id":"1.23","runners":[{"id":111,"status":"ACTIVE"}]}]}] *)
Definition scenario_record : pyval :=
  PDict [(pys "mc",
          PList [PDict [(pys "id", PStr (pys "1.23"));
                        (pys "runners",
                         PList [PDict [(pys "id", PInt 111);
                                       (pys "status", PStr (pys "ACTIVE"))]])]])].

Definition empty_bsp : RunnerBSP :=
  {| near_price := None; far_price := None; actual_sp := None;
     back_stake_taken := []; lay_liability_taken := [] |}.

Definition empty_ex : RunnerEX :=
  {| available_to_back := []; available_to_lay := []; traded_volume := [] |}.

Definition scenario_market : Market :=
  {| market_id := pys "1.23"; market_name := pys "Unknown Market";
     market_type := pys "UNKNOWN";
     event_id := Some []; event_name := Some []; event_date := Some [];
     country_code := Some [];
     market_status := pys "UNKNOWN"; inplay := false;
     total_matched := 0%float; total_available := 0%float;
     number_of_runners := 1; number_of_winners := 1;
     publish_time := None; version := None;
     runners := [ {| selection_id := 111; runner_name := pys "Unknown";
                     status := pys "ACTIVE"; bsp := empty_bsp; ex := empty_ex;
                     last_price_traded := None;
                     adjustment_factor := Some 1%float |} ] |}.

(** A record whose [mc] list is present and empty. *)
Definition empty_mc_record : pyval := PDict [(pys "mc", PList [])].

(** A definition name that is the empty string, next to a catalogue name. *)
Definition blank_name_record : pyval :=
  PDict [(pys "marketDefinition", PDict [(pys "name", PStr [])]);
         (pys "marketCatalogue", PDict [(pys "marketName", PStr (pys "Foo"))])].

(** The scenario record with a runner count of 99 claimed in its market
    definition and a catalogue naming runner 111. *)
Definition named_definition : list (pystr * pyval) :=
  [(pys "name", PStr (pys "2m Hcap"))].

Definition named_rest : list (pystr * pyval) :=
  [(pys "marketCatalogue",
    PDict [(pys "runners",
            PList [PDict [(pys "selectionId", PInt 222);
                          (pys "runnerName", PStr (pys "Other"))];
                   PDict [(pys "selectionId", PInt 111);
                          (pys "runnerName", PStr (pys "Dobbin"))]])]);
   (pys "mc",
    PList [PDict [(pys "id", PStr (pys "1.23"));
                  (pys "runners", PList [PDict [(pys "id", PInt 111)]])]])].

Definition named_record : pyval :=
  PDict ((pys "marketDefinition",
          PDict ((pys "numberOfRunners", PInt 99) :: named_definition))
         :: named_rest).

(** A record with one good runner book entry and one without [id]. *)
Definition missing_id_record : pyval :=
  PDict [(pys "mc",
          PList [PDict [(pys "id", PStr (pys "1.23"));
                        (pys "runners",
                         PList [PDict [(pys "id", PInt 111)];
                                PDict [(pys "status", PStr (pys "ACTIVE"))]])]])].



(** Stand-ins for the codecs: a decompressor that hands the bytes back, a
    one-byte-per-character text codec, and a [json.loads] that returns for
    two texts only, the empty object and the text of [scenario_record] (set
    here with single quotes around its strings), raises [ValueError] for
    an integer literal of more than 4300 digits, as CPython 3.11 does, and
    [JSONDecodeError] for every other text. *)
Definition sample_bz2 (data : list Byte.byte) : result (list Byte.byte) := Ok data.

Definition sample_decode (data : list Byte.byte) : result pystr :=
  Ok (map (fun b => N.of_nat (Byte.to_nat b)) data).

Definition sample_encode (s : pystr) : list Byte.byte :=
  map (fun c => match Byte.of_N c with Some b => b | None => Byte.x3f end) s.

Definition scenario_line : pystr :=
  pys "{'mc':[{'id':'1.23','runners':[{'id':111,'status':'ACTIVE'}]}]}".

Definition is_digit (c : N) : bool := ((48 <=? c) && (c <=? 57))%N.

Definition sample_loads (line : pystr) : result pyval :=
  if pystr_eqb line scenario_line then Ok scenario_record
  else if pystr_eqb line (pys "{}") then Ok (PDict [])
  else if forallb is_digit line && (4300 <? List.length line)%nat
  then Raise (Exn ValueError
                (pys "Exceeds the limit (4300 digits) for integer string conversion"))
  else Raise (Exn JSONDecodeError (pys "Expecting value")).

(** An integer literal of 5000 digits, and a text of two lines: the
    scenario record and that literal. *)
Definition overlong_line : pystr := repeat 49%N 5000.

Definition overlong_content : pystr := scenario_line ++ [10%N] ++ overlong_line.

Definition overlong_file : list Byte.byte := sample_encode overlong_content.

(** Three lines: the scenario record, a line that is not JSON, a blank one. *)
Definition sample_content : pystr :=
  scenario_line ++ [10%N] ++ pys "{not json" ++ [10%N] ++ pys "  " ++ [10%N].

Definition sample_file : list Byte.byte := sample_encode sample_content.

Definition sample_env : run_env :=
  {| env_uuid := pys "0000"; env_upload_time := pys "2024-01-01T00:00:00Z";
     env_processed_at := pys "2024-01-01T00:00:01Z"; env_elapsed_ms := 12 |}.

Definition sample_response : FileParseResponse :=
  {| file_metadata :=
       {| file_id := pys "0000"; file_name := pys "a.bz2"; size_bytes := 10;
          upload_time := pys "2024-01-01T00:00:00Z";
          processing_status := pys "completed"; error_message := None;
          processed_at := Some (pys "2024-01-01T00:00:01Z") |};
     markets := [scenario_market];
     processing_stats :=
       {| total_records := 1; total_runners := 1; processing_time_ms := 12;
          compressed_size_bytes := 10; decompressed_size_bytes := 60 |} |}.

(** A store holding one file, under the id ["f1"]. *)
Definition sample_store (file_id : pystr) : option pyval :=
  if pystr_eqb file_id (pys "f1")
  then Some (PDict [(pys "markets", PList [])])
  else None.

Definition sample_export (request : ExportRequest) : result StreamingResponse :=
  export_file (fun _ => pys "0") (fun _ => pys "0.0") (fun _ => PDict [])
    (fun _ _ => Ok (pys "{}")) (fun _ => Ok sample_response) sample_store
    ascii_lower (pys "f1") request.

(** [key not in obj] for a dict, and vacuously for anything else. *)
Definition lacks (obj : pyval) (key : pystr) : Prop :=
  match obj with
  | PDict kvs => dict_lookup key kvs = None
  | _ => True
  end.

(** [stream_data.get('marketDefinition', {})] and its [event]. *)
Definition market_definition_of (stream_data : pyval) : pyval :=
  getd stream_data (pys "marketDefinition") (PDict []).

Definition event_of (stream_data : pyval) : pyval :=
  getd (market_definition_of stream_data) (pys "event") (PDict []).

(** The snapshot of a record that carries no market data at all. *)
Definition default_market : Market :=
  {| market_id := pys "UNKNOWN"; market_name := pys "Unknown Market";
     market_type := pys "UNKNOWN";
     event_id := Some []; event_name := Some []; event_date := Some [];
     country_code := Some [];
     market_status := pys "UNKNOWN"; inplay := false;
     total_matched := 0%float; total_available := 0%float;
     number_of_runners := 0; number_of_winners := 1;
     publish_time := None; version := None; runners := [] |}.

(** The runner counts the snapshots themselves state, added up. *)
Definition sum_number_of_runners (markets : list Market) : Z :=
  fold_right (fun market n => number_of_runners market + n) 0 markets.

(** ** The CSV export, row by row *)

Section ExporterRows.

Variable str_of_int : Z -> pystr.
Variable str_of_float : float -> pystr.

(** The data rows of [to_csv], before the header is put in front and the
    lines are joined. *)
Definition csv_rows (markets : list Market) (include_prices : bool)
    : result (list pystr) :=
  rows <- mapM (fun market =>
                  mapM (csv_row str_of_int str_of_float include_prices market)
                       (runners market))
               markets ;;
  Ok (concat rows).

(** The six columns every row starts with. *)
Definition plain_row (market : Market) (runner : Runner) : pystr :=
  market_id market ++ comma ++ market_name market ++ comma
  ++ match event_name market with Some s => s | None => pys "None" end
  ++ comma ++ str_of_int (selection_id runner) ++ comma
  ++ runner_name runner ++ comma ++ status runner.

End ExporterRows.

(** Every row of the two ladders the priced export adds up is a pair. *)
Definition pairs_only (runner : Runner) : Prop :=
  Forall (fun row => List.length row = 2%nat) (available_to_back (ex runner)) /\
  Forall (fun row => List.length row = 2%nat) (available_to_lay (ex runner)).

(** How many runners a batch of snapshots holds. *)
Definition runner_total (markets : list Market) : nat :=
  list_sum (map (fun market => List.length (runners market)) markets).

(* ------------------------------------------------------------------ *)
(** ** [storage.py]: the in-memory [FileStore] *)

(** [self.files], the dict from file id to stored document. *)
Definition FileStore := list (pystr * pyval).

(** [d[k] = v]: a key already present keeps its place. *)
Fixpoint dict_set {A : Type} (k : pystr) (v : A) (kvs : list (pystr * A))
    : list (pystr * A) :=
  match kvs with
  | [] => [(k, v)]
  | (k', v') :: rest =>
      if pystr_eqb k k' then (k', v) :: rest else (k', v') :: dict_set k v rest
  end.

(** [del d[k]] *)
Fixpoint dict_del {A : Type} (k : pystr) (kvs : list (pystr * A))
    : list (pystr * A) :=
  match kvs with
  | [] => []
  | (k', v') :: rest =>
      if pystr_eqb k k' then rest else (k', v') :: dict_del k rest
  end.

Definition FileStore_save (files : FileStore) (file_id : pystr) (data : pyval)
    : FileStore :=
  dict_set file_id data files.

Definition FileStore_get (files : FileStore) (file_id : pystr) : option pyval :=
  dict_lookup file_id files.

(** [if file_id in self.files: del self.files[file_id]] *)
Definition FileStore_delete (files : FileStore) (file_id : pystr) : FileStore :=
  match dict_lookup file_id files with
  | Some _ => dict_del file_id files
  | None => files
  end.

Definition FileStore_list_files (files : FileStore) : list pyval :=
  map snd files.

(** [FileStore.save] as the endpoints call it: it returns, with the new
    state. *)
Definition FileStore_save_call (files : FileStore) (file_id : pystr)
    (data : pyval) : result unit * FileStore :=
  (Ok tt, FileStore_save files file_id data).

(** A dict holds each key once. *)
Definition distinct_ids (files : FileStore) : Prop := NoDup (map fst files).

(* ------------------------------------------------------------------ *)
(** ** [storage.py]: what [CloudFileStore] keeps for the listing *)

Section Subscript.

(** [repr(s)] for a [str]: the text of a [KeyError] is the [repr] of the
    missing key. *)
Variable repr_str : pystr -> pystr.

(** [obj[key]] for a string key. *)
Definition py_subscript (obj : pyval) (key : pystr) : result pyval :=
  match obj with
  | PDict kvs =>
      match dict_lookup key kvs with
      | Some v => Ok v
      | None => Raise (Exn KeyError (repr_str key))
      end
  | PList _ | PStr _ =>
      Raise (Exn TypeError (pys "indices must be integers"))
  | _ => Raise (Exn TypeError (pys "object is not subscriptable"))
  end.

End Subscript.

(** [len(obj)] *)
Definition py_len (obj : pyval) : result Z :=
  match obj with
  | PList l => Ok (Z.of_nat (List.length l))
  | PDict kvs => Ok (Z.of_nat (List.length kvs))
  | PStr s => Ok (Z.of_nat (List.length s))
  | _ => Raise (Exn TypeError (pys "object has no len()"))
  end.

(** The keys of [file_metadata] that the cloud store copies. *)
Definition metadata_keys : list pystr :=
  [pys "file_id"; pys "file_name"; pys "size_bytes"; pys "upload_time";
   pys "processing_status"; pys "processed_at"; pys "error_message"].

Section CloudMetadata.

(** [str(v)] for a value that is not a [str]. *)
Variable str_other : pyval -> pystr.

(** An f-string field [{v}]. *)
Definition py_format (v : pyval) : pystr :=
  match v with
  | PStr s => s
  | _ => str_other v
  end.

Definition _get_gcs_path (file_id : pyval) : pystr :=
  pys "files/" ++ py_format file_id ++ pys "/parsed_data.json".

Definition _extract_metadata (data : pyval) : result pyval :=
  file_metadata <- py_get data (pys "file_metadata") (PDict []) ;;
  processing_stats <- py_get data (pys "processing_stats") (PDict []) ;;
  markets <- py_get data (pys "markets") (PList []) ;;
  file_id <- py_get file_metadata (pys "file_id") PNone ;;
  file_name <- py_get file_metadata (pys "file_name") PNone ;;
  size_bytes <- py_get file_metadata (pys "size_bytes") PNone ;;
  upload_time <- py_get file_metadata (pys "upload_time") PNone ;;
  processing_status <- py_get file_metadata (pys "processing_status") PNone ;;
  processed_at <- py_get file_metadata (pys "processed_at") PNone ;;
  error_message <- py_get file_metadata (pys "error_message") PNone ;;
  total_markets <- py_len markets ;;
  total_runners <- py_get processing_stats (pys "total_runners") (PInt 0) ;;
  processing_time_ms <- py_get processing_stats (pys "processing_time_ms") (PInt 0) ;;
  compressed <- py_get processing_stats (pys "compressed_size_bytes") (PInt 0) ;;
  decompressed <- py_get processing_stats (pys "decompressed_size_bytes") (PInt 0) ;;
  path_id <- py_get file_metadata (pys "file_id") (PStr []) ;;
  Ok (PDict [(pys "file_id", file_id);
             (pys "file_name", file_name);
             (pys "size_bytes", size_bytes);
             (pys "upload_time", upload_time);
             (pys "processing_status", processing_status);
             (pys "processed_at", processed_at);
             (pys "error_message", error_message);
             (pys "total_markets", PInt total_markets);
             (pys "total_runners", total_runners);
             (pys "processing_time_ms", processing_time_ms);
             (pys "compressed_size_bytes", compressed);
             (pys "decompressed_size_bytes", decompressed);
             (pys "gcs_path", PStr (_get_gcs_path path_id))]).

End CloudMetadata.

(** One round of the loop of [CloudFileStore.list_files]: the entry
    rebuilt from a metadata document. *)
Definition cloud_list_entry (metadata : pyval) : result pyval :=
  file_id <- py_get metadata (pys "file_id") PNone ;;
  file_name <- py_get metadata (pys "file_name") PNone ;;
  size_bytes <- py_get metadata (pys "size_bytes") PNone ;;
  upload_time <- py_get metadata (pys "upload_time") PNone ;;
  processing_status <- py_get metadata (pys "processing_status") PNone ;;
  processed_at <- py_get metadata (pys "processed_at") PNone ;;
  error_message <- py_get metadata (pys "error_message") PNone ;;
  total_records <- py_get metadata (pys "total_markets") (PInt 0) ;;
  total_runners <- py_get metadata (pys "total_runners") (PInt 0) ;;
  processing_time_ms <- py_get metadata (pys "processing_time_ms") (PInt 0) ;;
  compressed <- py_get metadata (pys "compressed_size_bytes") (PInt 0) ;;
  decompressed <- py_get metadata (pys "decompressed_size_bytes") (PInt 0) ;;
  Ok (PDict [(pys "file_metadata",
              PDict [(pys "file_id", file_id);
                     (pys "file_name", file_name);
                     (pys "size_bytes", size_bytes);
                     (pys "upload_time", upload_time);
                     (pys "processing_status", processing_status);
                     (pys "processed_at", processed_at);
                     (pys "error_message", error_message)]);
             (pys "processing_stats",
              PDict [(pys "total_records", total_records);
                     (pys "total_runners", total_runners);
                     (pys "processing_time_ms", processing_time_ms);
                     (pys "compressed_size_bytes", compressed);
                     (pys "decompressed_size_bytes", decompressed)]);
             (pys "markets", PList [])]).

(* ------------------------------------------------------------------ *)
(** ** The file endpoints of [main.py] *)

Module Upload.
Record UploadResponse : Type := {
  file_id : pystr;
  file_name : pystr;
  status : pystr;
  size_bytes : Z
}.
End Upload.

Section Listing.

Variable repr_str : pystr -> pystr.

(** One element of the comprehension in the [list_files] endpoint. *)
Definition listing_row (f : pyval) : result pyval :=
  fm1 <- py_subscript repr_str f (pys "file_metadata") ;;
  file_id <- py_subscript repr_str fm1 (pys "file_id") ;;
  fm2 <- py_subscript repr_str f (pys "file_metadata") ;;
  file_name <- py_subscript repr_str fm2 (pys "file_name") ;;
  fm3 <- py_subscript repr_str f (pys "file_metadata") ;;
  size_bytes <- py_subscript repr_str fm3 (pys "size_bytes") ;;
  fm4 <- py_subscript repr_str f (pys "file_metadata") ;;
  upload_time <- py_subscript repr_str fm4 (pys "upload_time") ;;
  fm5 <- py_subscript repr_str f (pys "file_metadata") ;;
  status <- py_subscript repr_str fm5 (pys "processing_status") ;;
  markets <- py_get f (pys "markets") (PList []) ;;
  n <- py_len markets ;;
  Ok (PDict [(pys "file_id", file_id);
             (pys "file_name", file_name);
             (pys "size_bytes", size_bytes);
             (pys "upload_time", upload_time);
             (pys "status", status);
             (pys "markets", PInt n)]).

(** The [list_files] endpoint over what the store lists. *)
Definition list_files (files : list pyval) : result pyval :=
  rows <- mapM listing_row files ;;
  Ok (PDict [(pys "count", PInt (Z.of_nat (List.length files)));
             (pys "files", PList rows)]).

End Listing.

(** [content.startswith(b'BZ')] *)
Definition starts_with_BZ (content : list Byte.byte) : bool :=
  match content with
  | b1 :: b2 :: _ => Byte.eqb b1 Byte.x42 && Byte.eqb b2 Byte.x5a
  | _ => false
  end.

Definition max_upload_size : Z := 500 * 1024 * 1024.

Section Endpoints.

Variable v_str : pyval -> option pystr.
Variable v_int : pyval -> option Z.
Variable v_float : pyval -> option float.
Variable v_bool : pyval -> option bool.
Variable float_of_str : pystr -> option float.
Variable json_loads : pystr -> result pyval.
Variable bz2_decompress : list Byte.byte -> result (list Byte.byte).
Variable utf8_decode : list Byte.byte -> result pystr.
Variable utf8_encode : pystr -> list Byte.byte.
Variable model_dict : FileParseResponse -> pyval.
Variable parse_obj : pyval -> result FileParseResponse.

(** The store behind [file_store], for [upload_file]: its state, and
    [save], which returns or raises and leaves a state either way.
    [FileStore.save] always returns; [CloudFileStore.save] raises again
    what writing to the bucket raised. *)
Variable Store : Type.
Variable file_store_save : Store -> pystr -> pyval -> result unit * Store.

Definition new_UploadResponse (fid fname st size : pyval)
    : result Upload.UploadResponse :=
  fid' <- validated (v_str fid) ;;
  fname' <- validated (v_str fname) ;;
  st' <- validated (v_str st) ;;
  size' <- validated (v_int size) ;;
  Ok {| Upload.file_id := fid'; Upload.file_name := fname';
        Upload.status := st'; Upload.size_bytes := size' |}.

(** The inner [try] block of [upload_file]: parse, store, answer. *)
Definition upload_parse_and_store (upload_uuid : pystr) (env : run_env)
    (files : Store) (content : list Byte.byte) (filename : pystr)
    : result Upload.UploadResponse * Store :=
  match parse_file v_str v_int v_float v_bool float_of_str json_loads
          bz2_decompress utf8_decode utf8_encode env content filename with
  | Raise e => (Raise e, files)
  | Ok parse_result =>
      match file_store_save files upload_uuid (model_dict parse_result) with
      | (Raise e, files') => (Raise e, files')
      | (Ok _, files') =>
          (new_UploadResponse (PStr upload_uuid) (PStr filename)
             (PStr (pys "completed")) (PInt (Z.of_nat (List.length content))),
           files')
      end
  end.

(** What is left of [upload_file] once the upload is read: the three
    checks and the inner [try] block with its two handlers. *)
Definition upload_checked (upload_uuid : pystr) (env : run_env)
    (files : Store) (content : list Byte.byte) (filename : pystr)
    : result Upload.UploadResponse * Store :=
  match content with
  | [] => (Raise (Exn (HTTPException 400) (pys "Empty file")), files)
  | _ :: _ =>
      if max_upload_size <? Z.of_nat (List.length content)
      then (Raise (Exn (HTTPException 413) (pys "File too large (max 500MB)")),
            files)
      else if negb (starts_with_BZ content)
      then (Raise (Exn (HTTPException 400)
                     (pys "Invalid file format. Expected BZip2 compressed file (.bz2)")),
            files)
      else
        let '(inner, files1) :=
          upload_parse_and_store upload_uuid env files content filename in
        (try_except inner
           (fun e =>
              if is_ValueError e
              then Raise (Exn (HTTPException 400)
                            (pys "Parsing error: " ++ exn_str e))
              else Raise (Exn (HTTPException 500) (pys "Internal server error"))),
         files1)
  end.

(** [upload_file]; [upload_uuid] is the [uuid.uuid4()] drawn on entry and
    [read] what [await file.read()] gives, the bytes or an exception. *)
Definition upload_file (upload_uuid : pystr) (env : run_env)
    (files : Store) (read : result (list Byte.byte)) (filename : pystr)
    : result Upload.UploadResponse * Store :=
  let '(outcome, files') :=
    match read with
    | Raise e => (Raise e, files)
    | Ok content => upload_checked upload_uuid env files content filename
    end in
  (try_except outcome
     (fun e => if is_HTTPException e then Raise e
               else Raise (Exn (HTTPException 500) (pys "Upload failed"))),
   files').

Definition get_file_data (files : FileStore) (file_id : pystr)
    : result FileParseResponse :=
  match FileStore_get files file_id with
  | None => Raise (Exn (HTTPException 404) (pys "File not found"))
  | Some file_data =>
      if negb (py_truthy file_data)
      then Raise (Exn (HTTPException 404) (pys "File not found"))
      else parse_obj file_data
  end.

Definition delete_file (files : FileStore) (file_id : pystr)
    : result pyval * FileStore :=
  match FileStore_get files file_id with
  | None => (Raise (Exn (HTTPException 404) (pys "File not found")), files)
  | Some file_data =>
      if negb (py_truthy file_data)
      then (Raise (Exn (HTTPException 404) (pys "File not found")), files)
      else (Ok (PDict [(pys "message", PStr (pys "File deleted"));
                       (pys "file_id", PStr file_id)]),
            FileStore_delete files file_id)
  end.

End Endpoints.

(** More stand-ins: a decompressor that drops the two signature bytes, one
    that always fails, an upload that parses and one that does not, a store
    with one document, and a stored document with two markets. *)
Definition sample_bz2_strip (data : list Byte.byte) : result (list Byte.byte) :=
  Ok (skipn 2 data).

Definition failing_bz2 (data : list Byte.byte) : result (list Byte.byte) :=
  Raise (Exn OSError (pys "Invalid data stream")).

Definition upload_content : list Byte.byte :=
  Byte.x42 :: Byte.x5a :: sample_file.

Definition bad_upload_content : list Byte.byte :=
  Byte.x42 :: Byte.x5a :: sample_encode (pys "{not json").

Definition sample_files : FileStore :=
  [(pys "f1", PDict [(pys "markets", PList [])])].

Definition sample_model_dict (r : FileParseResponse) : pyval :=
  PDict [(pys "markets", PList (map (fun _ => PDict []) (markets r)))].

Definition sample_parse (bz2 : list Byte.byte -> result (list Byte.byte))
    : run_env -> list Byte.byte -> pystr -> result FileParseResponse :=
  parse_file strict_str strict_int strict_float strict_bool digits_float
    sample_loads bz2 sample_decode sample_encode.

Definition sample_upload
    : pystr -> run_env -> FileStore -> result (list Byte.byte) -> pystr ->
      result Upload.UploadResponse * FileStore :=
  upload_file strict_str strict_int strict_float strict_bool digits_float
    sample_loads sample_bz2_strip sample_decode sample_encode sample_model_dict
    FileStore FileStore_save_call.

(** A store whose [save] raises and keeps nothing, as a bucket out of
    reach does. *)
Definition failing_save (files : FileStore) (file_id : pystr) (data : pyval)
    : result unit * FileStore :=
  (Raise (Exn OSError (pys "bucket unavailable")), files).

Definition sample_document : pyval :=
  PDict [(pys "file_metadata",
          PDict [(pys "file_id", PStr (pys "abc"));
                 (pys "file_name", PStr (pys "a.bz2"))]);
         (pys "markets", PList [PDict []; PDict []]);
         (pys "processing_stats",
          PDict [(pys "total_records", PInt 7); (pys "total_runners", PInt 3)])].

Definition sample_to_csv : list Market -> bool -> result pystr :=
  to_csv (fun _ => pys "0") (fun _ => pys "0.0").

(* ------------------------------------------------------------------ *)
(** ** The bundle as a dict and back

    [data.dict()] of pydantic, read off the model classes: the fields in
    the order of their declaration, a model-valued field as the dict of
    that model. *)

Definition py_optional {A : Type} (f : A -> pyval) (o : option A) : pyval :=
  match o with
  | Some a => f a
  | None => PNone
  end.

Definition ladder_dict (rows : list (list float)) : pyval :=
  PList (map (fun row => PList (map PFloat row)) rows).

Definition RunnerBSP_dict (b : RunnerBSP) : pyval :=
  PDict [(pys "near_price", py_optional PFloat (near_price b));
         (pys "far_price", py_optional PFloat (far_price b));
         (pys "actual_sp", py_optional PFloat (actual_sp b));
         (pys "back_stake_taken", ladder_dict (back_stake_taken b));
         (pys "lay_liability_taken", ladder_dict (lay_liability_taken b))].

Definition RunnerEX_dict (e : RunnerEX) : pyval :=
  PDict [(pys "available_to_back", ladder_dict (available_to_back e));
         (pys "available_to_lay", ladder_dict (available_to_lay e));
         (pys "traded_volume", ladder_dict (traded_volume e))].

Definition Runner_dict (r : Runner) : pyval :=
  PDict [(pys "selection_id", PInt (selection_id r));
         (pys "runner_name", PStr (runner_name r));
         (pys "status", PStr (status r));
         (pys "bsp", RunnerBSP_dict (bsp r));
         (pys "ex", RunnerEX_dict (ex r));
         (pys "last_price_traded", py_optional PFloat (last_price_traded r));
         (pys "adjustment_factor", py_optional PFloat (adjustment_factor r))].

Definition Market_dict (m : Market) : pyval :=
  PDict [(pys "market_id", PStr (market_id m));
         (pys "market_name", PStr (market_name m));
         (pys "market_type", PStr (market_type m));
         (pys "event_id", py_optional PStr (event_id m));
         (pys "event_name", py_optional PStr (event_name m));
         (pys "event_date", py_optional PStr (event_date m));
         (pys "country_code", py_optional PStr (country_code m));
         (pys "market_status", PStr (market_status m));
         (pys "inplay", PBool (inplay m));
         (pys "total_matched", PFloat (total_matched m));
         (pys "total_available", PFloat (total_available m));
         (pys "number_of_runners", PInt (number_of_runners m));
         (pys "number_of_winners", PInt (number_of_winners m));
         (pys "publish_time", py_optional PStr (publish_time m));
         (pys "version", py_optional PInt (version m));
         (pys "runners", PList (map Runner_dict (runners m)))].

Definition FileMetadata_dict (fm : FileMetadata) : pyval :=
  PDict [(pys "file_id", PStr (file_id fm));
         (pys "file_name", PStr (file_name fm));
         (pys "size_bytes", PInt (size_bytes fm));
         (pys "upload_time", PStr (upload_time fm));
         (pys "processing_status", PStr (processing_status fm));
         (pys "error_message", py_optional PStr (error_message fm));
         (pys "processed_at", py_optional PStr (processed_at fm))].

Definition ProcessingStats_dict (ps : ProcessingStats) : pyval :=
  PDict [(pys "total_records", PInt (total_records ps));
         (pys "total_runners", PInt (total_runners ps));
         (pys "processing_time_ms", PInt (processing_time_ms ps));
         (pys "compressed_size_bytes", PInt (compressed_size_bytes ps));
         (pys "decompressed_size_bytes", PInt (decompressed_size_bytes ps))].

Definition FileParseResponse_dict (data : FileParseResponse) : pyval :=
  PDict [(pys "file_metadata", FileMetadata_dict (file_metadata data));
         (pys "markets", PList (map Market_dict (markets data)));
         (pys "processing_stats", ProcessingStats_dict (processing_stats data))].

Section ParseObj.

(** The model constructors applied to the items of a dict: a field that
    is left out takes its default when it has one and fails validation
    when it has none, a key that names no field is ignored, and a
    model-valued field is built from the dict it is given. *)

Variable v_str : pyval -> option pystr.
Variable v_int : pyval -> option Z.
Variable v_float : pyval -> option float.
Variable v_bool : pyval -> option bool.

Definition required (kvs : list (pystr * pyval)) (key : pystr) : result pyval :=
  validated (dict_lookup key kvs).

Definition defaulted (default : pyval) (kvs : list (pystr * pyval))
    (key : pystr) : pyval :=
  match dict_lookup key kvs with
  | Some v => v
  | None => default
  end.

Definition as_model {A : Type} (build : list (pystr * pyval) -> result A)
    (v : pyval) : result A :=
  match v with
  | PDict kvs => build kvs
  | _ => Raise (Exn ValidationError (pys "validation error"))
  end.

Definition as_models {A : Type} (build : list (pystr * pyval) -> result A)
    (v : pyval) : result (list A) :=
  match v with
  | PList items => mapM (as_model build) items
  | _ => Raise (Exn ValidationError (pys "validation error"))
  end.

Definition RunnerBSP_parse_obj (kvs : list (pystr * pyval)) : result RunnerBSP :=
  n <- validated (v_optional v_float (defaulted PNone kvs (pys "near_price"))) ;;
  f <- validated (v_optional v_float (defaulted PNone kvs (pys "far_price"))) ;;
  a <- validated (v_optional v_float (defaulted PNone kvs (pys "actual_sp"))) ;;
  bst <- validated (v_ladder v_float
                      (defaulted (PList []) kvs (pys "back_stake_taken"))) ;;
  llt <- validated (v_ladder v_float
                      (defaulted (PList []) kvs (pys "lay_liability_taken"))) ;;
  Ok {| near_price := n; far_price := f; actual_sp := a;
        back_stake_taken := bst; lay_liability_taken := llt |}.

Definition RunnerEX_parse_obj (kvs : list (pystr * pyval)) : result RunnerEX :=
  atb <- validated (v_ladder v_float
                      (defaulted (PList []) kvs (pys "available_to_back"))) ;;
  atl <- validated (v_ladder v_float
                      (defaulted (PList []) kvs (pys "available_to_lay"))) ;;
  tv <- validated (v_ladder v_float
                     (defaulted (PList []) kvs (pys "traded_volume"))) ;;
  Ok {| available_to_back := atb; available_to_lay := atl;
        traded_volume := tv |}.

Definition Runner_parse_obj (kvs : list (pystr * pyval)) : result Runner :=
  sid <- bind (required kvs (pys "selection_id")) (fun v => validated (v_int v)) ;;
  name <- bind (required kvs (pys "runner_name")) (fun v => validated (v_str v)) ;;
  st <- bind (required kvs (pys "status")) (fun v => validated (v_str v)) ;;
  b <- bind (required kvs (pys "bsp")) (as_model RunnerBSP_parse_obj) ;;
  e <- bind (required kvs (pys "ex")) (as_model RunnerEX_parse_obj) ;;
  ltp <- validated (v_optional v_float
                      (defaulted PNone kvs (pys "last_price_traded"))) ;;
  adj <- validated (v_optional v_float
                      (defaulted PNone kvs (pys "adjustment_factor"))) ;;
  Ok {| selection_id := sid; runner_name := name; status := st; bsp := b;
        ex := e; last_price_traded := ltp; adjustment_factor := adj |}.

Definition Market_parse_obj (kvs : list (pystr * pyval)) : result Market :=
  mid <- bind (required kvs (pys "market_id")) (fun v => validated (v_str v)) ;;
  mname <- bind (required kvs (pys "market_name")) (fun v => validated (v_str v)) ;;
  mtype <- bind (required kvs (pys "market_type")) (fun v => validated (v_str v)) ;;
  eid <- validated (v_optional v_str (defaulted PNone kvs (pys "event_id"))) ;;
  ename <- validated (v_optional v_str (defaulted PNone kvs (pys "event_name"))) ;;
  edate <- validated (v_optional v_str (defaulted PNone kvs (pys "event_date"))) ;;
  cc <- validated (v_optional v_str (defaulted PNone kvs (pys "country_code"))) ;;
  mstatus <- bind (required kvs (pys "market_status"))
               (fun v => validated (v_str v)) ;;
  ip <- bind (required kvs (pys "inplay")) (fun v => validated (v_bool v)) ;;
  tm <- bind (required kvs (pys "total_matched"))
          (fun v => validated (v_float v)) ;;
  ta <- bind (required kvs (pys "total_available"))
          (fun v => validated (v_float v)) ;;
  nr <- bind (required kvs (pys "number_of_runners"))
          (fun v => validated (v_int v)) ;;
  nw <- bind (required kvs (pys "number_of_winners"))
          (fun v => validated (v_int v)) ;;
  pt <- validated (v_optional v_str (defaulted PNone kvs (pys "publish_time"))) ;;
  ver <- validated (v_optional v_int (defaulted PNone kvs (pys "version"))) ;;
  rs <- as_models Runner_parse_obj (defaulted (PList []) kvs (pys "runners")) ;;
  Ok {| market_id := mid; market_name := mname; market_type := mtype;
        event_id := eid; event_name := ename; event_date := edate;
        country_code := cc; market_status := mstatus; inplay := ip;
        total_matched := tm; total_available := ta;
        number_of_runners := nr; number_of_winners := nw;
        publish_time := pt; version := ver; runners := rs |}.

Definition FileMetadata_parse_obj (kvs : list (pystr * pyval))
    : result FileMetadata :=
  fid <- bind (required kvs (pys "file_id")) (fun v => validated (v_str v)) ;;
  fname <- bind (required kvs (pys "file_name")) (fun v => validated (v_str v)) ;;
  size <- bind (required kvs (pys "size_bytes")) (fun v => validated (v_int v)) ;;
  utime <- bind (required kvs (pys "upload_time")) (fun v => validated (v_str v)) ;;
  pstatus <- bind (required kvs (pys "processing_status"))
               (fun v => validated (v_str v)) ;;
  emsg <- validated (v_optional v_str
                       (defaulted PNone kvs (pys "error_message"))) ;;
  pat <- validated (v_optional v_str (defaulted PNone kvs (pys "processed_at"))) ;;
  Ok {| file_id := fid; file_name := fname; size_bytes := size;
        upload_time := utime; processing_status := pstatus;
        error_message := emsg; processed_at := pat |}.

Definition ProcessingStats_parse_obj (kvs : list (pystr * pyval))
    : result ProcessingStats :=
  nrec <- bind (required kvs (pys "total_records")) (fun v => validated (v_int v)) ;;
  nrun <- bind (required kvs (pys "total_runners")) (fun v => validated (v_int v)) ;;
  ms <- bind (required kvs (pys "processing_time_ms"))
          (fun v => validated (v_int v)) ;;
  csize <- bind (required kvs (pys "compressed_size_bytes"))
             (fun v => validated (v_int v)) ;;
  dsize <- bind (required kvs (pys "decompressed_size_bytes"))
             (fun v => validated (v_int v)) ;;
  Ok {| total_records := nrec; total_runners := nrun;
        processing_time_ms := ms; compressed_size_bytes := csize;
        decompressed_size_bytes := dsize |}.

(** [FileParseResponse] over the items of [file_data], as the endpoints
    build it; unpacking with the double star needs a mapping. *)
Definition FileParseResponse_parse_obj (file_data : pyval)
    : result FileParseResponse :=
  match file_data with
  | PDict kvs =>
      fm <- bind (required kvs (pys "file_metadata"))
              (as_model FileMetadata_parse_obj) ;;
      ms <- bind (required kvs (pys "markets")) (as_models Market_parse_obj) ;;
      ps <- bind (required kvs (pys "processing_stats"))
              (as_model ProcessingStats_parse_obj) ;;
      Ok {| file_metadata := fm; markets := ms; processing_stats := ps |}
  | _ => Raise (Exn TypeError (pys "argument after ** must be a mapping"))
  end.

End ParseObj.

(* ------------------------------------------------------------------ *)
(** ** Field-for-field equality of bundles

    Each field compared with [==]: exact on strings, integers and
    booleans, IEEE on floats, so a NaN differs from itself. *)

Definition option_eqb {A : Type} (eqb : A -> A -> bool) (x y : option A) : bool :=
  match x, y with
  | Some a, Some b => eqb a b
  | None, None => true
  | _, _ => false
  end.

Fixpoint list_eqb {A : Type} (eqb : A -> A -> bool) (l m : list A) : bool :=
  match l, m with
  | [], [] => true
  | x :: l', y :: m' => eqb x y && list_eqb eqb l' m'
  | _, _ => false
  end.

Definition ladder_eqb : list (list float) -> list (list float) -> bool :=
  list_eqb (list_eqb PrimFloat.eqb).

Definition RunnerBSP_eqb (a b : RunnerBSP) : bool :=
  option_eqb PrimFloat.eqb (near_price a) (near_price b)
  && option_eqb PrimFloat.eqb (far_price a) (far_price b)
  && option_eqb PrimFloat.eqb (actual_sp a) (actual_sp b)
  && ladder_eqb (back_stake_taken a) (back_stake_taken b)
  && ladder_eqb (lay_liability_taken a) (lay_liability_taken b).

Definition RunnerEX_eqb (a b : RunnerEX) : bool :=
  ladder_eqb (available_to_back a) (available_to_back b)
  && ladder_eqb (available_to_lay a) (available_to_lay b)
  && ladder_eqb (traded_volume a) (traded_volume b).

Definition Runner_eqb (a b : Runner) : bool :=
  (selection_id a =? selection_id b)
  && pystr_eqb (runner_name a) (runner_name b)
  && pystr_eqb (status a) (status b)
  && RunnerBSP_eqb (bsp a) (bsp b)
  && RunnerEX_eqb (ex a) (ex b)
  && option_eqb PrimFloat.eqb (last_price_traded a) (last_price_traded b)
  && option_eqb PrimFloat.eqb (adjustment_factor a) (adjustment_factor b).

Definition Market_eqb (a b : Market) : bool :=
  pystr_eqb (market_id a) (market_id b)
  && pystr_eqb (market_name a) (market_name b)
  && pystr_eqb (market_type a) (market_type b)
  && option_eqb pystr_eqb (event_id a) (event_id b)
  && option_eqb pystr_eqb (event_name a) (event_name b)
  && option_eqb pystr_eqb (event_date a) (event_date b)
  && option_eqb pystr_eqb (country_code a) (country_code b)
  && pystr_eqb (market_status a) (market_status b)
  && Bool.eqb (inplay a) (inplay b)
  && PrimFloat.eqb (total_matched a) (total_matched b)
  && PrimFloat.eqb (total_available a) (total_available b)
  && (number_of_runners a =? number_of_runners b)
  && (number_of_winners a =? number_of_winners b)
  && option_eqb pystr_eqb (publish_time a) (publish_time b)
  && option_eqb Z.eqb (version a) (version b)
  && list_eqb Runner_eqb (runners a) (runners b).

Definition FileMetadata_eqb (a b : FileMetadata) : bool :=
  pystr_eqb (file_id a) (file_id b)
  && pystr_eqb (file_name a) (file_name b)
  && (size_bytes a =? size_bytes b)
  && pystr_eqb (upload_time a) (upload_time b)
  && pystr_eqb (processing_status a) (processing_status b)
  && option_eqb pystr_eqb (error_message a) (error_message b)
  && option_eqb pystr_eqb (processed_at a) (processed_at b).

Definition ProcessingStats_eqb (a b : ProcessingStats) : bool :=
  (total_records a =? total_records b)
  && (total_runners a =? total_runners b)
  && (processing_time_ms a =? processing_time_ms b)
  && (compressed_size_bytes a =? compressed_size_bytes b)
  && (decompressed_size_bytes a =? decompressed_size_bytes b).

Definition FileParseResponse_eqb (a b : FileParseResponse) : bool :=
  FileMetadata_eqb (file_metadata a) (file_metadata b)
  && list_eqb Market_eqb (markets a) (markets b)
  && ProcessingStats_eqb (processing_stats a) (processing_stats b).

(** [f != f], the test [json.dumps] itself uses to find a NaN. *)
Definition is_nan (f : float) : bool := negb (PrimFloat.eqb f f).

(** The floats a value holds, and the strings, keys included. *)
Fixpoint pyval_floats (v : pyval) : list float :=
  match v with
  | PFloat f => [f]
  | PList l => flat_map pyval_floats l
  | PDict kvs => flat_map (fun kv => pyval_floats (snd kv)) kvs
  | _ => []
  end.

Fixpoint pyval_strings (v : pyval) : list pystr :=
  match v with
  | PStr s => [s]
  | PList l => flat_map pyval_strings l
  | PDict kvs => flat_map (fun kv => fst kv :: pyval_strings (snd kv)) kvs
  | _ => []
  end.

(** No float field of the bundle is a NaN. *)
Definition nan_free (data : FileParseResponse) : Prop :=
  Forall (fun f => is_nan f = false) (pyval_floats (FileParseResponse_dict data)).

(* ------------------------------------------------------------------ *)
(** ** The [json] module: [json.dumps] and [json.loads]

    Written from the module's documentation and its reference
    implementation, with the default arguments: [ensure_ascii] and
    [allow_nan] are on, keys are not sorted, the decoder is strict. *)

(** Decimal digits of an [int]. *)
Fixpoint uint_chars (d : Decimal.uint) : pystr :=
  match d with
  | Decimal.Nil => []
  | Decimal.D0 d' => 48%N :: uint_chars d'
  | Decimal.D1 d' => 49%N :: uint_chars d'
  | Decimal.D2 d' => 50%N :: uint_chars d'
  | Decimal.D3 d' => 51%N :: uint_chars d'
  | Decimal.D4 d' => 52%N :: uint_chars d'
  | Decimal.D5 d' => 53%N :: uint_chars d'
  | Decimal.D6 d' => 54%N :: uint_chars d'
  | Decimal.D7 d' => 55%N :: uint_chars d'
  | Decimal.D8 d' => 56%N :: uint_chars d'
  | Decimal.D9 d' => 57%N :: uint_chars d'
  end.

Fixpoint chars_uint (s : pystr) : option Decimal.uint :=
  match s with
  | [] => Some Decimal.Nil
  | c :: s' =>
      match chars_uint s' with
      | None => None
      | Some d =>
          if (c =? 48)%N then Some (Decimal.D0 d)
          else if (c =? 49)%N then Some (Decimal.D1 d)
          else if (c =? 50)%N then Some (Decimal.D2 d)
          else if (c =? 51)%N then Some (Decimal.D3 d)
          else if (c =? 52)%N then Some (Decimal.D4 d)
          else if (c =? 53)%N then Some (Decimal.D5 d)
          else if (c =? 54)%N then Some (Decimal.D6 d)
          else if (c =? 55)%N then Some (Decimal.D7 d)
          else if (c =? 56)%N then Some (Decimal.D8 d)
          else if (c =? 57)%N then Some (Decimal.D9 d)
          else None
      end
  end.

(** [int.__repr__] without the digit limit. *)
Definition int_chars (z : Z) : pystr :=
  match Z.to_int z with
  | Decimal.Pos d => uint_chars d
  | Decimal.Neg d => 45%N :: uint_chars d
  end.

(** Hexadecimal, as ['{0:04x}'.format(n)] writes it and as the decoder
    reads it, in either case. *)
Definition hex_digit (d : N) : N :=
  if (d <? 10)%N then (48 + d)%N else (87 + d)%N.

Definition hex4 (n : N) : pystr :=
  [hex_digit ((n / 4096) mod 16); hex_digit ((n / 256) mod 16);
   hex_digit ((n / 16) mod 16); hex_digit (n mod 16)]%N.

Definition hex_value (c : N) : option N :=
  if ((48 <=? c) && (c <=? 57))%N then Some (c - 48)%N
  else if ((97 <=? c) && (c <=? 102))%N then Some (c - 87)%N
  else if ((65 <=? c) && (c <=? 70))%N then Some (c - 55)%N
  else None.

Definition hex4_value (a b c d : N) : option N :=
  match hex_value a, hex_value b, hex_value c, hex_value d with
  | Some x, Some y, Some z, Some w => Some (x * 4096 + y * 256 + z * 16 + w)%N
  | _, _, _, _ => None
  end.

Definition is_high_surrogate (c : N) : bool := ((55296 <=? c) && (c <=? 56319))%N.
Definition is_low_surrogate (c : N) : bool := ((56320 <=? c) && (c <=? 57343))%N.

(** ['\\u{0:04x}'.format(n)] *)
Definition u_escape (n : N) : pystr := 92%N :: 117%N :: hex4 n.

(** What [encode_basestring_ascii] puts for one character: the short
    escapes, the printable ASCII characters as they are, four hexadecimal
    digits for the rest of the basic plane and a surrogate pair beyond. *)
Definition escape_char (c : N) : pystr :=
  if (c =? 34)%N then [92; 34]%N
  else if (c =? 92)%N then [92; 92]%N
  else if (c =? 10)%N then [92; 110]%N
  else if (c =? 13)%N then [92; 114]%N
  else if (c =? 9)%N then [92; 116]%N
  else if (c =? 12)%N then [92; 102]%N
  else if (c =? 8)%N then [92; 98]%N
  else if ((32 <=? c) && (c <=? 126))%N then [c]
  else if (c <? 65536)%N then u_escape c
  else
    let n := (c - 65536)%N in
    u_escape (N.lor 55296 (N.land (N.shiftr n 10) 1023))
    ++ u_escape (N.lor 56320 (N.land n 1023)).

Definition encode_basestring_ascii (s : pystr) : pystr :=
  34%N :: flat_map escape_char s ++ [34%N].

(** White space between tokens. *)
Definition is_ws (c : N) : bool :=
  ((c =? 32) || (c =? 9) || (c =? 10) || (c =? 13))%N.

Fixpoint skip_ws (s : pystr) : pystr :=
  match s with
  | c :: s' => if is_ws c then skip_ws s' else s
  | [] => []
  end.

Fixpoint span_digits (s : pystr) : pystr * pystr :=
  match s with
  | c :: s' =>
      if is_digit c then let '(ds, rest) := span_digits s' in (c :: ds, rest)
      else ([], s)
  | [] => ([], [])
  end.

(** The three groups of [NUMBER_RE]: the integer, an optional minus sign
    and then a zero or a digit from 1 to 9 with the digits after it; the
    fraction, a point and at least one digit; the exponent, an [e] or [E],
    an optional sign and at least one digit. *)
Definition has_minus (s : pystr) : bool :=
  match s with
  | c :: _ => (c =? 45)%N
  | [] => false
  end.

(** A literal without its minus sign. *)
Definition digits_of (literal : pystr) : pystr :=
  if has_minus literal then tl literal else literal.

Definition match_integer (s : pystr) : option (pystr * pystr) :=
  let sign := if has_minus s then [45%N] else [] in
  match digits_of s with
  | c :: s2 =>
      if (c =? 48)%N then Some (sign ++ [c], s2)
      else if is_digit c
      then let '(ds, rest) := span_digits s2 in Some (sign ++ c :: ds, rest)
      else None
  | [] => None
  end.

Definition match_frac (s : pystr) : option (pystr * pystr) :=
  match s with
  | p :: c :: s' =>
      if (p =? 46)%N && is_digit c
      then let '(ds, rest) := span_digits s' in Some (p :: c :: ds, rest)
      else None
  | _ => None
  end.

Definition match_exp (s : pystr) : option (pystr * pystr) :=
  match s with
  | e :: s1 =>
      if ((e =? 101) || (e =? 69))%N then
        let '(sign, s2) :=
          match s1 with
          | c :: s' => if ((c =? 43) || (c =? 45))%N then ([c], s') else ([], s1)
          | [] => ([], s1)
          end in
        match s2 with
        | c :: s3 =>
            if is_digit c
            then let '(ds, rest) := span_digits s3 in
                 Some (e :: sign ++ c :: ds, rest)
            else None
        | [] => None
        end
      else None
  | [] => None
  end.

(** A match of [NUMBER_RE] at the head of [s]: the integer group, what the
    two optional groups matched, and the rest of the text. *)
Definition match_number (s : pystr) : option (pystr * pystr * pystr * pystr) :=
  match match_integer s with
  | None => None
  | Some (integer, s1) =>
      let '(frac, s2) :=
        match match_frac s1 with
        | Some (frac, s2) => (frac, s2)
        | None => ([], s1)
        end in
      let '(exp, s3) :=
        match match_exp s2 with
        | Some (exp, s3) => (exp, s3)
        | None => ([], s2)
        end in
      Some (integer, frac, exp, s3)
  end.

(** [s] is a number literal with a fraction or an exponent. *)
Definition is_float_literal (s : pystr) : bool :=
  match match_number s with
  | Some (_, frac, exp, []) =>
      match frac, exp with
      | [], [] => false
      | _, _ => true
      end
  | _ => false
  end.

Fixpoint starts_with (prefix s : pystr) : option pystr :=
  match prefix, s with
  | [], _ => Some s
  | p :: prefix', c :: s' => if (p =? c)%N then starts_with prefix' s' else None
  | _ :: _, [] => None
  end.

(** [sep.join(parts)] *)
Fixpoint join (sep : pystr) (parts : list pystr) : pystr :=
  match parts with
  | [] => []
  | [part] => part
  | part :: parts' => part ++ sep ++ join sep parts'
  end.

Section Json.

(** [float.__repr__] and [float(s)]. *)
Variable float_repr : float -> pystr.
Variable float_of_str : pystr -> option float.

(** [sys.get_int_max_str_digits()]: the longest integer, in digits, that
    is converted to or from text, 0 for no limit. *)
Variable int_max_str_digits : nat.

(** The nesting of lists and dicts the interpreter's recursion limit
    leaves room for. *)
Variable recursion_limit : nat.

(** The text of the exception of a class that [json.dumps] raises for a
    value and [json.loads] for a document. *)
Variable dumps_error_text : pyval -> exn_kind -> pystr.
Variable loads_error_text : pystr -> exn_kind -> pystr.

Definition fail {A : Type} (kind : exn_kind) : result A := Raise (Exn kind []).

Definition with_text {A : Type} (text : exn_kind -> pystr) (c : result A)
    : result A :=
  match c with
  | Ok a => Ok a
  | Raise e => Raise (Exn (exn_kind_of e) (text (exn_kind_of e)))
  end.

Definition over_digit_limit (digits : pystr) : bool :=
  match int_max_str_digits with
  | O => false
  | S _ => (int_max_str_digits <? List.length digits)%nat
  end.

(** [int.__repr__] *)
Definition int_repr (z : Z) : result pystr :=
  let text := int_chars z in
  if over_digit_limit (digits_of text) then fail ValueError else Ok text.

(** [int(s)] for the integer group of a number. *)
Definition int_of_literal (literal : pystr) : result Z :=
  if over_digit_limit (digits_of literal) then fail ValueError
  else
    match chars_uint (digits_of literal) with
    | Some d =>
        Ok (Z.of_int (if has_minus literal then Decimal.Neg d
                      else Decimal.Pos d))
    | None => fail ValueError
    end.

(** [floatstr] of the encoder. *)
Definition floatstr (o : float) : pystr :=
  if is_nan o then pys "NaN"
  else if PrimFloat.eqb o infinity then pys "Infinity"
  else if PrimFloat.eqb o neg_infinity then pys "-Infinity"
  else float_repr o.

(** ['\n' + ' ' * (indent * level)] when there is an indent. *)
Definition newline_indent (indent : option Z) (level : nat) : pystr :=
  match indent with
  | None => []
  | Some n => 10%N :: repeat 32%N (Z.to_nat n * level)
  end.

Definition item_separator (indent : option Z) : pystr :=
  match indent with
  | None => pys ", "
  | Some _ => pys ","
  end.

Definition key_separator : pystr := pys ": ".

(** The text between the brackets of a list or dict that is not empty. *)
Definition bracketed (indent : option Z) (level : nat) (parts : list pystr)
    : pystr :=
  newline_indent indent (S level)
  ++ join (item_separator indent ++ newline_indent indent (S level)) parts
  ++ newline_indent indent level.

(** The encoder; [depth] is the nesting there is still room for and
    [level] the nesting so far. *)
Fixpoint encode (indent : option Z) (depth level : nat) (o : pyval)
    {struct depth} : result pystr :=
  match o with
  | PNone => Ok (pys "null")
  | PBool true => Ok (pys "true")
  | PBool false => Ok (pys "false")
  | PInt z => int_repr z
  | PFloat f => Ok (floatstr f)
  | PStr s => Ok (encode_basestring_ascii s)
  | PList items =>
      match depth with
      | O => fail RecursionError
      | S depth' =>
          match items with
          | [] => Ok (pys "[]")
          | _ :: _ =>
              parts <- mapM (encode indent depth' (S level)) items ;;
              Ok (91%N :: bracketed indent level parts ++ [93%N])
          end
      end
  | PDict kvs =>
      match depth with
      | O => fail RecursionError
      | S depth' =>
          match kvs with
          | [] => Ok (pys "{}")
          | _ :: _ =>
              parts <- mapM (fun kv =>
                               value <- encode indent depth' (S level) (snd kv) ;;
                               Ok (encode_basestring_ascii (fst kv)
                                   ++ key_separator ++ value))
                            kvs ;;
              Ok (123%N :: bracketed indent level parts ++ [125%N])
          end
      end
  end.

Definition json_dumps (obj : pyval) (indent : option Z) : result pystr :=
  with_text (dumps_error_text obj) (encode indent recursion_limit 0 obj).

(** [scanstring] past the opening quote: the characters up to the closing
    quote with the escapes resolved, a surrogate pair written as two
    escapes joined into one character, and the text after the quote. *)
Fixpoint scanstring (s : pystr) (chunks : pystr) {struct s}
    : result (pystr * pystr) :=
  match s with
  | [] => fail JSONDecodeError
  | c :: rest =>
      if (c =? 34)%N then Ok (chunks, rest)
      else if (c =? 92)%N then
        match rest with
        | [] => fail JSONDecodeError
        | esc :: rest1 =>
            if (esc =? 117)%N then
              match rest1 with
              | a :: b :: c1 :: d :: rest2 =>
                  match hex4_value a b c1 d with
                  | None => fail JSONDecodeError
                  | Some uni =>
                      match rest2 with
                      | x1 :: x2 :: a2 :: b2 :: c2 :: d2 :: rest3 =>
                          if is_high_surrogate uni
                             && (x1 =? 92)%N && (x2 =? 117)%N then
                            match hex4_value a2 b2 c2 d2 with
                            | None => fail JSONDecodeError
                            | Some uni2 =>
                                if is_low_surrogate uni2
                                then scanstring rest3
                                       (chunks
                                        ++ [65536 + (N.lor
                                                      (N.shiftl (uni - 55296) 10)
                                                      (uni2 - 56320))]%N)
                                else scanstring rest2 (chunks ++ [uni])
                            end
                          else scanstring rest2 (chunks ++ [uni])
                      | _ => scanstring rest2 (chunks ++ [uni])
                      end
                  end
              | _ => fail JSONDecodeError
              end
            else if (esc =? 34)%N then scanstring rest1 (chunks ++ [34%N])
            else if (esc =? 92)%N then scanstring rest1 (chunks ++ [92%N])
            else if (esc =? 47)%N then scanstring rest1 (chunks ++ [47%N])
            else if (esc =? 98)%N then scanstring rest1 (chunks ++ [8%N])
            else if (esc =? 102)%N then scanstring rest1 (chunks ++ [12%N])
            else if (esc =? 110)%N then scanstring rest1 (chunks ++ [10%N])
            else if (esc =? 114)%N then scanstring rest1 (chunks ++ [13%N])
            else if (esc =? 116)%N then scanstring rest1 (chunks ++ [9%N])
            else fail JSONDecodeError
        end
      else if (c <? 32)%N then fail JSONDecodeError
      else scanstring rest (chunks ++ [c])
  end.

(** A number at the head of the text: an [int] when neither optional
    group matched, a [float] otherwise. *)
Definition scan_number (s : pystr) : option (result (pyval * pystr)) :=
  match match_number s with
  | None => None
  | Some (integer, frac, exp, rest) =>
      Some match frac, exp with
           | [], [] => z <- int_of_literal integer ;; Ok (PInt z, rest)
           | _, _ =>
               match float_of_str (integer ++ frac ++ exp) with
               | Some f => Ok (PFloat f, rest)
               | None => fail ValueError
               end
           end
  end.

(** The values that are neither strings nor containers. *)
Definition scan_scalar (s : pystr) : result (pyval * pystr) :=
  match starts_with (pys "null") s with
  | Some rest => Ok (PNone, rest)
  | None =>
  match starts_with (pys "true") s with
  | Some rest => Ok (PBool true, rest)
  | None =>
  match starts_with (pys "false") s with
  | Some rest => Ok (PBool false, rest)
  | None =>
  match scan_number s with
  | Some outcome => outcome
  | None =>
  match starts_with (pys "NaN") s with
  | Some rest => Ok (PFloat nan, rest)
  | None =>
  match starts_with (pys "Infinity") s with
  | Some rest => Ok (PFloat infinity, rest)
  | None =>
  match starts_with (pys "-Infinity") s with
  | Some rest => Ok (PFloat neg_infinity, rest)
  | None => fail JSONDecodeError
  end end end end end end end.

Section Containers.

(** The scanner for the values inside a container. *)
Variable scan_once : pystr -> result (pyval * pystr).

(** The loop of [JSONArray], entered before a value.  Every round takes
    at least the comma off the text, so [fuel], which starts as the length
    of the text, does not run out. *)
Fixpoint array_items (fuel : nat) (s : pystr) (values : list pyval)
    {struct fuel} : result (list pyval * pystr) :=
  match fuel with
  | O => fail JSONDecodeError
  | S fuel' =>
      item <- scan_once s ;;
      let '(value, rest) := item in
      match skip_ws rest with
      | c :: rest' =>
          if (c =? 93)%N then Ok (values ++ [value], rest')
          else if (c =? 44)%N
          then array_items fuel' (skip_ws rest') (values ++ [value])
          else fail JSONDecodeError
      | [] => fail JSONDecodeError
      end
  end.

(** [JSONArray], past the opening bracket. *)
Definition JSONArray (s : pystr) : result (pyval * pystr) :=
  match skip_ws s with
  | c :: rest =>
      if (c =? 93)%N then Ok (PList [], rest)
      else
        found <- array_items (List.length s) (c :: rest) [] ;;
        let '(values, rest') := found in Ok (PList values, rest')
  | [] => fail JSONDecodeError
  end.

(** The loop of [JSONObject], entered past the opening quote of a key;
    [dict(pairs)] keeps the place of a key's first pair and the value of
    its last. *)
Fixpoint object_pairs (fuel : nat) (s : pystr) (pairs : list (pystr * pyval))
    {struct fuel} : result (list (pystr * pyval) * pystr) :=
  match fuel with
  | O => fail JSONDecodeError
  | S fuel' =>
      found <- scanstring s [] ;;
      let '(key, rest) := found in
      match skip_ws rest with
      | c :: rest1 =>
          if (c =? 58)%N then
            item <- scan_once (skip_ws rest1) ;;
            let '(value, rest2) := item in
            match skip_ws rest2 with
            | c2 :: rest3 =>
                if (c2 =? 125)%N then Ok (dict_set key value pairs, rest3)
                else if (c2 =? 44)%N then
                  match skip_ws rest3 with
                  | c3 :: rest4 =>
                      if (c3 =? 34)%N
                      then object_pairs fuel' rest4 (dict_set key value pairs)
                      else fail JSONDecodeError
                  | [] => fail JSONDecodeError
                  end
                else fail JSONDecodeError
            | [] => fail JSONDecodeError
            end
          else fail JSONDecodeError
      | [] => fail JSONDecodeError
      end
  end.

(** [JSONObject], past the opening brace. *)
Definition JSONObject (s : pystr) : result (pyval * pystr) :=
  match skip_ws s with
  | c :: rest =>
      if (c =? 125)%N then Ok (PDict [], rest)
      else if (c =? 34)%N then
        found <- object_pairs (List.length s) rest [] ;;
        let '(pairs, rest') := found in Ok (PDict pairs, rest')
      else fail JSONDecodeError
  | [] => fail JSONDecodeError
  end.

End Containers.

(** [scan_once]: the value at the head of the text and the text after it;
    [depth] is the nesting there is still room for. *)
Fixpoint scan_once (depth : nat) (s : pystr) {struct depth}
    : result (pyval * pystr) :=
  match s with
  | [] => fail JSONDecodeError
  | c :: rest =>
      if (c =? 34)%N then
        found <- scanstring rest [] ;;
        let '(text, rest') := found in Ok (PStr text, rest')
      else if (c =? 123)%N then
        match depth with
        | O => fail RecursionError
        | S depth' => JSONObject (scan_once depth') rest
        end
      else if (c =? 91)%N then
        match depth with
        | O => fail RecursionError
        | S depth' => JSONArray (scan_once depth') rest
        end
      else scan_scalar s
  end.

(** [json.loads]: one value between optional white space and nothing
    after it. *)
Definition json_loads (s : pystr) : result pyval :=
  with_text (loads_error_text s)
    (found <- scan_once recursion_limit (skip_ws s) ;;
     let '(obj, rest) := found in
     match skip_ws rest with
     | [] => Ok obj
     | _ :: _ => fail JSONDecodeError
     end).

End Json.

(** Re-parsing an exported text: [json.loads], then the bundle's
    constructor over the dict that was read. *)
Definition parse_back (json_loads : pystr -> result pyval)
    (parse_obj : pyval -> result FileParseResponse) (text : pystr)
    : result FileParseResponse :=
  file_data <- json_loads text ;; parse_obj file_data.

(** Stand-ins for [float.__repr__] and [float(s)] that know the whole
    numbers below 10^16, which [repr] writes with [.0] after the digits,
    and stand-ins for the limits and the error texts. *)
Definition whole_float_repr (f : float) : pystr :=
  match Prim2SF f with
  | S754_zero s => if s then pys "-0.0" else pys "0.0"
  | S754_finite s m e =>
      let n := if 0 <=? e then Z.pos m * 2 ^ e else Z.pos m / 2 ^ (- e) in
      if Z_float_eqb n (PrimFloat.abs f) && (n <? 10 ^ 16)
      then (if s then [45%N] else []) ++ int_chars n ++ pys ".0"
      else []
  | _ => []
  end.

Definition whole_float_of_str (s : pystr) : option float :=
  match match_number s with
  | Some (integer, frac, exp, rest) =>
      if pystr_eqb frac (pys ".0") && pystr_eqb (exp ++ rest) [] then
        match chars_uint (digits_of integer) with
        | Some d =>
            match float_of_Z (Z.of_N (N.of_uint d)) with
            | Ok f => Some (if has_minus integer then PrimFloat.opp f else f)
            | Raise _ => None
            end
        | None => None
        end
      else None
  | None => None
  end.

Definition sample_dumps : pyval -> option Z -> result pystr :=
  json_dumps whole_float_repr 4300 1000 (fun _ _ => pys "not serializable").

Definition sample_json_loads : pystr -> result pyval :=
  json_loads whole_float_of_str 4300 1000 (fun _ _ => pys "not a document").

Definition sample_parse_obj : pyval -> result FileParseResponse :=
  FileParseResponse_parse_obj strict_str strict_int strict_float strict_bool.

(** The sample bundle with a NaN as the market's [total_matched], and
    with a file name of two characters, a high surrogate and a low one. *)
Definition nan_response : FileParseResponse :=
  {| file_metadata := file_metadata sample_response;
     markets :=
       map (fun m =>
              {| market_id := market_id m; market_name := market_name m;
                 market_type := market_type m; event_id := event_id m;
                 event_name := event_name m; event_date := event_date m;
                 country_code := country_code m;
                 market_status := market_status m; inplay := inplay m;
                 total_matched := nan; total_available := total_available m;
                 number_of_runners := number_of_runners m;
                 number_of_winners := number_of_winners m;
                 publish_time := publish_time m; version := version m;
                 runners := runners m |})
           (markets sample_response);
     processing_stats := processing_stats sample_response |}.

Definition surrogate_response : FileParseResponse :=
  {| file_metadata :=
       {| file_id := pys "0000"; file_name := [55357%N; 56832%N];
          size_bytes := 10; upload_time := pys "2024-01-01T00:00:00Z";
          processing_status := pys "completed"; error_message := None;
          processed_at := None |};
     markets := markets sample_response;
     processing_stats := processing_stats sample_response |}.

(** Where a number literal ends: at the end of the text or before a
    character that is neither a digit nor a point nor an [e]. *)
Definition number_stop (rest : pystr) : Prop :=
  match rest with
  | c :: _ =>
      is_digit c = false /\ (c =? 46)%N = false /\
      ((c =? 101) || (c =? 69))%N = false
  | [] => True
  end.

(* ================================================================== *)
(** * Properties *)

Example scenario_record_normalizes :
  sample_extract scenario_record = Ok scenario_market.
Proof. vm_compute. reflexivity. Qed.

(** ** The error monad and dict lookups *)

Lemma bind_Ok {A B : Type} (c : result A) (f : A -> result B) (b : B) :
  bind c f = Ok b -> exists a, c = Ok a /\ f a = Ok b.
Proof. destruct c as [a|e]; simpl; intros H; [eauto | discriminate]. Qed.

Lemma validated_Ok {A : Type} (o : option A) (a : A) :
  validated o = Ok a -> o = Some a.
Proof. destruct o; simpl; intros H; [congruence | discriminate]. Qed.

Lemma bind_Ok_l {A B : Type} (a : A) (f : A -> result B) : bind (Ok a) f = f a.
Proof. reflexivity. Qed.

Lemma bind_ext {A B : Type} (c : result A) (f g : A -> result B) :
  (forall a, f a = g a) -> bind c f = bind c g.
Proof. intros H. destruct c; simpl; [apply H | reflexivity]. Qed.

Lemma bind_raises {A B : Type} (c : result A) (f : A -> result B) :
  (forall a, exists e, f a = Raise e) -> exists e, bind c f = Raise e.
Proof. intros H. destruct c; simpl; [apply H | eauto]. Qed.

Lemma py_getitem0_cons (x : pyval) (l : list pyval) :
  py_getitem0 (PList (x :: l)) = Ok x.
Proof. reflexivity. Qed.

(** Peel the leading [bind] off a hypothesis [H : bind c f = Ok b]. *)
Tactic Notation "bind_inv" hyp(H) "as" ident(a) ident(E) :=
  lazymatch type of H with
  | bind _ _ = Ok _ => apply bind_Ok in H; destruct H as (a & E & H)
  end.

Ltac bind_inv_all H :=
  repeat (let a := fresh "x" in let E := fresh "E" in bind_inv H as a E).

Ltac validated_inv :=
  repeat match goal with
         | E : validated _ = Ok _ |- _ => apply validated_Ok in E
         end.

(** Walk down a chain of [bind]s in the goal: a round that raises closes
    the goal with [tac], a round that returns moves on. *)
Ltac step_or tac :=
  lazymatch goal with
  | |- context [bind ?c _] =>
      let E := fresh "E" in
      destruct c eqn:E; cbn [bind]; [ | solve [tac] ]
  end.

Lemma pystr_eqb_eq (s t : pystr) : pystr_eqb s t = true <-> s = t.
Proof.
  revert t; induction s as [|c s IH]; intros [|d t]; simpl; split;
    try congruence; try reflexivity.
  - intros H. apply andb_true_iff in H as [H1 H2].
    apply N.eqb_eq in H1. apply IH in H2. congruence.
  - intros H. injection H as -> ->. rewrite N.eqb_refl. simpl. now apply IH.
Qed.

Lemma pystr_eqb_refl (s : pystr) : pystr_eqb s s = true.
Proof. now apply pystr_eqb_eq. Qed.

Lemma pystr_eqb_sym (s t : pystr) : pystr_eqb s t = pystr_eqb t s.
Proof.
  destruct (pystr_eqb s t) eqn:E1, (pystr_eqb t s) eqn:E2; try reflexivity.
  - apply pystr_eqb_eq in E1. subst. rewrite pystr_eqb_refl in E2. discriminate.
  - apply pystr_eqb_eq in E2. subst. rewrite pystr_eqb_refl in E1. discriminate.
Qed.

Lemma key_in_false_cons (k k' : pystr) (keys : list pystr) :
  key_in k (k' :: keys) = false -> pystr_eqb k' k = false /\ key_in k keys = false.
Proof.
  unfold key_in. simpl. intros H. apply orb_false_iff in H as [H1 H2].
  rewrite pystr_eqb_sym. auto.
Qed.

(** A key the code does not ask for does not change what [get] answers. *)
Lemma py_get_other_key (k key : pystr) (v default : pyval) (kvs : list (pystr * pyval)) :
  pystr_eqb key k = false ->
  py_get (PDict ((k, v) :: kvs)) key default = py_get (PDict kvs) key default.
Proof. intros H. unfold py_get. simpl. rewrite H. reflexivity. Qed.

Lemma py_get_getd (obj : pyval) (key : pystr) (default v : pyval) :
  py_get obj key default = Ok v -> getd obj key default = v.
Proof. unfold getd. intros ->. reflexivity. Qed.

Lemma py_getitem0_first_or (obj default v : pyval) :
  py_getitem0 obj = Ok v -> first_or obj default = v.
Proof. unfold first_or. intros ->. reflexivity. Qed.

Lemma py_iter_items_of (obj : pyval) (l : list pyval) :
  py_iter obj = Ok l -> items_of obj = l.
Proof. unfold items_of. intros ->. reflexivity. Qed.

Lemma py_get_absent (kvs : list (pystr * pyval)) (key : pystr) (default : pyval) :
  dict_lookup key kvs = None -> py_get (PDict kvs) key default = Ok default.
Proof. intros H. unfold py_get. rewrite H. reflexivity. Qed.

Lemma py_get_present (kvs : list (pystr * pyval)) (key : pystr) (default v : pyval) :
  dict_lookup key kvs = Some v -> py_get (PDict kvs) key default = Ok v.
Proof. intros H. unfold py_get. rewrite H. reflexivity. Qed.

(** ** The normalizer *)

Section NormalizerFacts.

Variable v_str : pyval -> option pystr.
Variable v_int : pyval -> option Z.
Variable v_float : pyval -> option float.
Variable v_bool : pyval -> option bool.
Variable float_of_str : pystr -> option float.

(** What every pydantic release grants: a [str] passes a [str] field
    unchanged, an [int] passes an [int] field unchanged, and [None] does
    not pass a required [int] field. *)
Hypothesis v_str_str : forall s, v_str (PStr s) = Some s.
Hypothesis v_int_int : forall z, v_int (PInt z) = Some z.
Hypothesis v_int_None : v_int PNone = None.

Let extract := extract_market_data v_str v_int v_float v_bool float_of_str.
Let runner_of := extract_runner v_str v_int v_float float_of_str.
Let runners_of := extract_runners v_str v_int v_float float_of_str.

Lemma new_Market_Ok mid name mtype eid ename edate ccode mstatus inpl
    tm ta nrunners nwinners ptime ver rs m :
  new_Market v_str v_int v_float v_bool mid name mtype eid ename edate ccode
    mstatus inpl tm ta nrunners nwinners ptime ver rs = Ok m ->
  v_str mid = Some (market_id m) /\
  v_str name = Some (market_name m) /\
  v_int nrunners = Some (number_of_runners m) /\
  runners m = rs.
Proof.
  unfold new_Market. intros H. bind_inv_all H.
  injection H as <-. simpl. validated_inv. auto.
Qed.

Lemma new_Runner_Ok sid name st b e ltp adj r :
  new_Runner v_str v_int v_float sid name st b e ltp adj = Ok r ->
  v_int sid = Some (selection_id r) /\ v_str name = Some (runner_name r).
Proof.
  unfold new_Runner. intros H. bind_inv_all H.
  injection H as <-. simpl. validated_inv. auto.
Qed.

(** The runners loop appends one runner per book entry, in order. *)
Lemma extract_runners_Ok cat books acc rs :
  runners_of cat books acc = Ok rs ->
  exists rs', rs = acc ++ rs' /\
              Forall2 (fun rb r => runner_of cat rb = Ok r) books rs'.
Proof.
  subst runners_of runner_of.
  revert acc rs. induction books as [|rb books IH]; simpl; intros acc rs H.
  - injection H as <-. exists []. rewrite app_nil_r. auto.
  - bind_inv H as r Er. apply IH in H as (rs' & -> & HF).
    exists (r :: rs'). rewrite <- app_assoc. simpl. auto.
Qed.

(** What a successful normalization went through. *)
Lemma extract_market_data_Ok d m :
  extract d = Ok m ->
  v_str (getd (market_book_of d) (pys "id") (PStr (pys "UNKNOWN")))
    = Some (market_id m) /\
  v_str (chosen_market_name d) = Some (market_name m) /\
  number_of_runners m = Z.of_nat (List.length (runners m)) /\
  Forall2 (fun rb r => runner_of (market_catalogue_of d) rb = Ok r)
          (runner_books_of d) (runners m).
Proof.
  subst extract. unfold extract_market_data. intros H.
  bind_inv H as mc Emc. bind_inv H as mc0 Emc0. bind_inv H as mid Emid.
  bind_inv H as mdef Emdef. bind_inv H as name0 Ename0.
  bind_inv H as mtype Emtype. bind_inv H as ev Eev.
  bind_inv H as eid Eeid. bind_inv H as ename Eename.
  bind_inv H as edate Eedate. bind_inv H as ccode Eccode.
  bind_inv H as cat Ecat. bind_inv H as name Ename.
  bind_inv H as mc' Emc'. bind_inv H as book Ebook.
  bind_inv H as mstatus Emstatus. bind_inv H as inpl Einpl.
  bind_inv H as tm Etm. bind_inv H as ta Eta.
  bind_inv H as rbv Erbv. bind_inv H as books Ebooks.
  bind_inv H as rs Ers. bind_inv H as nw Enw.
  bind_inv H as pt Ept. bind_inv H as ver Ever.
  apply new_Market_Ok in H as (Hid & Hname & Hn & Hrs).
  rewrite v_int_int in Hn. injection Hn as Hn. subst rs.
  apply extract_runners_Ok in Ers as (rs' & Hrs' & HF). simpl in Hrs'.
  rewrite <- Hrs' in HF. clear rs' Hrs'.
  rewrite Emc in Emc'. injection Emc' as <-.
  rewrite Emc0 in Ebook. injection Ebook as <-.
  unfold runner_books_of, chosen_market_name.
  unfold market_book_of, market_catalogue_of, definition_name_of.
  rewrite (py_get_getd _ _ _ _ Emc), (py_getitem0_first_or _ _ _ Emc0),
    (py_get_getd _ _ _ _ Emdef), (py_get_getd _ _ _ _ Ename0),
    (py_get_getd _ _ _ _ Ecat), (py_get_getd _ _ _ _ Erbv),
    (py_iter_items_of _ _ Ebooks), (py_get_getd _ _ _ _ Emid).
  repeat split; auto.
  unfold fallback_market_name in Ename.
  destruct (py_truthy name0); simpl in Ename |- *.
  - destruct (py_eq name0 (PStr (pys "Unknown Market"))); simpl in Ename |- *.
    + rewrite (py_get_getd _ _ _ _ Ename). exact Hname.
    + injection Ename as <-. exact Hname.
  - rewrite (py_get_getd _ _ _ _ Ename). exact Hname.
Qed.

Lemma py_get_head (key : pystr) (v default : pyval) (kvs : list (pystr * pyval)) :
  py_get (PDict ((key, v) :: kvs)) key default = Ok v.
Proof. unfold py_get. simpl. rewrite pystr_eqb_refl. reflexivity. Qed.

(** Turn [key_in k keys = false] into one disequality per key. *)
Ltac split_keys H :=
  repeat (apply key_in_false_cons in H;
          let K := fresh "K" in destruct H as [K H]).

Lemma extract_ignores_top_level_key k v kvs :
  key_in k top_level_keys = false ->
  extract (PDict ((k, v) :: kvs)) = extract (PDict kvs).
Proof.
  intros H. unfold top_level_keys in H. split_keys H.
  subst extract. unfold extract_market_data.
  rewrite !(py_get_other_key k) by assumption. reflexivity.
Qed.

Lemma extract_ignores_definition_key k v md kvs :
  key_in k definition_keys = false ->
  extract (PDict ((pys "marketDefinition", PDict ((k, v) :: md)) :: kvs))
  = extract (PDict ((pys "marketDefinition", PDict md) :: kvs)).
Proof.
  intros H. unfold definition_keys in H. split_keys H.
  subst extract. unfold extract_market_data.
  rewrite !py_get_head. cbn [bind].
  rewrite !(py_get_other_key k) by assumption. reflexivity.
Qed.

(** Run both sides of an equation between two chains of [bind]s in step:
    [rew] brings the leading steps together, then the step is shared. *)
Ltac in_step rew :=
  repeat first
    [ lazymatch goal with |- ?a = ?b => constr_eq a b; reflexivity end
    | progress rew
    | lazymatch goal with
      | |- bind (Ok _) _ = _ => rewrite !bind_Ok_l; cbv beta
      end
    | lazymatch goal with
      | |- bind ?c _ = bind ?d _ => constr_eq c d; apply bind_ext; intro
      end ].

Lemma extract_ignores_market_book_key k v mb more kvs :
  key_in k market_book_keys = false ->
  extract (PDict ((pys "mc", PList (PDict ((k, v) :: mb) :: more)) :: kvs))
  = extract (PDict ((pys "mc", PList (PDict mb :: more)) :: kvs)).
Proof.
  intros H. unfold market_book_keys in H. split_keys H.
  subst extract. unfold extract_market_data.
  rewrite !py_get_head.
  rewrite !(py_get_other_key (pys "mc")) by (vm_compute; reflexivity).
  in_step ltac:(rewrite ?py_getitem0_cons;
                rewrite ?(py_get_other_key k) by assumption).
Qed.

Lemma extract_runner_ignores_catalogue_key k v mcat rb :
  key_in k catalogue_keys = false ->
  extract_runner v_str v_int v_float float_of_str (PDict ((k, v) :: mcat)) rb
  = extract_runner v_str v_int v_float float_of_str (PDict mcat) rb.
Proof.
  intros H. unfold catalogue_keys in H. split_keys H.
  unfold extract_runner.
  rewrite !(py_get_other_key k) by assumption. reflexivity.
Qed.

Lemma extract_runners_ignores_catalogue_key k v mcat books acc :
  key_in k catalogue_keys = false ->
  extract_runners v_str v_int v_float float_of_str (PDict ((k, v) :: mcat)) books acc
  = extract_runners v_str v_int v_float float_of_str (PDict mcat) books acc.
Proof.
  intros H. revert acc.
  induction books as [|rb books IH]; intros acc; simpl; [reflexivity|].
  rewrite (extract_runner_ignores_catalogue_key _ _ _ _ H).
  destruct (extract_runner _ _ _ _ (PDict mcat) rb); simpl; [apply IH|reflexivity].
Qed.

Lemma fallback_ignores_catalogue_key k v mcat name :
  key_in k catalogue_keys = false ->
  fallback_market_name (PDict ((k, v) :: mcat)) name
  = fallback_market_name (PDict mcat) name.
Proof.
  intros H. unfold catalogue_keys in H. split_keys H.
  unfold fallback_market_name.
  rewrite !(py_get_other_key k) by assumption. reflexivity.
Qed.

Lemma extract_ignores_catalogue_key k v mcat kvs :
  key_in k catalogue_keys = false ->
  extract (PDict ((pys "marketCatalogue", PDict ((k, v) :: mcat)) :: kvs))
  = extract (PDict ((pys "marketCatalogue", PDict mcat) :: kvs)).
Proof.
  intros H.
  subst extract. unfold extract_market_data.
  rewrite !py_get_head.
  rewrite !(py_get_other_key (pys "marketCatalogue")) by (vm_compute; reflexivity).
  in_step ltac:(rewrite ?(fallback_ignores_catalogue_key _ _ _ _ H);
                rewrite ?(extract_runners_ignores_catalogue_key _ _ _ _ _ H)).
Qed.

(** C1: every snapshot that normalization produces has [number_of_runners]
    equal to the length of its [runners]; and a field of the record that
    the code does not read, such as a runner count, at the top level, in
    the market definition or in the market-change record, leaves the whole
    result unchanged whatever value it carries. *)
Theorem number_of_runners_is_recomputed :
  (forall d m, extract d = Ok m ->
     number_of_runners m = Z.of_nat (List.length (runners m))) /\
  (forall k v kvs, key_in k top_level_keys = false ->
     extract (PDict ((k, v) :: kvs)) = extract (PDict kvs)) /\
  (forall k v md kvs, key_in k definition_keys = false ->
     extract (PDict ((pys "marketDefinition", PDict ((k, v) :: md)) :: kvs))
     = extract (PDict ((pys "marketDefinition", PDict md) :: kvs))) /\
  (forall k v mb more kvs, key_in k market_book_keys = false ->
     extract (PDict ((pys "mc", PList (PDict ((k, v) :: mb) :: more)) :: kvs))
     = extract (PDict ((pys "mc", PList (PDict mb :: more)) :: kvs))).
Proof.
  split; [|split; [|split]].
  - intros d m H. now apply extract_market_data_Ok in H.
  - apply extract_ignores_top_level_key.
  - apply extract_ignores_definition_key.
  - apply extract_ignores_market_book_key.
Qed.

(** C2: a record whose [mc] key holds an empty list makes
    [extract_market_data] raise [IndexError]: the default of the lookup
    covers a missing key only, and no snapshot with [market_id = "UNKNOWN"]
    comes out. *)
Theorem empty_mc_list_raises kvs :
  dict_lookup (pys "mc") kvs = Some (PList []) ->
  extract (PDict kvs) = Raise (Exn IndexError (pys "list index out of range")).
Proof.
  intros H. subst extract. unfold extract_market_data.
  rewrite (py_get_present _ _ _ _ H). reflexivity.
Qed.

(** Where C2 holds: the market id is what [mc[0].get('id', 'UNKNOWN')]
    gives, so a missing [mc] key or a missing [id] yields ["UNKNOWN"]. *)
Lemma market_id_of_first_market_change d m :
  extract d = Ok m ->
  v_str (getd (market_book_of d) (pys "id") (PStr (pys "UNKNOWN")))
  = Some (market_id m).
Proof. intros H. now apply extract_market_data_Ok in H. Qed.

Lemma market_id_default_without_mc kvs m :
  dict_lookup (pys "mc") kvs = None ->
  extract (PDict kvs) = Ok m -> market_id m = pys "UNKNOWN".
Proof.
  intros Hmc H. apply market_id_of_first_market_change in H.
  unfold market_book_of, getd in H. rewrite (py_get_absent _ _ _ Hmc) in H.
  cbn [first_or py_getitem0 py_get dict_lookup] in H.
  rewrite v_str_str in H. congruence.
Qed.

Lemma market_id_default_without_id kvs mb more m :
  dict_lookup (pys "mc") kvs = Some (PList (PDict mb :: more)) ->
  dict_lookup (pys "id") mb = None ->
  extract (PDict kvs) = Ok m -> market_id m = pys "UNKNOWN".
Proof.
  intros Hmc Hid H. apply market_id_of_first_market_change in H.
  unfold market_book_of, getd in H. rewrite (py_get_present _ _ _ _ Hmc) in H.
  cbn [first_or py_getitem0] in H. rewrite (py_get_absent _ _ _ Hid) in H.
  rewrite v_str_str in H. congruence.
Qed.

(** *** Runner names *)

(** The scan stops at the first entry whose [selectionId] equals the
    wanted id and answers with that entry's [runnerName]. *)
Lemma scan_catalogue_Ok rcs rb dflt name :
  scan_catalogue rcs (getd rb (pys "id") PNone) dflt = Ok name ->
  match matching_entry rcs rb with
  | Some rc => name = getd rc (pys "runnerName") (PStr (pys "Unknown"))
  | None => name = dflt
  end.
Proof.
  unfold matching_entry.
  induction rcs as [|rc rcs IH]; simpl; intros H.
  - congruence.
  - bind_inv H as sid Esid. rewrite (py_get_getd _ _ _ _ Esid).
    destruct (py_eq sid (getd rb (pys "id") PNone)).
    + now rewrite (py_get_getd _ _ _ _ H).
    + now apply IH.
Qed.

Lemma extract_runner_Ok cat rb r :
  runner_of cat rb = Ok r ->
  exists name,
    scan_catalogue (items_of (getd cat (pys "runners") (PList [])))
                   (getd rb (pys "id") PNone) (PStr (pys "Unknown")) = Ok name /\
    v_str name = Some (runner_name r) /\
    v_int (getd rb (pys "id") PNone) = Some (selection_id r).
Proof.
  subst runner_of. unfold extract_runner. intros H.
  bind_inv H as sid Esid. bind_inv H as st Est.
  bind_inv H as rcv Ercv. bind_inv H as rcs Ercs.
  bind_inv H as name Ename. bind_inv_all H.
  apply new_Runner_Ok in H as [Hsid Hname].
  rewrite (py_get_getd _ _ _ _ Esid), (py_get_getd _ _ _ _ Ercv),
    (py_iter_items_of _ _ Ercs).
  eauto.
Qed.

Lemma runner_name_of_entry cat rb r :
  runner_of cat rb = Ok r ->
  match matching_entry (items_of (getd cat (pys "runners") (PList []))) rb with
  | Some rc =>
      v_str (getd rc (pys "runnerName") (PStr (pys "Unknown")))
      = Some (runner_name r)
  | None => runner_name r = pys "Unknown"
  end.
Proof.
  intros H. apply extract_runner_Ok in H as (name & Hscan & Hname & _).
  apply scan_catalogue_Ok in Hscan.
  destruct (matching_entry _ rb) as [rc|]; subst name; [assumption|].
  rewrite v_str_str in Hname. congruence.
Qed.

(** C5: in every snapshot, runner by runner and in the order of the book
    entries, the name is the [runnerName] of the first catalogue entry whose
    [selectionId] equals the book entry's [id] (["Unknown"] if that entry
    has no [runnerName]), and ["Unknown"] when no entry matches; with an
    empty catalogue every runner is named ["Unknown"]. *)
Theorem runner_names_resolved_by_catalogue_scan d m :
  extract d = Ok m ->
  Forall2 (fun rb r =>
             match matching_entry (catalogue_runners_of d) rb with
             | Some rc =>
                 v_str (getd rc (pys "runnerName") (PStr (pys "Unknown")))
                 = Some (runner_name r)
             | None => runner_name r = pys "Unknown"
             end)
          (runner_books_of d) (runners m) /\
  (catalogue_runners_of d = [] ->
   Forall (fun r => runner_name r = pys "Unknown") (runners m)).
Proof.
  intros H. apply extract_market_data_Ok in H as (_ & _ & _ & HF).
  assert (HF' : Forall2 (fun rb r =>
             match matching_entry (catalogue_runners_of d) rb with
             | Some rc =>
                 v_str (getd rc (pys "runnerName") (PStr (pys "Unknown")))
                 = Some (runner_name r)
             | None => runner_name r = pys "Unknown"
             end) (runner_books_of d) (runners m)).
  { induction HF as [|rb r rbs rs Hr _ IH]; constructor; [|exact IH].
    now apply runner_name_of_entry in Hr. }
  split; [exact HF'|].
  intros Hempty. rewrite Hempty in HF'. clear HF.
  induction HF' as [|rb r rbs rs Hr _ IH]; constructor; [|exact IH].
  exact Hr.
Qed.

(** *** Market name *)

(** C7, amended: the snapshot's [market_name] is the market definition's
    name when that name is present, truthy (not the empty string) and not
    ["Unknown Market"]; when the definition name is absent, falsy or
    ["Unknown Market"], it is the catalogue's [marketName], and the
    definition-derived value when the catalogue has none. *)
Theorem market_name_prefers_definition d m :
  extract d = Ok m ->
  let name := definition_name_of d in
  (py_truthy name = true -> py_eq name (PStr (pys "Unknown Market")) = false ->
   v_str name = Some (market_name m)) /\
  (py_truthy name = false \/ py_eq name (PStr (pys "Unknown Market")) = true ->
   v_str (getd (market_catalogue_of d) (pys "marketName") name)
   = Some (market_name m)) /\
  (forall s, name = PStr s -> s <> [] -> s <> pys "Unknown Market" ->
   market_name m = s).
Proof.
  intros H name. apply extract_market_data_Ok in H as (_ & Hname & _ & _).
  unfold chosen_market_name in Hname. fold name in Hname.
  assert (H1 : py_truthy name = true ->
               py_eq name (PStr (pys "Unknown Market")) = false ->
               v_str name = Some (market_name m)).
  { intros Ht He. now rewrite Ht, He in Hname. }
  split; [exact H1|]. split.
  - intros [Ht|He].
    + now rewrite Ht in Hname.
    + rewrite He, andb_false_r in Hname. exact Hname.
  - intros s Hs Hne Hum. rewrite Hs in H1. rewrite v_str_str in H1.
    assert (Some s = Some (market_name m)) as Heq; [|congruence].
    apply H1.
    + destruct s; [congruence|reflexivity].
    + cbn [py_eq as_num]. destruct (pystr_eqb s (pys "Unknown Market")) eqn:E;
        [|reflexivity].
      apply pystr_eqb_eq in E. congruence.
Qed.

(** *** A runner book entry without [id] *)

Lemma extract_runner_without_id cat rb :
  dict_lookup (pys "id") rb = None ->
  exists e, runner_of cat (PDict rb) = Raise e.
Proof.
  intros Hid. subst runner_of. unfold extract_runner.
  rewrite (py_get_absent _ _ _ Hid). rewrite bind_Ok_l. cbv beta.
  repeat lazymatch goal with
         | |- exists e, bind _ _ = Raise e => apply bind_raises; intro
         end.
  unfold new_Runner. rewrite v_int_None. cbn [validated bind]. eauto.
Qed.

Lemma extract_runners_raises cat rb books :
  In rb books ->
  (exists e, runner_of cat rb = Raise e) ->
  forall acc, exists e, runners_of cat books acc = Raise e.
Proof.
  subst runner_of runners_of. intros Hin [e He].
  induction books as [|rb' books IH]; [destruct Hin|].
  intros acc. simpl.
  destruct Hin as [->|Hin].
  - rewrite He. simpl. eauto.
  - destruct (extract_runner _ _ _ _ cat rb'); simpl; eauto.
Qed.

Lemma extract_raises_without_id d rb :
  In (PDict rb) (runner_books_of d) ->
  dict_lookup (pys "id") rb = None ->
  exists e, extract d = Raise e.
Proof.
  intros Hin Hid. subst extract. unfold extract_market_data.
  unfold runner_books_of, market_book_of, getd, first_or, items_of in Hin.
  repeat lazymatch goal with
         | |- exists e, bind (extract_runners _ _ _ _ _ _ _) _ = Raise e => fail
         | |- exists e, bind ?c _ = Raise e =>
             let E := fresh "E" in
             destruct c eqn:E; cbn [bind];
             [ try (rewrite E in Hin; cbv beta iota in Hin) | solve [eauto] ]
         end.
  lazymatch goal with
  | |- exists e, bind (extract_runners _ _ _ _ ?cat ?books _) _ = Raise e =>
      destruct (extract_runners_raises cat (PDict rb) books Hin
                  (extract_runner_without_id cat rb Hid) []) as [e He]
  end.
  subst runners_of. rewrite He. simpl. eauto.
Qed.


(** *** The batch loop *)

Lemma fold_parse_record records ms n :
  fold_left (parse_record v_str v_int v_float v_bool float_of_str) records (ms, n)
  = (ms ++ normalized v_str v_int v_float v_bool float_of_str records,
     n + count_runners (normalized v_str v_int v_float v_bool float_of_str records)).
Proof.
  revert ms n. induction records as [|record records IH]; intros ms n; simpl.
  - rewrite app_nil_r. f_equal. lia.
  - destruct (extract_market_data _ _ _ _ _ record) as [market|e]; rewrite IH; simpl.
    + rewrite <- app_assoc. simpl. f_equal. lia.
    + reflexivity.
Qed.

(** The batch loop keeps the snapshots of the records that normalize, in
    order, and adds up their runners. *)
Lemma extract_markets_normalized records :
  extract_markets v_str v_int v_float v_bool float_of_str records
  = (normalized v_str v_int v_float v_bool float_of_str records,
     count_runners (normalized v_str v_int v_float v_bool float_of_str records)).
Proof. unfold extract_markets. now rewrite fold_parse_record. Qed.

Lemma normalized_app l1 l2 :
  normalized v_str v_int v_float v_bool float_of_str (l1 ++ l2)
  = normalized v_str v_int v_float v_bool float_of_str l1
    ++ normalized v_str v_int v_float v_bool float_of_str l2.
Proof. unfold normalized. apply flat_map_app. Qed.

(** C10: a runner book entry without [id] makes the normalization of its
    whole record raise, and the batch loop then leaves the record out: the
    snapshots and the runner total are those of the batch without it. *)
Theorem runner_without_id_drops_record d rb :
  In (PDict rb) (runner_books_of d) ->
  dict_lookup (pys "id") rb = None ->
  (exists e, extract d = Raise e) /\
  (forall pre post,
     extract_markets v_str v_int v_float v_bool float_of_str (pre ++ d :: post)
     = extract_markets v_str v_int v_float v_bool float_of_str (pre ++ post)).
Proof.
  intros Hin Hid.
  destruct (extract_raises_without_id d rb Hin Hid) as [e He].
  split; [eauto|]. intros pre post.
  rewrite !extract_markets_normalized, !normalized_app.
  subst extract. simpl. rewrite He. reflexivity.
Qed.

(** *** Ladders *)

(** A [float] passes a [float] field unchanged. *)
Hypothesis v_float_float : forall f, v_float (PFloat f) = Some f.

Lemma format_price_stakes_list items :
  _format_price_stakes float_of_str (PList items)
  = bind (mapM (format_item float_of_str) items) (fun out => Ok (PList out)).
Proof. destruct items; reflexivity. Qed.

Lemma mapM_format_item_Ok items rows :
  mapM (format_item float_of_str) items = Ok rows ->
  Forall2 (formatted_as float_of_str) items rows.
Proof.
  revert rows. induction items as [|item items IH]; simpl; intros rows H.
  - injection H as <-. constructor.
  - bind_inv H as row Erow. bind_inv H as rows' Erows. injection H as <-.
    constructor; [|now apply IH].
    unfold formatted_as.
    destruct item; cbn [format_item] in Erow;
      lazymatch type of Erow with
      | bind _ _ = Ok _ =>
          bind_inv Erow as fl Efl; injection Erow as <-;
          exists fl; split; [exact Efl | reflexivity]
      | _ => injection Erow as <-; reflexivity
      end.
Qed.

Lemma format_item_total item :
  formattable float_of_str item ->
  exists row, format_item float_of_str item = Ok row.
Proof.
  intros [[l ->]|[f Hf]]; [eexists; reflexivity|].
  destruct item; cbn [format_item]; try rewrite Hf; cbn [bind]; eauto.
Qed.

Lemma mapM_format_item_total items :
  Forall (formattable float_of_str) items ->
  exists rows, mapM (format_item float_of_str) items = Ok rows.
Proof.
  induction 1 as [|item items Hitem _ [rows IH]]; cbn [mapM]; [eauto|].
  apply format_item_total in Hitem as [row Hrow].
  rewrite Hrow, IH. cbn [bind]. eauto.
Qed.

Lemma float_rows_formatted items rows :
  v_list float_row items = Some rows ->
  exists out,
    mapM (format_item float_of_str) items = Ok out /\
    v_ladder v_float (PList out) = Some rows.
Proof.
  revert rows. induction items as [|item items IH]; simpl; intros rows H.
  - injection H as <-. eauto.
  - destruct (float_row item) as [row|] eqn:Erow; [|discriminate].
    destruct (v_list float_row items) as [rows'|]; [|discriminate].
    injection H as <-.
    destruct (IH rows' eq_refl) as (out & Hout & Hval). rewrite Hout.
    simpl in Hval.
    destruct item as [| | |f| |l|]; try discriminate.
    + injection Erow as <-. simpl. eexists; split; [reflexivity|].
      simpl. rewrite !v_float_float, Hval. reflexivity.
    + destruct l as [|[| | |p| | |] [|[| | |s| | |] [|? ?]]]; try discriminate.
      injection Erow as <-. simpl. eexists; split; [reflexivity|].
      simpl. rewrite !v_float_float, Hval. reflexivity.
Qed.

Lemma new_RunnerBSP_Ok n f l bst lst b :
  new_RunnerBSP v_float n f l bst lst = Ok b ->
  v_ladder v_float bst = Some (back_stake_taken b) /\
  v_ladder v_float lst = Some (lay_liability_taken b).
Proof.
  unfold new_RunnerBSP. intros H. bind_inv_all H.
  injection H as <-. simpl. validated_inv. auto.
Qed.

Lemma new_RunnerEX_Ok atb atl tv e :
  new_RunnerEX v_float atb atl tv = Ok e ->
  v_ladder v_float atb = Some (available_to_back e) /\
  v_ladder v_float atl = Some (available_to_lay e) /\
  v_ladder v_float tv = Some (traded_volume e).
Proof.
  unfold new_RunnerEX. intros H. bind_inv_all H.
  injection H as <-. simpl. validated_inv. auto.
Qed.

Lemma new_Runner_keeps_books sid name st b e ltp adj r :
  new_Runner v_str v_int v_float sid name st b e ltp adj = Ok r ->
  bsp r = b /\ ex r = e.
Proof.
  unfold new_Runner. intros H. bind_inv_all H.
  injection H as <-. simpl. auto.
Qed.

Lemma ladder_of_formatted raw formatted rows :
  _format_price_stakes float_of_str raw = Ok formatted ->
  v_ladder v_float formatted = Some rows ->
  ladder_of v_float float_of_str raw = Ok rows.
Proof. unfold ladder_of. intros -> H. simpl. now rewrite H. Qed.

(** Each ladder of a runner is [ladder_of] the raw field it comes from. *)
Lemma extract_runner_ladders cat rb r :
  runner_of cat rb = Ok r ->
  Forall (fun '(sub, k, proj) =>
            ladder_of v_float float_of_str (ladder_field rb sub k) = Ok (proj r))
         ladder_fields.
Proof.
  subst runner_of. unfold extract_runner. intros H.
  bind_inv H as sid Esid. bind_inv H as st Est.
  bind_inv H as rcv Ercv. bind_inv H as rcs Ercs.
  bind_inv H as name Ename. bind_inv H as bsp_data Ebsp_data.
  bind_inv H as n En. bind_inv H as f Ef. bind_inv H as l El.
  bind_inv H as bst_raw Ebst_raw. bind_inv H as bst Ebst.
  bind_inv H as lst_raw Elst_raw. bind_inv H as lst Elst.
  bind_inv H as b Eb. bind_inv H as ex_data Eex_data.
  bind_inv H as atb_raw Eatb_raw. bind_inv H as atb Eatb.
  bind_inv H as atl_raw Eatl_raw. bind_inv H as atl Eatl.
  bind_inv H as tv_raw Etv_raw. bind_inv H as tv Etv.
  bind_inv H as e Ee. bind_inv H as ltp Eltp. bind_inv H as adj Eadj.
  apply new_Runner_keeps_books in H as [Hb He].
  apply new_RunnerBSP_Ok in Eb as (Hbst & Hlst).
  apply new_RunnerEX_Ok in Ee as (Hatb & Hatl & Htv).
  unfold ladder_fields.
  repeat constructor; cbv beta iota; unfold ladder_field;
    repeat match goal with
           | E : py_get _ _ _ = Ok _ |- _ => rewrite (py_get_getd _ _ _ _ E)
           end;
    rewrite ?Hb, ?He; eapply ladder_of_formatted; eassumption.
Qed.

Lemma ladder_field_absent rb sub k kvs :
  getd rb sub (PDict []) = PDict kvs ->
  dict_lookup k kvs = None ->
  ladder_field rb sub k = PList [].
Proof.
  intros Hsub Hk. unfold ladder_field. rewrite Hsub.
  unfold getd. now rewrite (py_get_absent _ _ _ Hk).
Qed.

(** C6: an absent ladder field is formatted to the empty list; in a list,
    an element that is itself a list (a two-element pair in particular) is
    passed through as it is and a scalar [x] becomes [[float(x), 0.0]], and
    a list of lists and float-convertible scalars is always formatted;
    pairs of floats and float scalars come out in the typed ladder as
    [[price, stake]] and [[value, 0.0]]; and each of the five ladders of a
    runner is obtained this way from [sp.bst], [sp.lst], [ex.atb],
    [ex.atl], [ex.tv], so that it is the empty list, never null, when the
    field is absent. *)
Theorem ladder_fields_are_formatted :
  (forall kvs k, dict_lookup k kvs = None ->
     bind (py_get (PDict kvs) k (PList [])) (_format_price_stakes float_of_str)
     = Ok (PList [])) /\
  (forall items out,
     _format_price_stakes float_of_str (PList items) = Ok out ->
     exists rows, out = PList rows /\
                  Forall2 (formatted_as float_of_str) items rows) /\
  (forall items, Forall (formattable float_of_str) items ->
     exists rows, _format_price_stakes float_of_str (PList items) = Ok (PList rows)) /\
  (forall items rows, v_list float_row items = Some rows ->
     ladder_of v_float float_of_str (PList items) = Ok rows) /\
  (forall cat rb r, runner_of cat rb = Ok r ->
     forall sub k proj, In (sub, k, proj) ladder_fields ->
       ladder_of v_float float_of_str (ladder_field rb sub k) = Ok (proj r) /\
       (forall kvs, getd rb sub (PDict []) = PDict kvs ->
                    dict_lookup k kvs = None -> proj r = [])).
Proof.
  split; [|split; [|split; [|split]]].
  - intros kvs k H. now rewrite (py_get_absent _ _ _ H).
  - intros items out H. rewrite format_price_stakes_list in H.
    bind_inv H as rows Hrows. injection H as <-.
    exists rows. split; [reflexivity|]. now apply mapM_format_item_Ok.
  - intros items H. apply mapM_format_item_total in H as [rows H].
    exists rows. rewrite format_price_stakes_list, H. reflexivity.
  - intros items rows H. apply float_rows_formatted in H as (out & Hout & Hval).
    eapply ladder_of_formatted; [|exact Hval].
    rewrite format_price_stakes_list, Hout. reflexivity.
  - intros cat rb r H sub k proj Hin.
    apply extract_runner_ladders in H. rewrite Forall_forall in H.
    specialize (H _ Hin). simpl in H. split; [exact H|].
    intros kvs Hsub Hk. rewrite (ladder_field_absent _ _ _ _ Hsub Hk) in H.
    unfold ladder_of in H. simpl in H. congruence.
Qed.

End NormalizerFacts.

(** ** The decoder: lines *)

Lemma lstrip_nil_iff (s : pystr) : lstrip s = [] <-> forallb isspace s = true.
Proof.
  induction s as [|c s IH]; simpl; [tauto|].
  destruct (isspace c); simpl; [exact IH|].
  split; discriminate.
Qed.

Lemma lstrip_all_space (s : pystr) :
  forallb isspace (lstrip s) = forallb isspace s.
Proof.
  induction s as [|c s IH]; simpl; [reflexivity|].
  destruct (isspace c) eqn:E; simpl; [exact IH|].
  now rewrite E.
Qed.

Lemma forallb_rev {A : Type} (p : A -> bool) (l : list A) :
  forallb p (rev l) = forallb p l.
Proof.
  induction l as [|x l IH]; simpl; [reflexivity|].
  rewrite forallb_app, IH. simpl. rewrite andb_true_r. apply andb_comm.
Qed.

(** A line is blank exactly when it holds white space only. *)
Lemma is_nonblank_spec (line : pystr) :
  is_nonblank line = negb (forallb isspace line).
Proof.
  unfold is_nonblank, strip, rstrip. simpl.
  rewrite <- (lstrip_all_space line), <- (forallb_rev isspace (lstrip line)).
  destruct (lstrip (rev (lstrip line))) as [|c t] eqn:E.
  - apply lstrip_nil_iff in E. now rewrite E.
  - simpl.
    destruct (rev t ++ [c]) eqn:R; [now destruct (rev t)|].
    destruct (forallb isspace (rev (lstrip line))) eqn:F; [|reflexivity].
    apply lstrip_nil_iff in F. congruence.
Qed.










(** ** The decoder and the batch driver *)

Section DecoderFacts.

Variable v_str : pyval -> option pystr.
Variable v_int : pyval -> option Z.
Variable v_float : pyval -> option float.
Variable v_bool : pyval -> option bool.
Variable float_of_str : pystr -> option float.
Variable json_loads : pystr -> result pyval.
Variable bz2_decompress : list Byte.byte -> result (list Byte.byte).
Variable utf8_decode : list Byte.byte -> result pystr.
Variable utf8_encode : pystr -> list Byte.byte.

Hypothesis v_str_str : forall s, v_str (PStr s) = Some s.
Hypothesis v_int_int : forall z, v_int (PInt z) = Some z.










Lemma new_FileMetadata_Ok fid fname size utime pstatus pat :
  new_FileMetadata v_str v_int (PStr fid) (PStr fname) (PInt size) (PStr utime)
    (PStr pstatus) (PStr pat)
  = Ok {| file_id := fid; file_name := fname; size_bytes := size;
          upload_time := utime; processing_status := pstatus;
          error_message := None; processed_at := Some pat |}.
Proof.
  unfold new_FileMetadata, v_optional.
  rewrite !v_str_str, v_int_int. reflexivity.
Qed.

Lemma new_ProcessingStats_Ok nrec nrun ms csize dsize :
  new_ProcessingStats v_int (PInt nrec) (PInt nrun) (PInt ms) (PInt csize)
    (PInt dsize)
  = Ok {| total_records := nrec; total_runners := nrun;
          processing_time_ms := ms; compressed_size_bytes := csize;
          decompressed_size_bytes := dsize |}.
Proof. unfold new_ProcessingStats. rewrite !v_int_int. reflexivity. Qed.


End DecoderFacts.

(** ** The export endpoint *)

Section ExporterFacts.

Variable str_of_int : Z -> pystr.
Variable str_of_float : float -> pystr.
Variable model_dict : FileParseResponse -> pyval.
Variable json_dumps : pyval -> option Z -> result pystr.
Variable parse_obj : pyval -> result FileParseResponse.
Variable file_store_get : pystr -> option pyval.
Variable str_lower : pystr -> pystr.

Let export :=
  export_file str_of_int str_of_float model_dict json_dumps parse_obj
    file_store_get str_lower.

(** X14: an export that fails reaches the caller as status 404 "File not
    found" or as status 500 "Export failed", and as nothing else: whatever
    is raised inside the [try] block leaves as status 500. *)
Lemma export_file_raises_404_or_500 file_id request e :
  export file_id request = Raise e ->
  e = Exn (HTTPException 404) (pys "File not found") \/
  e = Exn (HTTPException 500) (pys "Export failed").
Proof.
  subst export. unfold export_file.
  destruct (file_store_get file_id) as [file_data|]; [|intros [= <-]; auto].
  destruct (py_truthy file_data); simpl; [|intros [= <-]; auto].
  unfold try_except.
  match goal with |- match ?c with _ => _ end = _ -> _ => destruct c end;
    [discriminate|intros [= <-]; auto].
Qed.

(** C9: for a stored file and a format whose lower-cased value is neither
    ["csv"] nor ["json"], [export_file] raises the status-400 exception
    "Unsupported export format" inside its own [try] block, whose
    [except Exception] turns it into status 500 "Export failed"; the
    unsupported-format error never reaches the caller. *)
Theorem unsupported_format_is_export_failed file_id request file_data :
  file_store_get file_id = Some file_data ->
  py_truthy file_data = true ->
  pystr_eqb (str_lower (format request)) (pys "csv") = false ->
  pystr_eqb (str_lower (format request)) (pys "json") = false ->
  export file_id request = Raise (Exn (HTTPException 500) (pys "Export failed")) /\
  export file_id request
  <> Raise (Exn (HTTPException 400) (pys "Unsupported export format")).
Proof.
  intros Hget Htruthy Hcsv Hjson.
  assert (H : export file_id request
              = Raise (Exn (HTTPException 500) (pys "Export failed"))).
  { subst export. unfold export_file. rewrite Hget, Htruthy, Hcsv, Hjson.
    simpl. destruct (parse_obj file_data); reflexivity. }
  split; [exact H|]. rewrite H. discriminate.
Qed.

(** The supported formats: any spelling that lower-cases to ["csv"] or
    ["json"] reaches its renderer. *)
Lemma export_file_csv file_id request file_data parse_result text :
  file_store_get file_id = Some file_data ->
  py_truthy file_data = true ->
  parse_obj file_data = Ok parse_result ->
  str_lower (format request) = pys "csv" ->
  to_csv str_of_int str_of_float (markets parse_result) (include_prices request)
  = Ok text ->
  export file_id request
  = Ok {| content := text; media_type := pys "text/csv";
          content_disposition :=
            pys "attachment; filename=" ++ file_id ++ pys ".csv" |}.
Proof.
  intros Hget Htruthy Hobj Hfmt Hcsv.
  subst export. unfold export_file.
  rewrite Hget, Htruthy, Hobj, Hfmt. cbn [negb bind try_except].
  rewrite pystr_eqb_refl, Hcsv. reflexivity.
Qed.

Lemma export_file_json file_id request file_data parse_result text :
  file_store_get file_id = Some file_data ->
  py_truthy file_data = true ->
  parse_obj file_data = Ok parse_result ->
  str_lower (format request) = pys "json" ->
  json_dumps (model_dict parse_result) (Some 2) = Ok text ->
  export file_id request
  = Ok {| content := text; media_type := pys "application/json";
          content_disposition :=
            pys "attachment; filename=" ++ file_id ++ pys ".json" |}.
Proof.
  intros Hget Htruthy Hobj Hfmt Hjson.
  subst export. unfold export_file.
  rewrite Hget, Htruthy, Hobj, Hfmt. cbn [negb bind try_except].
  replace (pystr_eqb (pys "json") (pys "csv")) with false by reflexivity.
  rewrite pystr_eqb_refl. unfold to_json. rewrite Hjson. reflexivity.
Qed.

End ExporterFacts.

(** ** The theorems at work on concrete records *)

Lemma number_of_runners_is_recomputed_witness :
  (exists m, sample_extract named_record = Ok m /\
             number_of_runners m = Z.of_nat (List.length (runners m))) /\
  sample_extract named_record
  = sample_extract (PDict ((pys "marketDefinition", PDict named_definition)
                           :: named_rest)).
Proof.
  destruct (number_of_runners_is_recomputed strict_str strict_int strict_float
              strict_bool digits_float (fun z => eq_refl))
    as (Hlen & _ & Hdef & _).
  split.
  - destruct (sample_extract named_record) as [m|e] eqn:E;
      [|vm_compute in E; discriminate E].
    exists m. split; [reflexivity|]. apply (Hlen named_record m E).
  - apply (Hdef (pys "numberOfRunners") (PInt 99) named_definition named_rest).
    vm_compute. reflexivity.
Defined.

Lemma empty_mc_list_raises_witness :
  sample_extract empty_mc_record
  = Raise (Exn IndexError (pys "list index out of range")).
Proof.
  apply (empty_mc_list_raises strict_str strict_int strict_float strict_bool
           digits_float [(pys "mc", PList [])]).
  reflexivity.
Defined.

Lemma runner_names_resolved_witness :
  exists m, sample_extract named_record = Ok m /\
            map runner_name (runners m) = [pys "Dobbin"].
Proof.
  destruct (sample_extract named_record) as [m|e] eqn:E;
    [|vm_compute in E; discriminate E].
  exists m. split; [reflexivity|].
  destruct (runner_names_resolved_by_catalogue_scan strict_str strict_int
              strict_float strict_bool digits_float (fun s => eq_refl)
              (fun z => eq_refl) named_record m E) as [HF _].
  remember (runners m) as rs eqn:Hrs. clear Hrs E.
  remember (runner_books_of named_record) as books eqn:Hbooks.
  vm_compute in Hbooks. subst books.
  inversion HF as [|rb r rbs rs' Hr Hrest]; subst.
  inversion Hrest; subst.
  cbn in Hr. injection Hr as Hr. simpl. rewrite <- Hr. reflexivity.
Defined.

Lemma market_name_prefers_definition_witness :
  exists m, sample_extract named_record = Ok m /\
            market_name m = pys "2m Hcap".
Proof.
  destruct (sample_extract named_record) as [m|e] eqn:E;
    [|vm_compute in E; discriminate E].
  exists m. split; [reflexivity|].
  destruct (market_name_prefers_definition strict_str strict_int strict_float
              strict_bool digits_float (fun s => eq_refl) (fun z => eq_refl)
              named_record m E) as (_ & _ & Hstr).
  apply (Hstr (pys "2m Hcap")).
  - reflexivity.
  - discriminate.
  - vm_compute. discriminate.
Defined.

Lemma runner_without_id_drops_record_witness :
  (exists e, sample_extract missing_id_record = Raise e) /\
  (forall pre post,
     extract_markets strict_str strict_int strict_float strict_bool digits_float
       (pre ++ missing_id_record :: post)
     = extract_markets strict_str strict_int strict_float strict_bool
         digits_float (pre ++ post)).
Proof.
  apply (runner_without_id_drops_record strict_str strict_int strict_float
           strict_bool digits_float eq_refl missing_id_record
           [(pys "status", PStr (pys "ACTIVE"))]).
  - vm_compute. right. left. reflexivity.
  - reflexivity.
Defined.

Lemma ladder_fields_are_formatted_witness :
  ladder_of strict_float digits_float
    (PList [PList [PFloat 1.5%float; PFloat 20%float]; PFloat 3%float])
  = Ok [[1.5%float; 20%float]; [3%float; 0%float]] /\
  bind (py_get (PDict [(pys "atl", PList [])]) (pys "atb") (PList []))
       (_format_price_stakes digits_float)
  = Ok (PList []).
Proof.
  destruct (ladder_fields_are_formatted strict_str strict_int strict_float
              digits_float (fun f => eq_refl))
    as (Habsent & _ & _ & Htyped & _).
  split.
  - apply Htyped. reflexivity.
  - apply Habsent. reflexivity.
Defined.



Lemma unsupported_format_witness :
  sample_export {| format := pys "XML"; include_prices := true;
                   runner_filter := None |}
  = Raise (Exn (HTTPException 500) (pys "Export failed")) /\
  sample_export {| format := pys "XML"; include_prices := true;
                   runner_filter := None |}
  <> Raise (Exn (HTTPException 400) (pys "Unsupported export format")).
Proof.
  apply (unsupported_format_is_export_failed (fun _ => pys "0")
           (fun _ => pys "0.0") (fun _ => PDict []) (fun _ _ => Ok (pys "{}"))
           (fun _ => Ok sample_response) sample_store ascii_lower (pys "f1")
           {| format := pys "XML"; include_prices := true; runner_filter := None |}
           (PDict [(pys "markets", PList [])])); reflexivity.
Defined.

(** ** Where the spec's wording and the code part *)

(** C7 as stated fails: a definition name that is present and is not
    ["Unknown Market"], namely the empty string, is replaced by the
    catalogue's [marketName]. *)
Lemma blank_definition_name_is_replaced :
  definition_name_of blank_name_record = PStr [] /\
  PStr [] <> PStr (pys "Unknown Market") /\
  exists m, sample_extract blank_name_record = Ok m /\
            market_name m = pys "Foo" /\ market_name m <> [].
Proof.
  split; [reflexivity|]. split; [discriminate|].
  destruct (sample_extract blank_name_record) as [m|e] eqn:E;
    [|vm_compute in E; discriminate E].
  exists m. split; [reflexivity|].
  vm_compute in E. injection E as <-. split; [reflexivity|discriminate].
Qed.

(** C3 as stated fails: of two non-blank lines the first parses, and the
    decoder returns no record at all, because [json.loads] raises a plain
    [ValueError] on the second, an integer literal of 5000 digits, which the
    [except json.JSONDecodeError] clause lets through. *)
Lemma overlong_line_aborts_the_decoder :
  nonblank_lines overlong_content = [scenario_line; overlong_line] /\
  sample_loads scenario_line = Ok scenario_record /\
  exists e,
    sample_loads overlong_line = Raise e /\
    is_JSONDecodeError e = false /\
    parse_json_stream sample_loads overlong_content = Raise e.
Proof.
  split; [vm_compute; reflexivity|]. split; [vm_compute; reflexivity|].
  eexists. split; [vm_compute; reflexivity|].
  split; vm_compute; reflexivity.
Qed.

(** C4 as stated fails: the file decompresses, its first line decodes to a
    record that normalizes, and [parse_file] still raises, with neither of
    the two errors the claim names. *)
Lemma overlong_line_fails_the_file :
  decompress_bz2 sample_bz2 sample_decode overlong_file = Ok overlong_content /\
  nonblank_lines overlong_content = [scenario_line; overlong_line] /\
  sample_loads scenario_line = Ok scenario_record /\
  sample_extract scenario_record = Ok scenario_market /\
  sample_parse sample_bz2 sample_env overlong_file (pys "a.bz2")
  = Raise (Exn ValueError
             (pys "JSON parsing failed: Exceeds the limit (4300 digits) for integer string conversion")).
Proof. repeat split; vm_compute; reflexivity. Qed.

(** The decoder on three lines: one record, one rejected line, one blank. *)
Example sample_content_decodes :
  parse_json_stream sample_loads sample_content = Ok [scenario_record] /\
  List.length (nonblank_lines sample_content) = 2%nat.
Proof. vm_compute. split; reflexivity. Qed.

(** Any spelling of ["csv"] reaches the CSV renderer. *)
Example mixed_case_csv_is_exported :
  exists response,
    sample_export {| format := pys "CsV"; include_prices := false;
                     runner_filter := None |} = Ok response /\
    media_type response = pys "text/csv".
Proof. eexists. split; vm_compute; reflexivity. Qed.
(* ================================================================== *)
(** * Further properties of the normalizer *)

Section NormalizerDefaults.

Variable v_str : pyval -> option pystr.
Variable v_int : pyval -> option Z.
Variable v_float : pyval -> option float.
Variable v_bool : pyval -> option bool.
Variable float_of_str : pystr -> option float.

Hypothesis v_str_str : forall s, v_str (PStr s) = Some s.
Hypothesis v_int_int : forall z, v_int (PInt z) = Some z.
Hypothesis v_float_float : forall f, v_float (PFloat f) = Some f.
Hypothesis v_bool_bool : forall b, v_bool (PBool b) = Some b.

Lemma getd_lacks obj key default : lacks obj key -> getd obj key default = default.
Proof.
  unfold lacks, getd. destruct obj; try reflexivity.
  intros H. now rewrite (py_get_absent _ _ _ H).
Qed.

Lemma new_Market_fields mid name mtype eid ename edate ccode mstatus inpl
    tm ta nrunners nwinners ptime ver rs m :
  new_Market v_str v_int v_float v_bool mid name mtype eid ename edate ccode
    mstatus inpl tm ta nrunners nwinners ptime ver rs = Ok m ->
  v_str mtype = Some (market_type m) /\
  v_optional v_str eid = Some (event_id m) /\
  v_optional v_str ename = Some (event_name m) /\
  v_optional v_str edate = Some (event_date m) /\
  v_optional v_str ccode = Some (country_code m) /\
  v_str mstatus = Some (market_status m) /\
  v_bool inpl = Some (inplay m) /\
  v_float tm = Some (total_matched m) /\
  v_float ta = Some (total_available m) /\
  v_int nwinners = Some (number_of_winners m) /\
  v_optional v_str ptime = Some (publish_time m) /\
  v_optional v_int ver = Some (version m).
Proof.
  unfold new_Market. intros H. bind_inv_all H.
  injection H as <-. simpl. validated_inv. repeat split; assumption.
Qed.

(** Field by field, a snapshot holds the validated value found at the
    field's key, or the validated default of that key. *)
Lemma extract_market_data_fields d m :
  extract_market_data v_str v_int v_float v_bool float_of_str d = Ok m ->
  let md := market_definition_of d in
  let ev := event_of d in
  let book := market_book_of d in
  v_str (getd md (pys "marketType") (PStr (pys "UNKNOWN"))) = Some (market_type m) /\
  v_optional v_str (getd ev (pys "id") (PStr [])) = Some (event_id m) /\
  v_optional v_str (getd ev (pys "name") (PStr [])) = Some (event_name m) /\
  v_optional v_str (getd ev (pys "openDate") (PStr [])) = Some (event_date m) /\
  v_optional v_str (getd ev (pys "countryCode") (PStr [])) = Some (country_code m) /\
  v_str (getd md (pys "status") (PStr (pys "UNKNOWN"))) = Some (market_status m) /\
  v_bool (getd md (pys "inPlay") (PBool false)) = Some (inplay m) /\
  v_float (getd book (pys "tv") (PFloat 0%float)) = Some (total_matched m) /\
  v_float (getd book (pys "totalAvailable") (PFloat 0%float))
    = Some (total_available m) /\
  v_int (getd md (pys "numberOfWinners") (PInt 1)) = Some (number_of_winners m) /\
  v_optional v_str (getd d (pys "publishTime") PNone) = Some (publish_time m) /\
  v_optional v_int (getd d (pys "version") PNone) = Some (version m).
Proof.
  unfold extract_market_data. intros H.
  bind_inv H as mc Emc. bind_inv H as mc0 Emc0. bind_inv H as mid Emid.
  bind_inv H as mdef Emdef. bind_inv H as name0 Ename0.
  bind_inv H as mtype Emtype. bind_inv H as ev Eev.
  bind_inv H as eid Eeid. bind_inv H as ename Eename.
  bind_inv H as edate Eedate. bind_inv H as ccode Eccode.
  bind_inv H as cat Ecat. bind_inv H as name Ename.
  bind_inv H as mc' Emc'. bind_inv H as book Ebook.
  bind_inv H as mstatus Emstatus. bind_inv H as inpl Einpl.
  bind_inv H as tm Etm. bind_inv H as ta Eta.
  bind_inv H as rbv Erbv. bind_inv H as books Ebooks.
  bind_inv H as rs Ers. bind_inv H as nw Enw.
  bind_inv H as pt Ept. bind_inv H as ver Ever.
  apply new_Market_fields in H.
  rewrite Emc in Emc'. injection Emc' as <-.
  rewrite Emc0 in Ebook. injection Ebook as <-.
  unfold event_of, market_definition_of, market_book_of. cbv zeta.
  rewrite (py_get_getd _ _ _ _ Emc), (py_getitem0_first_or _ _ _ Emc0),
    (py_get_getd _ _ _ _ Emdef), (py_get_getd _ _ _ _ Eev),
    (py_get_getd _ _ _ _ Emtype), (py_get_getd _ _ _ _ Eeid),
    (py_get_getd _ _ _ _ Eename), (py_get_getd _ _ _ _ Eedate),
    (py_get_getd _ _ _ _ Eccode), (py_get_getd _ _ _ _ Emstatus),
    (py_get_getd _ _ _ _ Einpl), (py_get_getd _ _ _ _ Etm),
    (py_get_getd _ _ _ _ Eta), (py_get_getd _ _ _ _ Enw),
    (py_get_getd _ _ _ _ Ept), (py_get_getd _ _ _ _ Ever).
  exact H.
Qed.

(** X1: in a snapshot, a descriptive or numeric field whose key is missing
    from the record takes the default of the code: ["UNKNOWN"] for the
    market type and status, the empty string (not null) for the four event
    fields, [False] for [inplay], 0.0 for the two totals, 1 for the number
    of winners, and null for the publish time and the version. *)
Theorem missing_market_fields_take_defaults d m :
  extract_market_data v_str v_int v_float v_bool float_of_str d = Ok m ->
  let md := market_definition_of d in
  let ev := event_of d in
  let book := market_book_of d in
  (lacks md (pys "marketType") -> market_type m = pys "UNKNOWN") /\
  (lacks ev (pys "id") -> event_id m = Some []) /\
  (lacks ev (pys "name") -> event_name m = Some []) /\
  (lacks ev (pys "openDate") -> event_date m = Some []) /\
  (lacks ev (pys "countryCode") -> country_code m = Some []) /\
  (lacks md (pys "status") -> market_status m = pys "UNKNOWN") /\
  (lacks md (pys "inPlay") -> inplay m = false) /\
  (lacks book (pys "tv") -> total_matched m = 0%float) /\
  (lacks book (pys "totalAvailable") -> total_available m = 0%float) /\
  (lacks md (pys "numberOfWinners") -> number_of_winners m = 1) /\
  (lacks d (pys "publishTime") -> publish_time m = None) /\
  (lacks d (pys "version") -> version m = None).
Proof.
  intros H. apply extract_market_data_fields in H. cbv zeta in H |- *.
  destruct H as (H1 & H2 & H3 & H4 & H5 & H6 & H7 & H8 & H9 & H10 & H11 & H12).
  repeat lazymatch goal with
         | |- _ /\ _ => split
         end;
    intros L;
    lazymatch goal with
    | |- ?field m = _ =>
        lazymatch goal with
        | Hf : _ = Some (field m) |- _ =>
            rewrite (getd_lacks _ _ _ L) in Hf; unfold v_optional in Hf;
            cbv beta iota in Hf;
            rewrite ?v_str_str, ?v_int_int, ?v_float_float, ?v_bool_bool in Hf;
            cbn [option_map] in Hf;
            injection Hf as Hf; rewrite <- Hf; reflexivity
        end
    end.
Qed.

(** X2: a record that is a JSON object with none of the keys [mc],
    [marketDefinition], [marketCatalogue], [publishTime], [version], a
    heartbeat line for instance, normalizes all the same, to the snapshot
    made of the defaults alone: market id ["UNKNOWN"] and no runners. *)
Theorem record_without_market_data_gets_default_snapshot kvs :
  Forall (fun key => dict_lookup key kvs = None) top_level_keys ->
  extract_market_data v_str v_int v_float v_bool float_of_str (PDict kvs)
  = Ok default_market.
Proof.
  intros H. unfold top_level_keys in H.
  inversion H as [|? ? Hmc H1]; subst. inversion H1 as [|? ? Hmd H2]; subst.
  inversion H2 as [|? ? Hcat H3]; subst. inversion H3 as [|? ? Hpt H4]; subst.
  inversion H4 as [|? ? Hver _]; subst.
  unfold extract_market_data.
  rewrite !(py_get_absent _ _ _ Hmc), !(py_get_absent _ _ _ Hmd),
    !(py_get_absent _ _ _ Hcat), !(py_get_absent _ _ _ Hpt),
    !(py_get_absent _ _ _ Hver).
  vm_compute.
  rewrite !v_str_str, !v_int_int, !v_float_float, !v_bool_bool. reflexivity.
Qed.

(** X3: a record that is not a JSON object (a number, a string, a list,
    null) makes the normalization raise [AttributeError], and the batch loop
    leaves it out. *)
Theorem non_object_record_is_skipped d :
  (forall kvs, d <> PDict kvs) ->
  (exists msg,
     extract_market_data v_str v_int v_float v_bool float_of_str d
     = Raise (Exn AttributeError msg)) /\
  (forall pre post,
     extract_markets v_str v_int v_float v_bool float_of_str (pre ++ d :: post)
     = extract_markets v_str v_int v_float v_bool float_of_str (pre ++ post)).
Proof.
  intros Hd.
  assert (He : exists msg,
             extract_market_data v_str v_int v_float v_bool float_of_str d
             = Raise (Exn AttributeError msg)).
  { destruct d; try (eexists; reflexivity). now destruct (Hd kvs). }
  split; [exact He|]. destruct He as [msg He]. intros pre post.
  rewrite !extract_markets_normalized, !normalized_app.
  simpl. rewrite He. reflexivity.
Qed.

Lemma new_Runner_fields sid name st b e ltp adj r :
  new_Runner v_str v_int v_float sid name st b e ltp adj = Ok r ->
  v_str st = Some (status r) /\
  v_optional v_float ltp = Some (last_price_traded r) /\
  v_optional v_float adj = Some (adjustment_factor r) /\
  bsp r = b.
Proof.
  unfold new_Runner. intros H. bind_inv_all H.
  injection H as <-. simpl. validated_inv. auto.
Qed.

Lemma new_RunnerBSP_prices n f l bst lst b :
  new_RunnerBSP v_float n f l bst lst = Ok b ->
  v_optional v_float n = Some (near_price b) /\
  v_optional v_float f = Some (far_price b) /\
  v_optional v_float l = Some (actual_sp b).
Proof.
  unfold new_RunnerBSP. intros H. bind_inv_all H.
  injection H as <-. simpl. validated_inv. auto.
Qed.

Lemma extract_runner_fields cat rb r :
  extract_runner v_str v_int v_float float_of_str cat rb = Ok r ->
  let sp := getd rb (pys "sp") (PDict []) in
  v_str (getd rb (pys "status") (PStr (pys "ACTIVE"))) = Some (status r) /\
  v_optional v_float (getd rb (pys "ltp") PNone) = Some (last_price_traded r) /\
  v_optional v_float (getd rb (pys "adjustmentFactor") (PFloat 1%float))
    = Some (adjustment_factor r) /\
  v_optional v_float (getd sp (pys "n") PNone) = Some (near_price (bsp r)) /\
  v_optional v_float (getd sp (pys "f") PNone) = Some (far_price (bsp r)) /\
  v_optional v_float (getd sp (pys "l") PNone) = Some (actual_sp (bsp r)).
Proof.
  unfold extract_runner. intros H.
  bind_inv H as sid Esid. bind_inv H as st Est.
  bind_inv H as rcv Ercv. bind_inv H as rcs Ercs.
  bind_inv H as name Ename. bind_inv H as bsp_data Ebsp_data.
  bind_inv H as n En. bind_inv H as f Ef. bind_inv H as l El.
  bind_inv H as bst_raw Ebst_raw. bind_inv H as bst Ebst.
  bind_inv H as lst_raw Elst_raw. bind_inv H as lst Elst.
  bind_inv H as b Eb. bind_inv H as ex_data Eex_data.
  bind_inv H as atb_raw Eatb_raw. bind_inv H as atb Eatb.
  bind_inv H as atl_raw Eatl_raw. bind_inv H as atl Eatl.
  bind_inv H as tv_raw Etv_raw. bind_inv H as tv Etv.
  bind_inv H as e Ee. bind_inv H as ltp Eltp. bind_inv H as adj Eadj.
  apply new_Runner_fields in H as (Hst & Hltp & Hadj & Hb).
  apply new_RunnerBSP_prices in Eb as (Hn & Hf & Hl).
  cbv zeta.
  rewrite (py_get_getd _ _ _ _ Est), (py_get_getd _ _ _ _ Eltp),
    (py_get_getd _ _ _ _ Eadj), (py_get_getd _ _ _ _ Ebsp_data),
    (py_get_getd _ _ _ _ En), (py_get_getd _ _ _ _ Ef),
    (py_get_getd _ _ _ _ El), Hb.
  auto 10.
Qed.

(** X4: in a runner, a field whose key is missing from the book entry
    takes the default of the code: status ["ACTIVE"], adjustment factor
    1.0, and null, never 0, for the last traded price and for the near, far
    and actual starting prices. *)
Theorem missing_runner_fields_take_defaults cat rb r :
  extract_runner v_str v_int v_float float_of_str cat rb = Ok r ->
  let sp := getd rb (pys "sp") (PDict []) in
  (lacks rb (pys "status") -> status r = pys "ACTIVE") /\
  (lacks rb (pys "ltp") -> last_price_traded r = None) /\
  (lacks rb (pys "adjustmentFactor") -> adjustment_factor r = Some 1%float) /\
  (lacks sp (pys "n") -> near_price (bsp r) = None) /\
  (lacks sp (pys "f") -> far_price (bsp r) = None) /\
  (lacks sp (pys "l") -> actual_sp (bsp r) = None).
Proof.
  intros H. apply extract_runner_fields in H. cbv zeta in H |- *.
  destruct H as (H1 & H2 & H3 & H4 & H5 & H6).
  repeat lazymatch goal with
         | |- _ /\ _ => split
         end;
    intros L;
    lazymatch goal with
    | |- ?lhs = _ =>
        lazymatch goal with
        | Hf : _ = Some lhs |- _ =>
            rewrite (getd_lacks _ _ _ L) in Hf; unfold v_optional in Hf;
            cbv beta iota in Hf;
            rewrite ?v_str_str, ?v_float_float in Hf;
            cbn [option_map] in Hf;
            injection Hf as Hf; rewrite <- Hf; reflexivity
        end
    end.
Qed.

(** X5: a snapshot has one runner per runner book entry of the record, in
    the entries' order, and each runner's [selection_id] is the validated
    [id] of its entry. *)
Theorem runners_follow_book_entries d m :
  extract_market_data v_str v_int v_float v_bool float_of_str d = Ok m ->
  List.length (runners m) = List.length (runner_books_of d) /\
  Forall2 (fun rb r => v_int (getd rb (pys "id") PNone) = Some (selection_id r))
          (runner_books_of d) (runners m) /\
  (forall ids, map (fun rb => getd rb (pys "id") PNone) (runner_books_of d)
               = map PInt ids ->
               map selection_id (runners m) = ids).
Proof.
  intros H.
  apply (extract_market_data_Ok _ _ _ _ _ v_int_int) in H as (_ & _ & _ & HF).
  assert (HF' : Forall2 (fun rb r => v_int (getd rb (pys "id") PNone)
                                    = Some (selection_id r))
                        (runner_books_of d) (runners m)).
  { induction HF as [|rb r rbs rs Hr _ IH]; constructor; [|exact IH].
    apply extract_runner_Ok in Hr as (name & _ & _ & Hid). exact Hid. }
  split; [symmetry; exact (Forall2_length HF')|]. split; [exact HF'|].
  clear HF. induction HF' as [|rb r rbs rs Hr _ IH]; intros ids Hids.
  - destruct ids; [reflexivity|discriminate].
  - destruct ids as [|z ids]; [discriminate|].
    simpl in Hids. injection Hids as Hz Hrest.
    rewrite Hz, v_int_int in Hr. injection Hr as Hr.
    simpl. rewrite <- Hr. f_equal. now apply IH.
Qed.

(** X6: of the market catalogue the normalization reads [marketName] and
    [runners] and nothing else: any other catalogue key, whatever its value,
    leaves the result unchanged. *)
Theorem catalogue_is_read_for_names_only k v mcat kvs :
  key_in k catalogue_keys = false ->
  extract_market_data v_str v_int v_float v_bool float_of_str
    (PDict ((pys "marketCatalogue", PDict ((k, v) :: mcat)) :: kvs))
  = extract_market_data v_str v_int v_float v_bool float_of_str
      (PDict ((pys "marketCatalogue", PDict mcat) :: kvs)).
Proof. apply extract_ignores_catalogue_key. Qed.

End NormalizerDefaults.

(* ================================================================== *)
(** * Further properties of the decoder and of the batch driver *)

Section BatchFacts.

Variable v_str : pyval -> option pystr.
Variable v_int : pyval -> option Z.
Variable v_float : pyval -> option float.
Variable v_bool : pyval -> option bool.
Variable float_of_str : pystr -> option float.
Variable json_loads : pystr -> result pyval.
Variable bz2_decompress : list Byte.byte -> result (list Byte.byte).
Variable utf8_decode : list Byte.byte -> result pystr.
Variable utf8_encode : pystr -> list Byte.byte.

Hypothesis v_str_str : forall s, v_str (PStr s) = Some s.
Hypothesis v_int_int : forall z, v_int (PInt z) = Some z.

Let parse :=
  parse_file v_str v_int v_float v_bool float_of_str json_loads
    bz2_decompress utf8_decode utf8_encode.

Lemma strip_blank (s : pystr) : forallb isspace s = true -> strip s = [].
Proof.
  intros H. pose proof (is_nonblank_spec s) as Hs. rewrite H in Hs.
  unfold is_nonblank in Hs. simpl in Hs.
  destruct (strip s); [reflexivity|discriminate].
Qed.

(** X7: a text made of white space only, the empty text included, decodes
    to no record at all, whatever [json.loads] would make of it; so a file
    that decompresses to such a text is refused with "No valid records
    found in file". *)
Theorem blank_text_has_no_records content :
  forallb isspace content = true ->
  parse_json_stream json_loads content = Ok [] /\
  (forall env file_content file_name,
     decompress_bz2 bz2_decompress utf8_decode file_content = Ok content ->
     parse env file_content file_name
     = Raise (Exn ValueError (pys "No valid records found in file"))).
Proof.
  intros H.
  assert (Hr : parse_json_stream json_loads content = Ok []).
  { unfold parse_json_stream. rewrite (strip_blank _ H). reflexivity. }
  split; [exact Hr|]. intros env file_content file_name Hdec.
  subst parse. unfold parse_file. rewrite Hdec. cbn [try_except bind].
  rewrite Hr. reflexivity.
Qed.

Lemma decompress_bz2_raises file_content e :
  decompress_bz2 bz2_decompress utf8_decode file_content = Raise e ->
  exists e0,
    (bz2_decompress file_content = Raise e0 \/
     exists data, bz2_decompress file_content = Ok data /\
                  utf8_decode data = Raise e0) /\
    e = Exn ValueError (pys "Failed to decompress file: " ++ exn_str e0).
Proof.
  unfold decompress_bz2.
  destruct (bz2_decompress file_content) as [data|e0] eqn:Ebz; simpl.
  - destruct (utf8_decode data) as [text|e0] eqn:Eutf; simpl; [discriminate|].
    intros [= <-]. exists e0. split; [right; eauto|reflexivity].
  - intros [= <-]. exists e0. split; [left; reflexivity|reflexivity].
Qed.

(** X8: when [bz2.decompress] raises, or the decompressed bytes are not
    UTF-8, whatever the exception, [parse_file] raises a [ValueError] whose
    message is "Decompression failed: Failed to decompress file: " followed
    by the text of that exception. *)
Theorem decompression_failure_is_a_ValueError env file_content file_name e0 :
  (bz2_decompress file_content = Raise e0 \/
   exists data, bz2_decompress file_content = Ok data /\
                utf8_decode data = Raise e0) ->
  parse env file_content file_name
  = Raise (Exn ValueError
             (pys "Decompression failed: "
              ++ pys "Failed to decompress file: " ++ exn_str e0)).
Proof.
  intros H. subst parse. unfold parse_file, decompress_bz2.
  destruct H as [H|(data & Hbz & Hutf)].
  - rewrite H. reflexivity.
  - rewrite Hbz. cbn [bind]. rewrite Hutf. reflexivity.
Qed.

(** Where a raise of [parse_file] comes from. *)
Lemma parse_file_raise_site env file_content file_name e :
  parse env file_content file_name = Raise e ->
  (exists e0,
     decompress_bz2 bz2_decompress utf8_decode file_content = Raise e0 /\
     e = Exn ValueError (pys "Decompression failed: " ++ exn_str e0)) \/
  (exists content,
     decompress_bz2 bz2_decompress utf8_decode file_content = Ok content /\
     ((exists e0,
         parse_json_stream json_loads content = Raise e0 /\
         e = Exn ValueError (pys "JSON parsing failed: " ++ exn_str e0)) \/
      (parse_json_stream json_loads content = Ok [] /\
       e = Exn ValueError (pys "No valid records found in file")) \/
      (exists records,
         parse_json_stream json_loads content = Ok records /\
         records <> [] /\
         normalized v_str v_int v_float v_bool float_of_str records = [] /\
         e = Exn ValueError (pys "No valid markets found in file")))).
Proof.
  subst parse. unfold parse_file.
  destruct (decompress_bz2 bz2_decompress utf8_decode file_content)
    as [content|e1] eqn:Edec.
  - cbn [try_except bind]. intros H. right. exists content.
    split; [reflexivity|].
    destruct (parse_json_stream json_loads content) as [records|e0];
      cbn [try_except bind] in H.
    + right. destruct records as [|record records'].
      * left. injection H as <-. split; reflexivity.
      * right. cbn [py_truthy negb] in H.
        rewrite extract_markets_normalized in H.
        destruct (normalized _ _ _ _ _ _) as [|market markets] eqn:En.
        -- injection H as <-. exists (record :: records').
           repeat split; [discriminate|exact En].
        -- rewrite new_FileMetadata_Ok, new_ProcessingStats_Ok in H
             by assumption.
           discriminate.
    + left. injection H as <-. exists e0. split; reflexivity.
  - pose proof Edec as Edec'.
    apply decompress_bz2_raises in Edec' as (e0 & _ & ->).
    cbn [try_except is_ValueError exn_kind_of bind]. intros [= <-].
    left. eexists. split; reflexivity.
Qed.

(** X9: every exception that leaves [parse_file] is a [ValueError], and
    its text is one of four: "Decompression failed: ..." when the file does
    not decompress, "JSON parsing failed: ..." when the decoder raises, "No
    valid records found in file" when it returns no record, "No valid
    markets found in file" when no record normalizes. *)
Theorem parse_file_raises_only_ValueError env file_content file_name e :
  parse env file_content file_name = Raise e ->
  exn_kind_of e = ValueError /\
  exists msg,
    e = Exn ValueError msg /\
    ((exists detail, msg = pys "Decompression failed: " ++ detail) \/
     (exists detail, msg = pys "JSON parsing failed: " ++ detail) \/
     msg = pys "No valid records found in file" \/
     msg = pys "No valid markets found in file").
Proof.
  intros H.
  destruct (parse_file_raise_site _ _ _ _ H)
    as [(e0 & _ & ->)|(content & _ & [(e0 & _ & ->)|[(_ & ->)|(r & _ & _ & _ & ->)]])].
  - split; [reflexivity|]. eexists. split; [reflexivity|]. left. eauto.
  - split; [reflexivity|]. eexists. split; [reflexivity|]. right. left. eauto.
  - split; [reflexivity|]. eexists. split; [reflexivity|]. auto.
  - split; [reflexivity|]. eexists. split; [reflexivity|]. auto.
Qed.

Lemma parse_file_raise_kind env file_content file_name e :
  parse env file_content file_name = Raise e ->
  exn_kind_of e = ValueError.
Proof.
  intros H.
  destruct (parse_file_raise_site _ _ _ _ H)
    as [(e0 & _ & ->)|(content & _ & [(e0 & _ & ->)|[(_ & ->)|(r & _ & _ & _ & ->)]])];
    reflexivity.
Qed.

Lemma parse_file_Ok_file_id env file_content name response :
  parse env file_content name = Ok response ->
  file_id (file_metadata response) = env_uuid env.
Proof.
  subst parse. unfold parse_file.
  destruct (decompress_bz2 bz2_decompress utf8_decode file_content)
    as [content|e1]; cbn [try_except bind];
    [|destruct (is_ValueError e1); discriminate].
  destruct (parse_json_stream json_loads content) as [records|e0];
    cbn [try_except bind]; [|discriminate].
  destruct (py_truthy (PList records)); cbn [negb]; [|discriminate].
  destruct (extract_markets _ _ _ _ _ _) as [[|market markets] n];
    [discriminate|].
  rewrite new_FileMetadata_Ok, new_ProcessingStats_Ok by assumption.
  cbn [bind]. intros [= <-]. reflexivity.
Qed.

Lemma normalized_length records :
  (List.length (normalized v_str v_int v_float v_bool float_of_str records)
   <= List.length records)%nat.
Proof.
  induction records as [|record records IH]; simpl; [lia|].
  destruct (extract_market_data _ _ _ _ _ record); simpl; lia.
Qed.

Lemma normalized_runner_counts records :
  count_runners (normalized v_str v_int v_float v_bool float_of_str records)
  = sum_number_of_runners
      (normalized v_str v_int v_float v_bool float_of_str records).
Proof.
  induction records as [|record records IH]; simpl; [reflexivity|].
  destruct (extract_market_data _ _ _ _ _ record) as [market|e] eqn:E;
    simpl; [|exact IH].
  apply (extract_market_data_Ok _ _ _ _ _ v_int_int) in E as (_ & _ & Hn & _).
  rewrite Hn, IH. reflexivity.
Qed.

(** X10: a bundle returned by [parse_file] records the length of the
    uploaded bytes as both [size_bytes] and [compressed_size_bytes], the
    UTF-8 length of the decompressed text, the file name as given and the
    status ["completed"]; [total_records] is the number of decoded lines,
    so there are at most that many markets and at least one; and
    [total_runners] is the sum of the markets' [number_of_runners]. *)
Theorem parse_file_reports_sizes_and_counts env file_content name response :
  parse env file_content name = Ok response ->
  exists content records,
    decompress_bz2 bz2_decompress utf8_decode file_content = Ok content /\
    parse_json_stream json_loads content = Ok records /\
    size_bytes (file_metadata response) = Z.of_nat (List.length file_content) /\
    compressed_size_bytes (processing_stats response)
    = Z.of_nat (List.length file_content) /\
    decompressed_size_bytes (processing_stats response)
    = Z.of_nat (List.length (utf8_encode content)) /\
    file_name (file_metadata response) = name /\
    processing_status (file_metadata response) = pys "completed" /\
    total_records (processing_stats response)
    = Z.of_nat (List.length records) /\
    (0 < List.length (markets response))%nat /\
    Z.of_nat (List.length (markets response))
    <= total_records (processing_stats response) /\
    total_runners (processing_stats response)
    = sum_number_of_runners (markets response).
Proof.
  subst parse. unfold parse_file.
  destruct (decompress_bz2 bz2_decompress utf8_decode file_content)
    as [content|e1] eqn:Edec; cbn [try_except bind];
    [|destruct (is_ValueError e1); discriminate].
  destruct (parse_json_stream json_loads content) as [records|e0] eqn:Erec;
    cbn [try_except bind]; [|discriminate].
  destruct (py_truthy (PList records)); cbn [negb]; [|discriminate].
  rewrite extract_markets_normalized.
  pose proof (normalized_length records) as Hlen.
  pose proof (normalized_runner_counts records) as Hcount.
  destruct (normalized _ _ _ _ _ _) as [|market markets] eqn:Enorm;
    [discriminate|].
  rewrite new_FileMetadata_Ok, new_ProcessingStats_Ok by assumption.
  cbn [bind]. intros [= <-]. exists content, records. simpl in *.
  repeat split; try reflexivity; try lia; try exact Hcount; exact Erec.
Qed.

End BatchFacts.

(* ================================================================== *)
(** * Further properties of the exporter *)

Lemma mapM_Ok_length {A B : Type} (f : A -> result B) (l : list A) (l' : list B) :
  mapM f l = Ok l' -> List.length l' = List.length l.
Proof.
  revert l'. induction l as [|x l IH]; simpl; intros l' H.
  - now injection H as <-.
  - bind_inv H as y Ey. bind_inv H as ys Eys. injection H as <-.
    simpl. f_equal. now apply IH.
Qed.

(** [mapM] returns exactly when every element does. *)
Lemma mapM_Ok_iff {A B : Type} (f : A -> result B) (l : list A) :
  (exists l', mapM f l = Ok l') <-> Forall (fun x => exists y, f x = Ok y) l.
Proof.
  induction l as [|x l IH]; simpl.
  - split; [constructor|eauto].
  - split.
    + intros [l' H]. bind_inv H as y Ey. bind_inv H as ys Eys.
      constructor; [eauto|]. apply IH. eauto.
    + intros H. inversion H as [|? ? [y Hy] Hl]; subst.
      apply IH in Hl as [ys Hys]. rewrite Hy, Hys. simpl. eauto.
Qed.

Lemma mapM_pure {A B : Type} (f : A -> result B) (g : A -> B) (l : list A) :
  (forall x, f x = Ok (g x)) -> mapM f l = Ok (map g l).
Proof.
  intros H. induction l as [|x l IH]; simpl; [reflexivity|].
  now rewrite H, IH.
Qed.

Lemma mapM_raises_kind {A B : Type} (f : A -> result B) (k : exn_kind)
    (l : list A) (e : exn) :
  (forall x e', f x = Raise e' -> exn_kind_of e' = k) ->
  mapM f l = Raise e -> exn_kind_of e = k.
Proof.
  intros Hf. induction l as [|x l IH]; simpl; [discriminate|].
  destruct (f x) as [y|e'] eqn:Ex; simpl.
  - destruct (mapM f l); simpl; [discriminate|].
    intros [= <-]. now apply IH.
  - intros [= <-]. now apply (Hf x).
Qed.

Lemma Forall_iff_impl {A : Type} (P Q : A -> Prop) (l : list A) :
  (forall x, P x <-> Q x) -> (Forall P l <-> Forall Q l).
Proof.
  intros H. split; intros HF; eapply Forall_impl; try exact HF;
    intros x; apply H.
Qed.

Section ExporterRowFacts.

Variable str_of_int : Z -> pystr.
Variable str_of_float : float -> pystr.

Let rows_of := csv_rows str_of_int str_of_float.
Let csv := to_csv str_of_int str_of_float.

Lemma to_csv_rows markets include_prices :
  csv markets include_prices
  = bind (rows_of markets include_prices)
         (fun rows => Ok (join_nl (csv_header include_prices :: rows))).
Proof.
  subst csv rows_of. unfold to_csv, csv_rows.
  destruct (mapM _ markets); reflexivity.
Qed.

Lemma concat_length_runners (markets : list Market) (rows : list (list pystr)) :
  Forall2 (fun market r => List.length r = List.length (runners market))
          markets rows ->
  List.length (concat rows) = runner_total markets.
Proof.
  unfold runner_total.
  induction 1 as [|market r markets rows Hr _ IH]; simpl; [reflexivity|].
  rewrite length_app, Hr, IH. reflexivity.
Qed.

Lemma mapM_Forall2 {A B : Type} (f : A -> result B) (l : list A) (l' : list B) :
  mapM f l = Ok l' -> Forall2 (fun x y => f x = Ok y) l l'.
Proof.
  revert l'. induction l as [|x l IH]; simpl; intros l' H.
  - injection H as <-. constructor.
  - bind_inv H as y Ey. bind_inv H as ys Eys. injection H as <-.
    constructor; [exact Ey|now apply IH].
Qed.

(** X11: a CSV export that returns is the header line followed by one line
    per runner of the exported snapshots, market by market, joined by
    newlines: the number of data rows is the number of runners in all. *)
Theorem csv_has_one_row_per_runner markets include_prices text :
  csv markets include_prices = Ok text ->
  exists rows,
    rows_of markets include_prices = Ok rows /\
    text = join_nl (csv_header include_prices :: rows) /\
    List.length rows = runner_total markets.
Proof.
  rewrite to_csv_rows. intros H. bind_inv H as rows Hrows.
  injection H as <-. exists rows. split; [exact Hrows|]. split; [reflexivity|].
  subst rows_of. unfold csv_rows in Hrows. bind_inv Hrows as rs Hrs.
  injection Hrows as <-. apply concat_length_runners.
  apply mapM_Forall2 in Hrs.
  induction Hrs as [|market r markets rs Hr _ IH]; constructor; [|exact IH].
  now apply mapM_Ok_length in Hr.
Qed.

(** X12: an export without prices never raises, and its rows are the six
    identity columns alone: they do not depend on the runners' ladders,
    starting prices or last traded price. *)
Theorem csv_without_prices_is_total markets :
  rows_of markets false
  = Ok (flat_map (fun market =>
                    map (plain_row str_of_int market) (runners market))
                 markets) /\
  exists text, csv markets false = Ok text.
Proof.
  assert (H : rows_of markets false
              = Ok (flat_map (fun market =>
                                map (plain_row str_of_int market) (runners market))
                             markets)).
  { subst rows_of. unfold csv_rows.
    rewrite (mapM_pure _ (fun market =>
                            map (plain_row str_of_int market) (runners market))).
    - simpl. now rewrite flat_map_concat_map.
    - intros market. apply mapM_pure. reflexivity. }
  split; [exact H|]. rewrite to_csv_rows, H. simpl. eauto.
Qed.

Lemma unpack_stake_Ok_iff (row : list float) :
  (exists stake, unpack_stake row = Ok stake) <-> List.length row = 2%nat.
Proof.
  destruct row as [|a [|b [|c row]]]; simpl; split; intros H;
    try discriminate; try (destruct H; discriminate); eauto.
Qed.

Lemma csv_row_priced_Ok_iff market runner :
  (exists line, csv_row str_of_int str_of_float true market runner = Ok line)
  <-> pairs_only runner.
Proof.
  unfold csv_row, pairs_only. cbv zeta. cbv beta iota.
  split.
  - intros [line H]. bind_inv H as backs Hbacks. bind_inv H as lays Hlays.
    split.
    + assert (Hb : exists l, mapM unpack_stake (available_to_back (ex runner)) = Ok l)
        by eauto.
      apply mapM_Ok_iff in Hb.
      eapply Forall_impl; [|exact Hb]. intros row. apply unpack_stake_Ok_iff.
    + assert (Hl : exists l, mapM unpack_stake (available_to_lay (ex runner)) = Ok l)
        by eauto.
      apply mapM_Ok_iff in Hl.
      eapply Forall_impl; [|exact Hl]. intros row. apply unpack_stake_Ok_iff.
  - intros [Hb Hl].
    assert (Hb' : exists l, mapM unpack_stake (available_to_back (ex runner)) = Ok l).
    { apply mapM_Ok_iff. eapply Forall_impl; [|exact Hb].
      intros row. apply unpack_stake_Ok_iff. }
    assert (Hl' : exists l, mapM unpack_stake (available_to_lay (ex runner)) = Ok l).
    { apply mapM_Ok_iff. eapply Forall_impl; [|exact Hl].
      intros row. apply unpack_stake_Ok_iff. }
    destruct Hb' as [backs ->], Hl' as [lays ->]. simpl. eauto.
Qed.

Lemma unpack_stake_raises row e :
  unpack_stake row = Raise e -> exn_kind_of e = ValueError.
Proof.
  destruct row as [|a [|b [|c row]]]; simpl; intros [= <-]; reflexivity.
Qed.

Lemma csv_row_raises include_prices market runner e :
  csv_row str_of_int str_of_float include_prices market runner = Raise e ->
  exn_kind_of e = ValueError.
Proof.
  unfold csv_row. cbv zeta. destruct include_prices; [|discriminate].
  destruct (mapM unpack_stake (available_to_back (ex runner))) as [backs|e1] eqn:Eb;
    simpl.
  - destruct (mapM unpack_stake (available_to_lay (ex runner))) as [lays|e2] eqn:El;
      simpl; [discriminate|].
    intros [= <-]. eapply mapM_raises_kind; [|exact El].
    intros x e'. apply unpack_stake_raises.
  - intros [= <-]. eapply mapM_raises_kind; [|exact Eb].
    intros x e'. apply unpack_stake_raises.
Qed.

(** X13: an export with prices returns exactly when every row of every
    runner's [available_to_back] and [available_to_lay] ladders has two
    elements; otherwise it raises, and what it raises is a [ValueError]. *)
Theorem csv_with_prices_needs_pairs markets :
  ((exists text, csv markets true = Ok text)
   <-> Forall (fun market => Forall pairs_only (runners market)) markets) /\
  (forall e, csv markets true = Raise e -> exn_kind_of e = ValueError).
Proof.
  split.
  - rewrite to_csv_rows. subst rows_of. unfold csv_rows.
    transitivity (exists rs,
                    mapM (fun market =>
                            mapM (csv_row str_of_int str_of_float true market)
                                 (runners market)) markets = Ok rs).
    + split.
      * intros [text H]. bind_inv H as rows Hrows. bind_inv Hrows as rs Hrs. eauto.
      * intros [rs ->]. simpl. eauto.
    + rewrite mapM_Ok_iff. apply Forall_iff_impl. intros market.
      rewrite mapM_Ok_iff. apply Forall_iff_impl. intros runner.
      apply csv_row_priced_Ok_iff.
  - intros e. subst csv. unfold to_csv.
    destruct (mapM _ markets) as [rs|e1] eqn:E; simpl; [discriminate|].
    intros [= <-]. eapply mapM_raises_kind; [|exact E].
    intros market e' H. eapply mapM_raises_kind; [|exact H].
    intros runner e''. apply csv_row_raises.
Qed.

End ExporterRowFacts.

(* ================================================================== *)
(** * The in-memory store *)

Lemma dict_lookup_set_same {A : Type} (k : pystr) (v : A) (kvs : list (pystr * A)) :
  dict_lookup k (dict_set k v kvs) = Some v.
Proof.
  induction kvs as [|[k' v'] kvs IH]; simpl.
  - now rewrite pystr_eqb_refl.
  - destruct (pystr_eqb k k') eqn:E; simpl; rewrite E; [reflexivity|exact IH].
Qed.

Lemma dict_lookup_set_other {A : Type} (k k0 : pystr) (v : A)
    (kvs : list (pystr * A)) :
  k0 <> k -> dict_lookup k0 (dict_set k v kvs) = dict_lookup k0 kvs.
Proof.
  intros Hne. induction kvs as [|[k' v'] kvs IH]; simpl.
  - destruct (pystr_eqb k0 k) eqn:E; [|reflexivity].
    apply pystr_eqb_eq in E. contradiction.
  - destruct (pystr_eqb k k') eqn:E; simpl.
    + apply pystr_eqb_eq in E. subst k'.
      destruct (pystr_eqb k0 k) eqn:E0; [|reflexivity].
      apply pystr_eqb_eq in E0. contradiction.
    + now rewrite IH.
Qed.

Lemma dict_lookup_None_not_in {A : Type} (k : pystr) (kvs : list (pystr * A)) :
  dict_lookup k kvs = None <-> ~ In k (map fst kvs).
Proof.
  induction kvs as [|[k' v'] kvs IH]; simpl; [tauto|].
  destruct (pystr_eqb k k') eqn:E.
  - apply pystr_eqb_eq in E. subst. split; [discriminate|tauto].
  - rewrite IH. split.
    + intros H [Heq|Hin]; [|tauto]. subst.
      rewrite pystr_eqb_refl in E. discriminate.
    + tauto.
Qed.

Lemma dict_set_keys {A : Type} (k : pystr) (v : A) (kvs : list (pystr * A)) :
  map fst (dict_set k v kvs)
  = match dict_lookup k kvs with
    | Some _ => map fst kvs
    | None => map fst kvs ++ [k]
    end.
Proof.
  induction kvs as [|[k' v'] kvs IH]; simpl; [reflexivity|].
  destruct (pystr_eqb k k') eqn:E; simpl; [reflexivity|].
  rewrite IH. destruct (dict_lookup k kvs); reflexivity.
Qed.

Lemma dict_set_new {A : Type} (k : pystr) (v : A) (kvs : list (pystr * A)) :
  dict_lookup k kvs = None -> dict_set k v kvs = kvs ++ [(k, v)].
Proof.
  induction kvs as [|[k' v'] kvs IH]; simpl; [reflexivity|].
  destruct (pystr_eqb k k'); [discriminate|].
  intros H. now rewrite IH.
Qed.

Lemma dict_set_length_present {A : Type} (k : pystr) (v v0 : A)
    (kvs : list (pystr * A)) :
  dict_lookup k kvs = Some v0 ->
  List.length (dict_set k v kvs) = List.length kvs.
Proof.
  induction kvs as [|[k' v'] kvs IH]; simpl; [discriminate|].
  destruct (pystr_eqb k k'); simpl; [reflexivity|].
  intros H. now rewrite IH.
Qed.

(** X16: in the in-memory store, a saved document is what [get] returns
    for its id, the documents under the other ids are untouched, the ids
    stay distinct, and the listing grows by the new document at its end
    when the id is new and keeps its length when the id is overwritten. *)
Theorem save_then_get files file_id data :
  FileStore_get (FileStore_save files file_id data) file_id = Some data /\
  (forall other, other <> file_id ->
     FileStore_get (FileStore_save files file_id data) other
     = FileStore_get files other) /\
  (distinct_ids files -> distinct_ids (FileStore_save files file_id data)) /\
  (FileStore_get files file_id = None ->
   FileStore_list_files (FileStore_save files file_id data)
   = FileStore_list_files files ++ [data]) /\
  (FileStore_get files file_id <> None ->
   List.length (FileStore_list_files (FileStore_save files file_id data))
   = List.length (FileStore_list_files files)).
Proof.
  unfold FileStore_get, FileStore_save, FileStore_list_files, distinct_ids.
  split; [apply dict_lookup_set_same|].
  split; [intros other H; now apply dict_lookup_set_other|].
  split; [|split].
  - intros Hnd. rewrite dict_set_keys.
    destruct (dict_lookup file_id files) eqn:E; [exact Hnd|].
    apply dict_lookup_None_not_in in E.
    apply NoDup_app; [exact Hnd|repeat constructor; simpl; tauto|].
    intros x Hx [<-|[]]. contradiction.
  - intros H. rewrite (dict_set_new _ _ _ H), map_app. reflexivity.
  - intros H. rewrite !length_map.
    destruct (dict_lookup file_id files) as [v0|] eqn:E; [|congruence].
    apply dict_set_length_present with (v0 := v0). exact E.
Qed.

Lemma dict_lookup_del_same {A : Type} (k : pystr) (kvs : list (pystr * A)) :
  NoDup (map fst kvs) -> dict_lookup k (dict_del k kvs) = None.
Proof.
  induction kvs as [|[k' v'] kvs IH]; simpl; intros Hnd; [reflexivity|].
  inversion Hnd as [|? ? Hnotin Hnd']; subst.
  destruct (pystr_eqb k k') eqn:E; simpl.
  - apply pystr_eqb_eq in E. subst. now apply dict_lookup_None_not_in.
  - rewrite E. now apply IH.
Qed.

Lemma dict_lookup_del_other {A : Type} (k k0 : pystr) (kvs : list (pystr * A)) :
  k0 <> k -> dict_lookup k0 (dict_del k kvs) = dict_lookup k0 kvs.
Proof.
  intros Hne. induction kvs as [|[k' v'] kvs IH]; simpl; [reflexivity|].
  destruct (pystr_eqb k k') eqn:E; simpl.
  - apply pystr_eqb_eq in E. subst k'.
    destruct (pystr_eqb k0 k) eqn:E0; [|reflexivity].
    apply pystr_eqb_eq in E0. contradiction.
  - now rewrite IH.
Qed.

Lemma dict_del_keys_incl {A : Type} (k x : pystr) (kvs : list (pystr * A)) :
  In x (map fst (dict_del k kvs)) -> In x (map fst kvs).
Proof.
  induction kvs as [|[k' v'] kvs IH]; simpl; [tauto|].
  destruct (pystr_eqb k k'); simpl; tauto.
Qed.

Lemma dict_del_NoDup {A : Type} (k : pystr) (kvs : list (pystr * A)) :
  NoDup (map fst kvs) -> NoDup (map fst (dict_del k kvs)).
Proof.
  induction kvs as [|[k' v'] kvs IH]; simpl; intros Hnd; [constructor|].
  inversion Hnd as [|? ? Hnotin Hnd']; subst.
  destruct (pystr_eqb k k'); simpl; [exact Hnd'|].
  constructor; [|now apply IH].
  intros Hin. apply Hnotin. eapply dict_del_keys_incl. exact Hin.
Qed.

Lemma dict_del_length {A : Type} (k : pystr) (v : A) (kvs : list (pystr * A)) :
  dict_lookup k kvs = Some v ->
  S (List.length (dict_del k kvs)) = List.length kvs.
Proof.
  induction kvs as [|[k' v'] kvs IH]; simpl; [discriminate|].
  destruct (pystr_eqb k k'); simpl; [reflexivity|].
  intros H. now rewrite IH.
Qed.

(** X17: in the in-memory store, whose ids are distinct, a deleted id is
    no longer found, the other ids are untouched and stay distinct,
    deleting an id that is not stored changes nothing, and deleting a stored
    one shortens the listing by one. *)
Theorem delete_then_get files file_id :
  distinct_ids files ->
  FileStore_get (FileStore_delete files file_id) file_id = None /\
  (forall other, other <> file_id ->
     FileStore_get (FileStore_delete files file_id) other
     = FileStore_get files other) /\
  distinct_ids (FileStore_delete files file_id) /\
  (FileStore_get files file_id = None ->
   FileStore_delete files file_id = files) /\
  (FileStore_get files file_id <> None ->
   S (List.length (FileStore_list_files (FileStore_delete files file_id)))
   = List.length (FileStore_list_files files)).
Proof.
  unfold FileStore_get, FileStore_delete, FileStore_list_files, distinct_ids.
  intros Hnd.
  destruct (dict_lookup file_id files) as [v|] eqn:E.
  - split; [now apply dict_lookup_del_same|].
    split; [intros other H; now apply dict_lookup_del_other|].
    split; [now apply dict_del_NoDup|].
    split; [discriminate|].
    intros _. rewrite !length_map. now apply dict_del_length with (v := v).
  - split; [exact E|]. split; [reflexivity|]. split; [exact Hnd|].
    split; [reflexivity|]. congruence.
Qed.

(* ================================================================== *)
(** * The cloud store's listing *)

(** X18: the entry that [CloudFileStore.list_files] rebuilds from the
    metadata [_extract_metadata] keeps of a document carries the
    document's seven [file_metadata] fields and its runner, time and size
    statistics, but no markets, and as [total_records] the number of markets
    of the document, whatever [total_records] the document had. *)
Theorem cloud_listing_entry_of_document str_other data metadata :
  _extract_metadata str_other data = Ok metadata ->
  exists entry n,
    cloud_list_entry metadata = Ok entry /\
    py_len (getd data (pys "markets") (PList [])) = Ok n /\
    getd (getd entry (pys "processing_stats") PNone) (pys "total_records") PNone
    = PInt n /\
    getd entry (pys "markets") PNone = PList [] /\
    Forall (fun key =>
              getd (getd entry (pys "file_metadata") PNone) key PNone
              = getd (getd data (pys "file_metadata") (PDict [])) key PNone)
           metadata_keys /\
    Forall (fun key =>
              getd (getd entry (pys "processing_stats") PNone) key PNone
              = getd (getd data (pys "processing_stats") (PDict [])) key (PInt 0))
           [pys "total_runners"; pys "processing_time_ms";
            pys "compressed_size_bytes"; pys "decompressed_size_bytes"].
Proof.
  unfold _extract_metadata. intros H.
  bind_inv H as fm Efm. bind_inv H as ps Eps. bind_inv H as ms Ems.
  bind_inv H as fid Efid. bind_inv H as fname Efname.
  bind_inv H as size Esize. bind_inv H as utime Eutime.
  bind_inv H as pstatus Epstatus. bind_inv H as pat Epat.
  bind_inv H as emsg Eemsg. bind_inv H as n En.
  bind_inv H as nrun Enrun. bind_inv H as ptime Eptime.
  bind_inv H as csize Ecsize. bind_inv H as dsize Edsize.
  bind_inv H as pid Epid. injection H as <-.
  rewrite (py_get_getd _ _ _ _ Ems), (py_get_getd _ _ _ _ Efm),
    (py_get_getd _ _ _ _ Eps).
  eexists. exists n. split; [vm_compute; reflexivity|].
  split; [exact En|].
  split; [vm_compute; reflexivity|]. split; [vm_compute; reflexivity|].
  unfold metadata_keys.
  split; repeat constructor;
    rewrite ?(py_get_getd _ _ _ _ Efid), ?(py_get_getd _ _ _ _ Efname),
      ?(py_get_getd _ _ _ _ Esize), ?(py_get_getd _ _ _ _ Eutime),
      ?(py_get_getd _ _ _ _ Epstatus), ?(py_get_getd _ _ _ _ Epat),
      ?(py_get_getd _ _ _ _ Eemsg), ?(py_get_getd _ _ _ _ Enrun),
      ?(py_get_getd _ _ _ _ Eptime), ?(py_get_getd _ _ _ _ Ecsize),
      ?(py_get_getd _ _ _ _ Edsize);
    vm_compute; reflexivity.
Qed.

(** X19: a row of the [list_files] endpoint reports as [markets] the
    length of the entry's [markets] list; for an entry rebuilt by the cloud
    store the row is always produced and the count is 0. *)
Theorem listing_row_counts_the_markets_it_is_given repr_str :
  (forall f row,
     listing_row repr_str f = Ok row ->
     exists n, py_len (getd f (pys "markets") (PList [])) = Ok n /\
               getd row (pys "markets") PNone = PInt n) /\
  (forall metadata entry,
     cloud_list_entry metadata = Ok entry ->
     exists row, listing_row repr_str entry = Ok row /\
                 getd row (pys "markets") PNone = PInt 0 /\
                 getd row (pys "file_id") PNone
                 = getd metadata (pys "file_id") PNone).
Proof.
  split.
  - intros f row H. unfold listing_row in H.
    bind_inv H as fm1 E1. bind_inv H as fid Efid.
    bind_inv H as fm2 E2. bind_inv H as fname Efname.
    bind_inv H as fm3 E3. bind_inv H as size Esize.
    bind_inv H as fm4 E4. bind_inv H as utime Eutime.
    bind_inv H as fm5 E5. bind_inv H as st Est.
    bind_inv H as ms Ems. bind_inv H as n En. injection H as <-.
    exists n. rewrite (py_get_getd _ _ _ _ Ems).
    split; [exact En|vm_compute; reflexivity].
  - intros metadata entry H. unfold cloud_list_entry in H.
    bind_inv H as fid Efid. bind_inv_all H. injection H as <-.
    rewrite (py_get_getd _ _ _ _ Efid).
    eexists. split; [vm_compute; reflexivity|].
    split; vm_compute; reflexivity.
Qed.

(* ================================================================== *)
(** * The file endpoints *)

Section EndpointFacts.

Variable v_str : pyval -> option pystr.
Variable v_int : pyval -> option Z.
Variable v_float : pyval -> option float.
Variable v_bool : pyval -> option bool.
Variable float_of_str : pystr -> option float.
Variable json_loads : pystr -> result pyval.
Variable bz2_decompress : list Byte.byte -> result (list Byte.byte).
Variable utf8_decode : list Byte.byte -> result pystr.
Variable utf8_encode : pystr -> list Byte.byte.
Variable model_dict : FileParseResponse -> pyval.
Variable parse_obj : pyval -> result FileParseResponse.
Variable Store : Type.
Variable file_store_save : Store -> pystr -> pyval -> result unit * Store.

Hypothesis v_str_str : forall s, v_str (PStr s) = Some s.
Hypothesis v_int_int : forall z, v_int (PInt z) = Some z.

Let parse :=
  parse_file v_str v_int v_float v_bool float_of_str json_loads
    bz2_decompress utf8_decode utf8_encode.
Let upload :=
  upload_file v_str v_int v_float v_bool float_of_str json_loads
    bz2_decompress utf8_decode utf8_encode model_dict Store file_store_save.
Let upload_in_memory :=
  upload_file v_str v_int v_float v_bool float_of_str json_loads
    bz2_decompress utf8_decode utf8_encode model_dict FileStore
    FileStore_save_call.

(** X20: an upload that is empty, longer than 500 MiB or not starting
    with the bytes [BZ] is refused with status 400, 413 and 400, in that
    order of precedence, whatever the parser would make of it and whatever
    the store, and the store is left as it was. *)
Theorem upload_rejects_before_parsing upload_uuid env files content filename :
  (content = [] ->
   upload upload_uuid env files (Ok content) filename
   = (Raise (Exn (HTTPException 400) (pys "Empty file")), files)) /\
  (content <> [] -> max_upload_size < Z.of_nat (List.length content) ->
   upload upload_uuid env files (Ok content) filename
   = (Raise (Exn (HTTPException 413) (pys "File too large (max 500MB)")), files)) /\
  (content <> [] -> Z.of_nat (List.length content) <= max_upload_size ->
   starts_with_BZ content = false ->
   upload upload_uuid env files (Ok content) filename
   = (Raise (Exn (HTTPException 400)
               (pys "Invalid file format. Expected BZip2 compressed file (.bz2)")),
      files)).
Proof.
  subst upload. unfold upload_file, upload_checked.
  split; [intros ->; reflexivity|]. split.
  - intros Hne Hbig. destruct content as [|b content]; [congruence|].
    apply Z.ltb_lt in Hbig. rewrite Hbig. reflexivity.
  - intros Hne Hsmall Hbz. destruct content as [|b content]; [congruence|].
    apply Z.ltb_ge in Hsmall. rewrite Hsmall, Hbz. reflexivity.
Qed.

Lemma new_UploadResponse_Ok fid fname st size :
  new_UploadResponse v_str v_int (PStr fid) (PStr fname) (PStr st) (PInt size)
  = Ok {| Upload.file_id := fid; Upload.file_name := fname;
          Upload.status := st; Upload.size_bytes := size |}.
Proof.
  unfold new_UploadResponse. rewrite !v_str_str, v_int_int. reflexivity.
Qed.

(** Every way an upload fails. *)
Lemma upload_failure_cases upload_uuid env files read filename e files' :
  upload upload_uuid env files read filename = (Raise e, files') ->
  (exists e0,
     read = Raise e0 /\ files' = files /\
     e = if is_HTTPException e0 then e0
         else Exn (HTTPException 500) (pys "Upload failed")) \/
  (exists content,
     read = Ok content /\
     ((files' = files /\
       (content = [] /\ e = Exn (HTTPException 400) (pys "Empty file") \/
        content <> [] /\ max_upload_size < Z.of_nat (List.length content) /\
        e = Exn (HTTPException 413) (pys "File too large (max 500MB)") \/
        content <> [] /\ Z.of_nat (List.length content) <= max_upload_size /\
        starts_with_BZ content = false /\
        e = Exn (HTTPException 400)
              (pys "Invalid file format. Expected BZip2 compressed file (.bz2)"))) \/
      (content <> [] /\ Z.of_nat (List.length content) <= max_upload_size /\
       starts_with_BZ content = true /\
       ((exists e0,
           parse env content filename = Raise e0 /\ files' = files /\
           e = Exn (HTTPException 400) (pys "Parsing error: " ++ exn_str e0)) \/
        (exists bundle e1,
           parse env content filename = Ok bundle /\
           file_store_save files upload_uuid (model_dict bundle)
           = (Raise e1, files') /\
           e = if is_ValueError e1
               then Exn (HTTPException 400) (pys "Parsing error: " ++ exn_str e1)
               else Exn (HTTPException 500) (pys "Internal server error")))))).
Proof.
  subst upload. unfold upload_file.
  destruct read as [content|e0].
  2:{ cbn [try_except]. intros H. left. exists e0.
      destruct (is_HTTPException e0); injection H as <- <-; auto. }
  intros H. right. exists content. split; [reflexivity|].
  unfold upload_checked, upload_parse_and_store in H.
  destruct content as [|b content].
  { injection H as <- <-. left. split; [reflexivity|]. left. auto. }
  destruct (max_upload_size <? Z.of_nat (List.length (b :: content))) eqn:Hbig.
  { injection H as <- <-. left. split; [reflexivity|]. right. left.
    apply Z.ltb_lt in Hbig. repeat split; [discriminate|exact Hbig]. }
  apply Z.ltb_ge in Hbig.
  destruct (starts_with_BZ (b :: content)) eqn:Hbz; cbn [negb] in H.
  2:{ injection H as <- <-. left. split; [reflexivity|]. right. right.
      repeat split; [discriminate|exact Hbig]. }
  right. split; [discriminate|]. split; [exact Hbig|]. split; [reflexivity|].
  fold parse in H.
  destruct (parse env (b :: content) filename) as [bundle|e1] eqn:Hparse.
  - right.
    destruct (file_store_save files upload_uuid (model_dict bundle))
      as [[[]|e1] files1] eqn:Hsave.
    + rewrite new_UploadResponse_Ok in H. discriminate.
    + exists bundle, e1. split; [reflexivity|].
      cbn [try_except] in H.
      destruct (is_ValueError e1); injection H as <- <-; auto.
  - left. exists e1.
    pose proof (parse_file_raise_kind _ _ _ _ _ _ _ _ _ v_str_str v_int_int
                  _ _ _ _ Hparse) as Hkind.
    cbn [try_except] in H. unfold is_ValueError in H. rewrite Hkind in H.
    injection H as <- <-. auto.
Qed.

(** X21: with the in-memory store, an upload that passes the checks and
    parses is answered with the id drawn on entry, the file name, the
    status ["completed"] and the length of the upload; the bundle is stored
    under that id, where [get] finds it; and the [file_id] inside the
    stored bundle's metadata is the one [parse_file] drew for itself, not
    the id the bundle is stored under. *)
Theorem upload_stores_the_parsed_bundle upload_uuid env files content filename bundle :
  content <> [] ->
  Z.of_nat (List.length content) <= max_upload_size ->
  starts_with_BZ content = true ->
  parse env content filename = Ok bundle ->
  let files' := FileStore_save files upload_uuid (model_dict bundle) in
  upload_in_memory upload_uuid env files (Ok content) filename
  = (Ok {| Upload.file_id := upload_uuid; Upload.file_name := filename;
           Upload.status := pys "completed";
           Upload.size_bytes := Z.of_nat (List.length content) |},
     files') /\
  FileStore_get files' upload_uuid = Some (model_dict bundle) /\
  file_id (file_metadata bundle) = env_uuid env.
Proof.
  intros Hne Hsmall Hbz Hparse files'.
  split; [|split].
  - subst upload_in_memory parse.
    unfold upload_file, upload_checked, upload_parse_and_store.
    destruct content as [|b content]; [congruence|].
    apply Z.ltb_ge in Hsmall. rewrite Hsmall, Hbz. cbn [negb].
    rewrite Hparse. unfold FileStore_save_call.
    rewrite new_UploadResponse_Ok. reflexivity.
  - apply dict_lookup_set_same.
  - eapply parse_file_Ok_file_id; eassumption.
Qed.

(** X23: [delete_file] answers 404 for an id that is not stored and
    leaves the store alone; for a stored document it removes it, after
    which [get_file_data] answers 404 for that id while the other ids
    still hold their documents. *)
Theorem delete_file_removes_the_document files file_id :
  (FileStore_get files file_id = None ->
   delete_file files file_id
   = (Raise (Exn (HTTPException 404) (pys "File not found")), files)) /\
  (forall file_data,
     distinct_ids files ->
     FileStore_get files file_id = Some file_data ->
     py_truthy file_data = true ->
     exists message files',
       delete_file files file_id = (Ok message, files') /\
       get_file_data parse_obj files' file_id
       = Raise (Exn (HTTPException 404) (pys "File not found")) /\
       (forall other, other <> file_id ->
          FileStore_get files' other = FileStore_get files other)).
Proof.
  unfold delete_file, get_file_data. split.
  - intros ->. reflexivity.
  - intros file_data Hnd Hget Htruthy. rewrite Hget, Htruthy. cbn [negb].
    eexists. eexists. split; [reflexivity|].
    unfold FileStore_delete, FileStore_get in *. rewrite Hget.
    rewrite (dict_lookup_del_same _ _ Hnd). split; [reflexivity|].
    intros other Hother. now apply dict_lookup_del_other.
Qed.

End EndpointFacts.

(** X22: an upload fails in these ways only.  When reading the upload
    raises, the answer is 500 "Upload failed" (an [HTTPException] is passed
    on as it is) and the store is untouched.  When a check refuses the
    upload, the answer is 400 or 413 and the store is untouched.  When the
    parser raises, the answer is 400 "Parsing error: " followed by the
    parser's message and the store is untouched.  When the store's [save]
    raises, the answer is 400 "Parsing error: ..." for a [ValueError] and
    500 "Internal server error" for anything else, and the store is as
    [save] left it.  With the in-memory store, whose [save] returns, an
    upload that was read and fails is therefore answered 400 or 413 and
    leaves the store as it was. *)
Theorem upload_failure_statuses v_str v_int v_float v_bool float_of_str
    json_loads bz2_decompress utf8_decode utf8_encode model_dict
    upload_uuid env filename :
  (forall s, v_str (PStr s) = Some s) ->
  (forall z, v_int (PInt z) = Some z) ->
  let parse :=
    parse_file v_str v_int v_float v_bool float_of_str json_loads
      bz2_decompress utf8_decode utf8_encode in
  let upload :=
    upload_file v_str v_int v_float v_bool float_of_str json_loads
      bz2_decompress utf8_decode utf8_encode model_dict in
  (forall Store file_store_save (files : Store) read e files',
     upload Store file_store_save upload_uuid env files read filename
     = (Raise e, files') ->
     (exists e0,
        read = Raise e0 /\ files' = files /\
        e = if is_HTTPException e0 then e0
            else Exn (HTTPException 500) (pys "Upload failed")) \/
     (exists content,
        read = Ok content /\
        ((files' = files /\
          (content = [] /\ e = Exn (HTTPException 400) (pys "Empty file") \/
           content <> [] /\ max_upload_size < Z.of_nat (List.length content) /\
           e = Exn (HTTPException 413) (pys "File too large (max 500MB)") \/
           content <> [] /\ Z.of_nat (List.length content) <= max_upload_size /\
           starts_with_BZ content = false /\
           e = Exn (HTTPException 400)
                 (pys "Invalid file format. Expected BZip2 compressed file (.bz2)"))) \/
         (content <> [] /\ Z.of_nat (List.length content) <= max_upload_size /\
          starts_with_BZ content = true /\
          ((exists e0,
              parse env content filename = Raise e0 /\ files' = files /\
              e = Exn (HTTPException 400) (pys "Parsing error: " ++ exn_str e0)) \/
           (exists bundle e1,
              parse env content filename = Ok bundle /\
              file_store_save files upload_uuid (model_dict bundle)
              = (Raise e1, files') /\
              e = if is_ValueError e1
                  then Exn (HTTPException 400)
                         (pys "Parsing error: " ++ exn_str e1)
                  else Exn (HTTPException 500)
                         (pys "Internal server error"))))))) /\
  (forall files content e files',
     upload FileStore FileStore_save_call upload_uuid env files (Ok content)
       filename = (Raise e, files') ->
     files' = files /\
     exists detail, e = Exn (HTTPException 400) detail
                    \/ e = Exn (HTTPException 413) detail).
Proof.
  intros Hstr Hint parse upload. split.
  - intros Store file_store_save files read e files' H.
    exact (upload_failure_cases v_str v_int v_float v_bool float_of_str
             json_loads bz2_decompress utf8_decode utf8_encode model_dict
             Store file_store_save Hstr Hint upload_uuid env files read
             filename e files' H).
  - intros files content e files' H.
    destruct (upload_failure_cases v_str v_int v_float v_bool float_of_str
                json_loads bz2_decompress utf8_decode utf8_encode model_dict
                FileStore FileStore_save_call Hstr Hint upload_uuid env files
                (Ok content) filename e files' H)
      as [(e0 & Hread & _)|(content' & Hread & Hcases)]; [discriminate|].
    destruct Hcases as [(-> & Hcheck)|(_ & _ & _ & Hrun)].
    + split; [reflexivity|].
      destruct Hcheck as [(_ & ->)|[(_ & _ & ->)|(_ & _ & _ & ->)]]; eauto.
    + destruct Hrun as [(e0 & _ & -> & ->)|(bundle & e1 & _ & Hsave & _)].
      * split; [reflexivity|]. eauto.
      * discriminate.
Qed.

(* ================================================================== *)
(** * Ladder rows keep their length *)

Section LadderLengths.

Variable v_float : pyval -> option float.
Variable float_of_str : pystr -> option float.

Lemma v_list_length {A B : Type} (v : A -> option B) (l : list A) (l' : list B) :
  v_list v l = Some l' -> List.length l' = List.length l.
Proof.
  revert l'. induction l as [|x l IH]; simpl; intros l' H.
  - now injection H as <-.
  - destruct (v x); [|discriminate].
    destruct (v_list v l) as [ys|]; [|discriminate].
    injection H as <-. simpl. f_equal. now apply IH.
Qed.

Lemma v_list_Forall2 {A B : Type} (v : A -> option B) (l : list A) (l' : list B) :
  v_list v l = Some l' -> Forall2 (fun x y => v x = Some y) l l'.
Proof.
  revert l'. induction l as [|x l IH]; simpl; intros l' H.
  - injection H as <-. constructor.
  - destruct (v x) eqn:Ex; [|discriminate].
    destruct (v_list v l) as [ys|]; [|discriminate].
    injection H as <-. constructor; [exact Ex|now apply IH].
Qed.

(** X15: normalization does not enforce the pair shape of a ladder: in
    the typed ladder a list element keeps its length, whatever it is, and
    only a scalar element gives a row of length two. *)
Theorem ladder_rows_keep_their_length items rows :
  ladder_of v_float float_of_str (PList items) = Ok rows ->
  Forall2 (fun item row =>
             List.length row = match item with
                               | PList l => List.length l
                               | _ => 2%nat
                               end)
          items rows.
Proof.
  unfold ladder_of. intros H. bind_inv H as formatted Hf.
  apply validated_Ok in H.
  rewrite format_price_stakes_list in Hf. bind_inv Hf as out Hout.
  injection Hf as <-. apply mapM_format_item_Ok in Hout.
  simpl in H. apply v_list_Forall2 in H.
  revert rows H. induction Hout as [|item o items out Ho _ IH]; intros rows H.
  - inversion H. constructor.
  - inversion H as [|? row ? rows' Hrow Hrows]; subst.
    constructor; [|now apply IH].
    unfold formatted_as in Ho.
    destruct item; cbv beta iota in Ho;
      try (destruct Ho as (fl & _ & ->);
           apply v_list_length in Hrow; exact Hrow).
    subst o. apply v_list_length in Hrow. exact Hrow.
Qed.

End LadderLengths.

(* ================================================================== *)
(** * The further properties at work on concrete inputs *)

Lemma missing_market_fields_witness :
  exists m, sample_extract scenario_record = Ok m /\
            market_type m = pys "UNKNOWN" /\ event_name m = Some [] /\
            number_of_winners m = 1 /\ version m = None.
Proof.
  destruct (sample_extract scenario_record) as [m|e] eqn:E;
    [|vm_compute in E; discriminate E].
  exists m. split; [reflexivity|].
  destruct (missing_market_fields_take_defaults strict_str strict_int
              strict_float strict_bool digits_float (fun s => eq_refl)
              (fun z => eq_refl) (fun f => eq_refl) (fun b => eq_refl)
              scenario_record m E)
    as (H1 & _ & H3 & _ & _ & _ & _ & _ & _ & H10 & _ & H12).
  repeat split; [apply H1|apply H3|apply H10|apply H12];
    vm_compute; reflexivity.
Defined.

Lemma default_snapshot_witness :
  sample_extract (PDict [(pys "op", PStr (pys "mcm")); (pys "clk", PInt 7)])
  = Ok default_market.
Proof.
  apply (record_without_market_data_gets_default_snapshot strict_str strict_int
           strict_float strict_bool digits_float (fun s => eq_refl)
           (fun z => eq_refl) (fun f => eq_refl) (fun b => eq_refl)).
  repeat constructor.
Defined.

Lemma non_object_record_witness :
  (exists msg, sample_extract (PInt 42) = Raise (Exn AttributeError msg)) /\
  (forall pre post,
     extract_markets strict_str strict_int strict_float strict_bool digits_float
       (pre ++ PInt 42 :: post)
     = extract_markets strict_str strict_int strict_float strict_bool
         digits_float (pre ++ post)).
Proof.
  apply (non_object_record_is_skipped strict_str strict_int strict_float
           strict_bool digits_float (PInt 42)).
  intros kvs. discriminate.
Defined.

Lemma missing_runner_fields_witness :
  exists r,
    extract_runner strict_str strict_int strict_float digits_float (PDict [])
      (PDict [(pys "id", PInt 111)]) = Ok r /\
    status r = pys "ACTIVE" /\ last_price_traded r = None /\
    adjustment_factor r = Some 1%float /\ near_price (bsp r) = None.
Proof.
  destruct (extract_runner strict_str strict_int strict_float digits_float
              (PDict []) (PDict [(pys "id", PInt 111)])) as [r|e] eqn:E;
    [|vm_compute in E; discriminate E].
  exists r. split; [reflexivity|].
  destruct (missing_runner_fields_take_defaults strict_str strict_int
              strict_float digits_float (fun s => eq_refl) (fun f => eq_refl)
              (PDict []) (PDict [(pys "id", PInt 111)]) r E)
    as (H1 & H2 & H3 & H4 & _).
  repeat split; [apply H1|apply H2|apply H3|apply H4]; vm_compute; reflexivity.
Defined.

Lemma runners_follow_book_entries_witness :
  exists m, sample_extract named_record = Ok m /\
            map selection_id (runners m) = [111].
Proof.
  destruct (sample_extract named_record) as [m|e] eqn:E;
    [|vm_compute in E; discriminate E].
  exists m. split; [reflexivity|].
  destruct (runners_follow_book_entries strict_str strict_int strict_float
              strict_bool digits_float (fun z => eq_refl) named_record m E)
    as (_ & _ & Hids).
  apply (Hids [111]). vm_compute. reflexivity.
Defined.

Lemma catalogue_is_read_for_names_only_witness :
  sample_extract
    (PDict [(pys "marketCatalogue",
             PDict [(pys "totalMatched", PInt 5);
                    (pys "marketName", PStr (pys "Win"))])])
  = sample_extract
      (PDict [(pys "marketCatalogue", PDict [(pys "marketName", PStr (pys "Win"))])]).
Proof.
  apply (catalogue_is_read_for_names_only strict_str strict_int strict_float
           strict_bool digits_float (pys "totalMatched") (PInt 5)).
  vm_compute. reflexivity.
Defined.

Lemma blank_text_witness :
  parse_json_stream sample_loads (pys "  " ++ [10%N; 9%N; 10%N]) = Ok [] /\
  sample_parse sample_bz2 sample_env
    (sample_encode (pys "  " ++ [10%N; 9%N; 10%N])) (pys "a.bz2")
  = Raise (Exn ValueError (pys "No valid records found in file")).
Proof.
  destruct (blank_text_has_no_records strict_str strict_int strict_float
              strict_bool digits_float sample_loads sample_bz2 sample_decode
              sample_encode (pys "  " ++ [10%N; 9%N; 10%N]) eq_refl)
    as [Hnone Hraise].
  split; [exact Hnone|]. apply Hraise. vm_compute. reflexivity.
Defined.

Lemma decompression_failure_witness :
  sample_parse failing_bz2 sample_env upload_content (pys "a.bz2")
  = Raise (Exn ValueError
             (pys "Decompression failed: " ++ pys "Failed to decompress file: "
              ++ pys "Invalid data stream")).
Proof.
  apply (decompression_failure_is_a_ValueError strict_str strict_int
           strict_float strict_bool digits_float sample_loads failing_bz2
           sample_decode sample_encode sample_env upload_content (pys "a.bz2")
           (Exn OSError (pys "Invalid data stream"))).
  left. reflexivity.
Defined.

Lemma parse_file_raises_only_ValueError_witness :
  exists e,
    sample_parse sample_bz2_strip sample_env bad_upload_content (pys "a.bz2")
    = Raise e /\ exn_kind_of e = ValueError.
Proof.
  destruct (sample_parse sample_bz2_strip sample_env bad_upload_content
              (pys "a.bz2")) as [r|e] eqn:E;
    [vm_compute in E; discriminate E|].
  exists e. split; [reflexivity|].
  apply (parse_file_raises_only_ValueError strict_str strict_int strict_float
           strict_bool digits_float sample_loads sample_bz2_strip sample_decode
           sample_encode (fun s => eq_refl) (fun z => eq_refl) sample_env
           bad_upload_content (pys "a.bz2") e E).
Defined.

Lemma parse_file_reports_witness :
  exists response,
    sample_parse sample_bz2 sample_env sample_file (pys "a.bz2") = Ok response /\
    total_records (processing_stats response) = 1 /\
    total_runners (processing_stats response)
    = sum_number_of_runners (markets response).
Proof.
  destruct (sample_parse sample_bz2 sample_env sample_file (pys "a.bz2"))
    as [response|e] eqn:E; [|vm_compute in E; discriminate E].
  exists response. split; [reflexivity|].
  destruct (parse_file_reports_sizes_and_counts strict_str strict_int
              strict_float strict_bool digits_float sample_loads sample_bz2
              sample_decode sample_encode (fun s => eq_refl) (fun z => eq_refl)
              sample_env sample_file (pys "a.bz2") response E)
    as (content & records & Hdec & Hstream & _ & _ & _ & _ & _ & Hrec & _ & _
        & Hrun).
  split; [|exact Hrun].
  rewrite Hrec. vm_compute in Hdec. injection Hdec as <-.
  vm_compute in Hstream. injection Hstream as <-. reflexivity.
Defined.

Lemma csv_has_one_row_per_runner_witness :
  exists rows,
    csv_rows (fun _ => pys "0") (fun _ => pys "0.0")
      [scenario_market; default_market] true = Ok rows /\
    List.length rows = 1%nat.
Proof.
  destruct (sample_to_csv [scenario_market; default_market] true)
    as [text|e] eqn:E; [|vm_compute in E; discriminate E].
  destruct (csv_has_one_row_per_runner (fun _ => pys "0") (fun _ => pys "0.0")
              [scenario_market; default_market] true text E)
    as (rows & Hrows & _ & Hlen).
  exists rows. split; [exact Hrows|exact Hlen].
Defined.

Lemma export_file_raises_witness :
  exists e,
    sample_export {| format := pys "pdf"; include_prices := false;
                     runner_filter := None |} = Raise e /\
    (e = Exn (HTTPException 404) (pys "File not found") \/
     e = Exn (HTTPException 500) (pys "Export failed")).
Proof.
  destruct (sample_export {| format := pys "pdf"; include_prices := false;
                             runner_filter := None |}) as [r|e] eqn:E;
    [vm_compute in E; discriminate E|].
  exists e. split; [reflexivity|].
  apply (export_file_raises_404_or_500 (fun _ => pys "0") (fun _ => pys "0.0")
           (fun _ => PDict []) (fun _ _ => Ok (pys "{}"))
           (fun _ => Ok sample_response) sample_store ascii_lower (pys "f1")
           {| format := pys "pdf"; include_prices := false;
              runner_filter := None |} e E).
Defined.

Lemma ladder_rows_keep_their_length_witness :
  exists rows,
    ladder_of strict_float digits_float
      (PList [PList [PFloat 1%float; PFloat 2%float; PFloat 3%float];
              PFloat 4%float]) = Ok rows /\
    map (@List.length float) rows = [3%nat; 2%nat].
Proof.
  destruct (ladder_of strict_float digits_float
              (PList [PList [PFloat 1%float; PFloat 2%float; PFloat 3%float];
                      PFloat 4%float])) as [rows|e] eqn:E;
    [|vm_compute in E; discriminate E].
  exists rows. split; [reflexivity|].
  pose proof (ladder_rows_keep_their_length strict_float digits_float _ rows E)
    as HF.
  inversion HF as [|? r1 ? rest1 H1 HF1]; subst.
  inversion HF1 as [|? r2 ? rest2 H2 HF2]; subst.
  inversion HF2; subst. simpl. rewrite H1, H2. reflexivity.
Defined.

Lemma delete_then_get_witness :
  FileStore_get (FileStore_delete sample_files (pys "f1")) (pys "f1") = None.
Proof.
  apply (delete_then_get sample_files (pys "f1")).
  repeat constructor. simpl. tauto.
Defined.

Lemma cloud_listing_witness :
  exists metadata entry,
    _extract_metadata (fun _ => pys "None") sample_document = Ok metadata /\
    cloud_list_entry metadata = Ok entry /\
    getd (getd entry (pys "processing_stats") PNone) (pys "total_records") PNone
    = PInt 2.
Proof.
  destruct (_extract_metadata (fun _ => pys "None") sample_document)
    as [metadata|e] eqn:E; [|vm_compute in E; discriminate E].
  destruct (cloud_listing_entry_of_document (fun _ => pys "None")
              sample_document metadata E)
    as (entry & n & Hentry & Hlen & Hrec & _).
  exists metadata, entry. split; [reflexivity|]. split; [exact Hentry|].
  rewrite Hrec. vm_compute in Hlen. injection Hlen as <-. reflexivity.
Defined.

Lemma upload_stores_witness :
  exists response files',
    sample_upload (pys "u-1") sample_env [] (Ok upload_content) (pys "a.bz2")
    = (Ok response, files') /\
    Upload.file_id response = pys "u-1" /\
    exists bundle, FileStore_get files' (pys "u-1") = Some (sample_model_dict bundle) /\
                   file_id (file_metadata bundle) = pys "0000".
Proof.
  destruct (sample_parse sample_bz2_strip sample_env upload_content (pys "a.bz2"))
    as [bundle|e] eqn:E; [|vm_compute in E; discriminate E].
  destruct (upload_stores_the_parsed_bundle strict_str strict_int strict_float
              strict_bool digits_float sample_loads sample_bz2_strip
              sample_decode sample_encode sample_model_dict (fun s => eq_refl)
              (fun z => eq_refl) (pys "u-1") sample_env [] upload_content
              (pys "a.bz2") bundle)
    as (Hup & Hget & Hid).
  - discriminate.
  - vm_compute. discriminate.
  - reflexivity.
  - exact E.
  - eexists. eexists. split; [exact Hup|]. split; [reflexivity|].
    exists bundle. split; [exact Hget|exact Hid].
Defined.

Lemma upload_failure_witness :
  sample_upload (pys "u-1") sample_env sample_files (Ok bad_upload_content)
    (pys "a.bz2")
  = (Raise (Exn (HTTPException 400)
              (pys "Parsing error: " ++ pys "No valid records found in file")),
     sample_files) /\
  (exists e,
     upload_file strict_str strict_int strict_float strict_bool digits_float
       sample_loads sample_bz2_strip sample_decode sample_encode
       sample_model_dict FileStore failing_save (pys "u-1") sample_env
       sample_files (Ok upload_content) (pys "a.bz2")
     = (Raise e, sample_files) /\
     e = Exn (HTTPException 500) (pys "Internal server error")).
Proof.
  destruct (upload_failure_statuses strict_str strict_int strict_float
              strict_bool digits_float sample_loads sample_bz2_strip
              sample_decode sample_encode sample_model_dict (pys "u-1")
              sample_env (pys "a.bz2") (fun s => eq_refl) (fun z => eq_refl))
    as [Hcases Hmemory].
  split.
  - destruct (sample_upload (pys "u-1") sample_env sample_files
                (Ok bad_upload_content) (pys "a.bz2"))
      as [[r|e] files'] eqn:E; [vm_compute in E; discriminate E|].
    destruct (Hmemory _ _ _ _ E) as [-> _].
    destruct (Hcases _ _ _ _ _ _ E)
      as [(e0 & Hread & _)|(content & Hread & Hrest)]; [discriminate|].
    injection Hread as <-.
    destruct Hrest as [(_ & Hcheck)|(_ & _ & _ & Hrun)].
    + destruct Hcheck as [(Hc & _)|[(_ & Hc & _)|(_ & _ & Hc & _)]];
        vm_compute in Hc; discriminate Hc.
    + destruct Hrun as [(e0 & Hparse & _ & ->)|(bundle & e1 & Hparse & _)];
        vm_compute in Hparse; [|discriminate Hparse].
      injection Hparse as <-. reflexivity.
  - destruct (upload_file strict_str strict_int strict_float strict_bool
                digits_float sample_loads sample_bz2_strip sample_decode
                sample_encode sample_model_dict FileStore failing_save
                (pys "u-1") sample_env sample_files (Ok upload_content)
                (pys "a.bz2")) as [[r|e] files'] eqn:E;
      [vm_compute in E; discriminate E|].
    destruct (Hcases _ _ _ _ _ _ E)
      as [(e0 & Hread & _)|(content & Hread & Hrest)]; [discriminate|].
    injection Hread as <-.
    destruct Hrest as [(_ & Hcheck)|(_ & _ & _ & Hrun)].
    + destruct Hcheck as [(Hc & _)|[(_ & Hc & _)|(_ & _ & Hc & _)]];
        vm_compute in Hc; discriminate Hc.
    + destruct Hrun as [(e0 & Hparse & _)|(bundle & e1 & _ & Hsave & ->)];
        [vm_compute in Hparse; discriminate Hparse|].
      unfold failing_save in Hsave. injection Hsave as <- <-.
      exists (Exn (HTTPException 500) (pys "Internal server error")).
      split; reflexivity.
Defined.
